(** * WSL Screen Snipper: change detection and deduplicating ingestion

    A shallow embedding of the monitoring core of [src/extension.ts]:
    the module-level variables, the poll-based scanner
    ([checkForNewScreenshots]), the [fs.watch] callback, the ingestion
    pipeline ([handleNewScreenshot], [copyScreenshotToWSL]), the paste
    interceptor and [cleanup].

    Every [fs] call the code makes is synchronous and the only [await]s are
    on promises of [async] functions that contain no asynchronous
    operation, so a timer or watcher callback runs to completion before the
    next one starts.  A callback is therefore one atomic transition on the
    module variables; the order in which callbacks fire is left free. *)

From Stdlib Require Import ZArith NArith Ascii.
From stdpp Require Import base gmap strings list.

Open Scope string_scope.
Open Scope list_scope.

(** ** Observable effects *)

(** What a callback does to the outside world, in program order.  A
    message keeps its fixed text and the paths and names interpolated into
    it; an interpolated error or diagnostic value is left out. *)
Inductive effect : Type :=
| console_log (msg : string)
| console_warn (msg : string)
| console_error (msg : string)
| showInformationMessage (msg : string)
| showErrorMessage (msg : string)
| copyFile (src dst : string) (ok : bool)   (* fs.copyFileSync(src, dst); [ok = false]: it threw *)
| spawn_clip (text : string)                (* clip.exe fed with [text] *)
| watcher_close (dir : string)              (* fileWatcher.close() *)
| clearInterval (dir : string)              (* clearInterval(pollingInterval) *)
| rmSync (dir : string) (ok : bool)         (* fs.rmSync(dir, {recursive, force}) *)
| sendText (text : string)                  (* activeTerminal.sendText(text, false) *)
| terminal_paste.                           (* workbench.action.terminal.paste *)

(** ** Module-level variables *)

(** [fs.watch] returns a handle whose callback closes over the watched
    directory; [setInterval] returns a handle whose callback closes over the
    polled directory. *)
Record FSWatcher : Type := { watched : string }.
Record Timeout : Type := { polled : string; every_ms : Z }.

Record Globals : Type := {
  screenshotDir : option string;
  fileWatcher : option FSWatcher;
  lastSavedImagePath : option string;
  processedFiles : gset string;
  pollingInterval : option Timeout;
  lastScreenshotCheck : Z
}.

(** The values the [let] declarations at the top of the file give. *)
Definition initial : Globals :=
  {| screenshotDir := None; fileWatcher := None; lastSavedImagePath := None;
     processedFiles := ∅; pollingInterval := None; lastScreenshotCheck := 0 |}.

Definition set_fileWatcher (v : option FSWatcher) (g : Globals) : Globals :=
  {| screenshotDir := screenshotDir g; fileWatcher := v;
     lastSavedImagePath := lastSavedImagePath g; processedFiles := processedFiles g;
     pollingInterval := pollingInterval g; lastScreenshotCheck := lastScreenshotCheck g |}.

Definition set_lastSavedImagePath (v : option string) (g : Globals) : Globals :=
  {| screenshotDir := screenshotDir g; fileWatcher := fileWatcher g;
     lastSavedImagePath := v; processedFiles := processedFiles g;
     pollingInterval := pollingInterval g; lastScreenshotCheck := lastScreenshotCheck g |}.

Definition set_processedFiles (v : gset string) (g : Globals) : Globals :=
  {| screenshotDir := screenshotDir g; fileWatcher := fileWatcher g;
     lastSavedImagePath := lastSavedImagePath g; processedFiles := v;
     pollingInterval := pollingInterval g; lastScreenshotCheck := lastScreenshotCheck g |}.

Definition set_pollingInterval (v : option Timeout) (g : Globals) : Globals :=
  {| screenshotDir := screenshotDir g; fileWatcher := fileWatcher g;
     lastSavedImagePath := lastSavedImagePath g; processedFiles := processedFiles g;
     pollingInterval := v; lastScreenshotCheck := lastScreenshotCheck g |}.

Definition set_lastScreenshotCheck (v : Z) (g : Globals) : Globals :=
  {| screenshotDir := screenshotDir g; fileWatcher := fileWatcher g;
     lastSavedImagePath := lastSavedImagePath g; processedFiles := processedFiles g;
     pollingInterval := pollingInterval g; lastScreenshotCheck := v |}.

(** ** A monad for the callbacks: module variables, effects, exceptions *)

Inductive completion (A : Type) : Type :=
| Normal (a : A)     (* the call returned [a] *)
| Thrown.            (* an exception escaped the call *)
Arguments Normal {A} a.
Arguments Thrown {A}.

Definition M (A : Type) : Type := Globals -> completion A * Globals * list effect.

Definition ret {A} (a : A) : M A := fun g => (Normal a, g, []).

Definition bind {A B} (m : M A) (k : A -> M B) : M B :=
  fun g =>
    match m g with
    | (Normal a, g1, e1) =>
        match k a g1 with
        | (r, g2, e2) => (r, g2, e1 ++ e2)
        end
    | (Thrown, g1, e1) => (Thrown, g1, e1)
    end.

Definition throw {A} : M A := fun g => (Thrown, g, []).

(** [try { body } catch (error) { handler }] *)
Definition try_catch {A} (body handler : M A) : M A :=
  fun g =>
    match body g with
    | (Normal a, g1, e1) => (Normal a, g1, e1)
    | (Thrown, g1, e1) =>
        match handler g1 with
        | (r, g2, e2) => (r, g2, e1 ++ e2)
        end
    end.

Definition get : M Globals := fun g => (Normal g, g, []).
Definition modify (f : Globals -> Globals) : M unit := fun g => (Normal tt, f g, []).
Definition emit (e : effect) : M unit := fun g => (Normal tt, g, [e]).

Notation "x <- m ;; k" := (bind m (fun x => k))
  (at level 100, m at next level, right associativity).
Notation "m ;; k" := (bind m (fun _ => k))
  (at level 100, right associativity).

Definition result_of {A} (r : completion A * Globals * list effect) : completion A := r.1.1.
Definition globals_of {A} (r : completion A * Globals * list effect) : Globals := r.1.2.
Definition effects_of {A} (r : completion A * Globals * list effect) : list effect := r.2.

(** ** The outside world as one callback sees it *)

Module fs.

Record Stats : Type := { isFile : bool; size : N; mtime : Z }.

(** The answers of the file system, the clock, the settings and the
    process table during one callback.  [stat p = None] means
    [fs.statSync(p)] throws; [readdir d = None] means [fs.readdirSync(d)]
    throws.  [exists_] is independent of [stat]: a file can vanish between
    the two calls. *)
Record World : Type := {
  exists_ : string -> bool;
  stat : string -> option Stats;
  readdir : string -> option (list string);
  copy_ok : string -> string -> bool;
  watch_ok : string -> bool;
  rm_ok : string -> bool;
  spawn_ok : bool;
  now : Z;
  cfg_pollingInterval : Z;
  cfg_autoCleanup : bool
}.

Definition existsSync (w : World) (p : string) : M bool := ret (exists_ w p).

Definition statSync (w : World) (p : string) : M Stats :=
  match stat w p with
  | Some s => ret s
  | None => throw
  end.

Definition readdirSync (w : World) (d : string) : M (list string) :=
  match readdir w d with
  | Some l => ret l
  | None => throw
  end.

Definition copyFileSync (w : World) (src dst : string) : M unit :=
  if copy_ok w src dst then emit (copyFile src dst true)
  else (emit (copyFile src dst false);; throw).

End fs.

(** [path.join] and [path.basename] are Node library functions; the
    development is parametric in them. *)
Module path.
Class Lib : Type := { join : string -> string -> string; basename : string -> string }.
End path.

(** ** Strings *)

(** [s.endsWith(suffix)] *)
Definition endsWith (s suffix : string) : bool :=
  let n := String.length s in
  let m := String.length suffix in
  (m <=? n)%nat && String.eqb (String.substring (n - m) m s) suffix.

(** JavaScript truthiness of a [string | undefined]. *)
Definition truthy (s : option string) : option string :=
  match s with
  | Some v => if String.eqb v EmptyString then None else Some v
  | None => None
  end.

(** The test both detectors apply to a file name. *)
Definition qualifies (filename : string) : bool :=
  endsWith filename ".png" || endsWith filename ".jpg" || endsWith filename ".jpeg".

(** ** The ingestion pipeline and the detectors *)

Section Core.
Context {L : path.Lib}.

(** [copyToClipboard]: fire-and-forget [clip.exe]; a failure to spawn is
    caught and logged. *)
Definition copyToClipboard (w : fs.World) (text : string) : M unit :=
  try_catch
    ((if fs.spawn_ok w then emit (spawn_clip text) else throw);;
     emit (console_log ("Copied to clipboard: " +:+ text)))
    (emit (console_error "Failed to copy to clipboard:")).

Definition copyScreenshotToWSL (w : fs.World) (sourceFile : string) : M (option string) :=
  g <- get;;
  match truthy (screenshotDir g) with
  | None =>
      emit (console_error "Screenshot directory not initialized");;
      emit (showErrorMessage "Screenshot directory not initialized");;
      ret None
  | Some dir =>
      try_catch
        (let fileName := path.basename sourceFile in
         let targetPath := path.join dir fileName in
         fs.copyFileSync w sourceFile targetPath;;
         copyToClipboard w targetPath;;
         emit (showInformationMessage ("Screenshot copied: " +:+ fileName));;
         ret (Some targetPath))
        (emit (showErrorMessage "Error copying screenshot: ");;
         ret None)
  end.

Definition handleNewScreenshot (w : fs.World) (filePath : string) : M unit :=
  g <- get;;
  if decide (filePath ∈ processedFiles g) then ret tt
  else
    try_catch
      (present <- fs.existsSync w filePath;;
       if negb present then ret tt
       else
         stats <- fs.statSync w filePath;;
         if negb (fs.isFile stats) || (fs.size stats =? 0)%N then ret tt
         else
           modify (fun g => set_processedFiles ({[filePath]} ∪ processedFiles g) g);;
           wslPath <- copyScreenshotToWSL w filePath;;
           match truthy wslPath with
           | Some p => modify (set_lastSavedImagePath (Some p))
           | None => ret tt
           end)
      (emit (console_error ("Error processing screenshot " +:+ filePath +:+ ":"))).

(** The object literal built in the scan loop. *)
Record NewestFile : Type := { name : string; path : string; mtime : Z }.

(** One iteration of [for (const filename of files)] on the loop
    variables [newestFile] and [newestTime]. *)
Definition scan_step (w : fs.World) (windowsScreenshotsPath : string)
    (acc : option NewestFile * Z) (filename : string) : option NewestFile * Z :=
  let '(newestFile, newestTime) := acc in
  if qualifies filename then
    let fullPath := path.join windowsScreenshotsPath filename in
    match fs.stat w fullPath with
    | Some stats =>
        let mtime := fs.mtime stats in
        if (mtime >? newestTime)%Z
        then (Some {| name := filename; path := fullPath; mtime := mtime |}, mtime)
        else acc
    | None => acc    (* catch (statError) { continue; } *)
    end
  else acc.

Definition scan (w : fs.World) (windowsScreenshotsPath : string)
    (files : list string) (watermark : Z) : option NewestFile * Z :=
  fold_left (scan_step w windowsScreenshotsPath) files (None, watermark).

Definition checkForNewScreenshots (w : fs.World) (windowsScreenshotsPath : string) : M unit :=
  try_catch
    (g <- get;;
     files <- fs.readdirSync w windowsScreenshotsPath;;
     match (scan w windowsScreenshotsPath files (lastScreenshotCheck g)).1 with
     | Some newestFile =>
         emit (console_log ("Found new screenshot: " +:+ name newestFile));;
         modify (set_lastScreenshotCheck (mtime newestFile));;
         handleNewScreenshot w (path newestFile)
     | None => ret tt
     end)
    (emit (console_error "Error during polling check: ")).

(** The callback given to [fs.watch].  [Some fullPath] means
    [setTimeout(() => handleNewScreenshot(fullPath), 1000)] was called;
    [filename] is [None] when the platform reports no name. *)
Definition watchCallback (windowsScreenshotsPath eventType : string)
    (filename : option string) : option string :=
  if String.eqb eventType "rename" then
    match truthy filename with
    | Some f =>
        if qualifies f then Some (path.join windowsScreenshotsPath f) else None
    | None => None
    end
  else None.

(** [startFileMonitoring], given the value [getWindowsScreenshotsPath()]
    returned. *)
Definition startFileMonitoring (w : fs.World) (windowsScreenshotsPath : string) : M bool :=
  match truthy (Some windowsScreenshotsPath) with
  | None =>
      emit (console_error "Windows Screenshots path not configured");;
      ret false
  | Some _ =>
      present <- fs.existsSync w windowsScreenshotsPath;;
      if negb present then
        emit (console_error ("Windows Screenshots directory not found: " +:+ windowsScreenshotsPath));;
        emit (showErrorMessage ("Screenshots directory not found: " +:+ windowsScreenshotsPath
                                +:+ ". Please check your Windows username setting."));;
        ret false
      else
        modify (set_lastScreenshotCheck (fs.now w));;
        try_catch
          ((if fs.watch_ok w windowsScreenshotsPath
            then modify (set_fileWatcher (Some {| watched := windowsScreenshotsPath |}))
            else throw);;
           emit (console_log ("Primary monitoring (fs.watch) started for: " +:+ windowsScreenshotsPath)))
          (emit (console_warn "fs.watch failed: "));;
        modify (set_pollingInterval
                  (Some {| polled := windowsScreenshotsPath;
                           every_ms := fs.cfg_pollingInterval w |}));;
        emit (console_log ("Polling-based monitoring started for: " +:+ windowsScreenshotsPath));;
        ret true
  end.

(** The command registered by [registerPasteInterceptor];
    [activeTerminal] tells whether [vscode.window.activeTerminal] is set. *)
Definition interceptPaste (activeTerminal : bool) : M unit :=
  g <- get;;
  emit (console_log "Paste interceptor triggered.");;
  match truthy (lastSavedImagePath g) with
  | Some p =>
      if activeTerminal then
        emit (console_log ("Sending WSL path to terminal: " +:+ p));;
        emit (sendText p);;
        emit (showInformationMessage ("Pasted screenshot path: " +:+ path.basename p))
      else
        emit (console_log "Falling back to normal paste");;
        emit terminal_paste
  | None =>
      emit (console_log "Falling back to normal paste");;
      emit terminal_paste
  end.

Definition cleanup (w : fs.World) : M unit :=
  g <- get;;
  match fileWatcher g with
  | Some h => emit (watcher_close (watched h));; modify (set_fileWatcher None)
  | None => ret tt
  end;;
  g <- get;;
  match pollingInterval g with
  | Some t => emit (clearInterval (polled t));; modify (set_pollingInterval None)
  | None => ret tt
  end;;
  modify (set_processedFiles ∅);;
  g <- get;;
  if fs.cfg_autoCleanup w then
    match truthy (screenshotDir g) with
    | Some dir =>
        present <- fs.existsSync w dir;;
        if present then
          try_catch
            ((if fs.rm_ok w dir then emit (rmSync dir true)
              else (emit (rmSync dir false);; throw));;
             emit (console_log ("Cleaned up and removed screenshot directory: " +:+ dir)))
            (emit (console_error "Failed to cleanup screenshot directory:"))
        else ret tt
    | None => ret tt
    end
  else ret tt.

(** ** A monitoring session *)

(** The module variables together with the settle timers
    ([setTimeout(..., 1000)]) that have not fired yet, each holding the
    path its callback closes over. *)
Record Session : Type := { globals : Globals; timers : list string }.

(** What the runtime can deliver while a session is monitoring: a
    notification from [fs.watch], the expiry of a pending settle timer (in
    any order), a tick of the polling interval.  Each callback sees its own
    world.  A notification is delivered only while the watcher handle is
    held and a tick only while the interval handle is held.  The manual
    command [wslScreenSnipper.saveImage], which calls [copyScreenshotToWSL]
    directly, is not a detector and is not an event of the session. *)
Inductive event : Type :=
| Watch (eventType : string) (filename : option string)
| Settle (i : nat) (w : fs.World)
| Poll (w : fs.World).

Definition step (ev : event) (s : Session) : Session * list effect :=
  match ev with
  | Watch eventType filename =>
      match fileWatcher (globals s) with
      | Some h =>
          match watchCallback (watched h) eventType filename with
          | Some fullPath =>
              ({| globals := globals s; timers := timers s ++ [fullPath] |}, [])
          | None => (s, [])
          end
      | None => (s, [])
      end
  | Settle i w =>
      match timers s !! i with
      | Some fullPath =>
          let r := handleNewScreenshot w fullPath (globals s) in
          ({| globals := globals_of r; timers := delete i (timers s) |}, effects_of r)
      | None => (s, [])
      end
  | Poll w =>
      match pollingInterval (globals s) with
      | Some t =>
          let r := checkForNewScreenshots w (polled t) (globals s) in
          ({| globals := globals_of r; timers := timers s |}, effects_of r)
      | None => (s, [])
      end
  end.

Fixpoint run (evs : list event) (s : Session) : Session * list effect :=
  match evs with
  | [] => (s, [])
  | ev :: evs' =>
      let '(s1, e1) := step ev s in
      let '(s2, e2) := run evs' s1 in
      (s2, e1 ++ e2)
  end.

(** Transfers of the source path [P] among a list of effects: calls of
    [fs.copyFileSync(P, _)], whether they returned or threw. *)
Definition is_transfer (P : string) (e : effect) : bool :=
  match e with
  | copyFile src _ _ => String.eqb src P
  | _ => false
  end.

Definition transfers (P : string) (es : list effect) : nat :=
  length (filter (fun e => is_transfer P e = true) es).

(** ** Closed forms of the callbacks, for the proofs *)

(** The modification time the scan loop reads for a directory entry:
    [None] when the name does not qualify or [fs.statSync] throws. *)
Definition qualifying_mtime (w : fs.World) (windowsScreenshotsPath filename : string)
    : option Z :=
  if qualifies filename
  then fs.mtime <$> fs.stat w (path.join windowsScreenshotsPath filename)
  else None.

(** The existence and validity gate of [handleNewScreenshot]: the file
    exists, [fs.statSync] answers, it is a regular file and not empty. *)
Definition passes_gate (w : fs.World) (filePath : string) : bool :=
  fs.exists_ w filePath &&
  match fs.stat w filePath with
  | Some stats => fs.isFile stats && negb (fs.size stats =? 0)%N
  | None => false
  end.

Definition clipboard_effects (w : fs.World) (text : string) : list effect :=
  if fs.spawn_ok w
  then [spawn_clip text; console_log ("Copied to clipboard: " +:+ text)]
  else [console_error "Failed to copy to clipboard:"].

(** Value and effects of [copyScreenshotToWSL] when [screenshotDir] holds
    [dest]. *)
Definition copy_outcome (w : fs.World) (dest : option string) (sourceFile : string)
    : option string * list effect :=
  match truthy dest with
  | None =>
      (None, [console_error "Screenshot directory not initialized";
              showErrorMessage "Screenshot directory not initialized"])
  | Some dir =>
      let fileName := path.basename sourceFile in
      let targetPath := path.join dir fileName in
      if fs.copy_ok w sourceFile targetPath
      then (Some targetPath,
            copyFile sourceFile targetPath true
              :: clipboard_effects w targetPath
              ++ [showInformationMessage ("Screenshot copied: " +:+ fileName)])
      else (None, [copyFile sourceFile targetPath false;
                   showErrorMessage "Error copying screenshot: "])
  end.

(** The part of [handleNewScreenshot] after [processedFiles.add]. *)
Definition publish (w : fs.World) (filePath : string) : M unit :=
  wslPath <- copyScreenshotToWSL w filePath;;
  match truthy wslPath with
  | Some p => modify (set_lastSavedImagePath (Some p))
  | None => ret tt
  end.

Definition mark (filePath : string) (g : Globals) : Globals :=
  set_processedFiles ({[filePath]} ∪ processedFiles g) g.

(** [n] is what a scan of [files] must select: the first entry, in
    listing order, among those whose modification time is greatest, that
    time being above the watermark. *)
Definition newest_in (w : fs.World) (windowsScreenshotsPath : string) (watermark : Z)
    (files : list string) (n : NewestFile) : Prop :=
  path n = path.join windowsScreenshotsPath (name n) /\
  qualifying_mtime w windowsScreenshotsPath (name n) = Some (mtime n) /\
  (watermark < mtime n)%Z /\
  exists before after,
    files = before ++ name n :: after /\
    (forall f t, f ∈ before -> qualifying_mtime w windowsScreenshotsPath f = Some t ->
                 (t < mtime n)%Z) /\
    (forall f t, f ∈ after -> qualifying_mtime w windowsScreenshotsPath f = Some t ->
                 (t <= mtime n)%Z).

(** No entry of [files] is a qualifying file newer than the watermark. *)
Definition nothing_new (w : fs.World) (windowsScreenshotsPath : string) (watermark : Z)
    (files : list string) : Prop :=
  forall f t, f ∈ files -> qualifying_mtime w windowsScreenshotsPath f = Some t ->
              (t <= watermark)%Z.

(** [1] when [P] has been claimed by the pipeline, [0] otherwise. *)
Definition claimed (P : string) (g : Globals) : nat :=
  if decide (P ∈ processedFiles g) then 1 else 0.

End Core.

(** ** A concrete setting for the examples *)

(** The text after the last ["/"]. *)
Fixpoint last_segment (acc s : string) : string :=
  match s with
  | EmptyString => acc
  | String c s' =>
      if Ascii.eqb c "/"%char then last_segment EmptyString s'
      else last_segment (acc +:+ String c EmptyString) s'
  end.

(** [path.join] and [path.basename] on an already normalised directory and
    a plain file name, which is what the examples pass. *)
Definition posix : path.Lib :=
  {| path.join := fun dir filename => dir +:+ "/" +:+ filename;
     path.basename := last_segment EmptyString |}.

Module Example.

Definition source : string := "/mnt/c/Users/me/Pictures/Screenshots".
Definition dest : string := "/home/me/ws/.Temp-Session-Snips".

Definition file (size : N) (mtime : Z) : fs.Stats :=
  {| fs.isFile := true; fs.size := size; fs.mtime := mtime |}.

(** Entries of the source directory: a name and what [fs.statSync]
    reads for it ([None]: it throws). *)
Definition entries : Type := list (string * option fs.Stats).

Fixpoint stat_in (dir : entries) (p : string) : option fs.Stats :=
  match dir with
  | [] => None
  | (filename, stats) :: dir' =>
      if String.eqb (source +:+ "/" +:+ filename) p then stats else stat_in dir' p
  end.

(** A world at time [now] whose source directory holds [dir];
    [listable] tells whether [fs.readdirSync] answers and [writable]
    whether [fs.copyFileSync] does. *)
Definition world (dir : entries) (listable writable : bool) (now : Z) : fs.World :=
  {| fs.exists_ := fun p =>
       String.eqb p source || String.eqb p dest || bool_decide (is_Some (stat_in dir p));
     fs.stat := stat_in dir;
     fs.readdir := fun d =>
       if listable && String.eqb d source then Some (map fst dir) else None;
     fs.copy_ok := fun _ _ => writable;
     fs.watch_ok := fun _ => true;
     fs.rm_ok := fun _ => true;
     fs.spawn_ok := true;
     fs.now := now;
     fs.cfg_pollingInterval := 500;
     fs.cfg_autoCleanup := true |}.

(** The module variables once [setupScreenshotDirectory] has chosen
    [dest]. *)
Definition configured : Globals :=
  {| screenshotDir := Some dest; fileWatcher := None; lastSavedImagePath := None;
     processedFiles := ∅; pollingInterval := None; lastScreenshotCheck := 0 |}.

(** Monitoring started at time 150 on a directory holding [a.png]. *)
Definition started : Globals :=
  globals_of (startFileMonitoring
                (world [("a.png", Some (file 10 100))] true true 150) source configured).

Definition session : Session := {| globals := started; timers := [] |}.

Definition b_png : string := source +:+ "/b.png".

End Example.

Module Scenario.
Import Example.

(** [b.png] (10 bytes, modified at 200) has appeared next to [a.png]. *)
Definition with_b : fs.World :=
  world [("a.png", Some (file 10 100)); ("b.png", Some (file 10 200))] true true 210.

(** The session after one poll of [with_b]: [b.png] has been ingested. *)
Definition ingested : Session := (run (L := posix) [Poll with_b] session).1.

(** Both detectors keep reporting [b.png]. *)
Definition detections : list event :=
  [Watch "rename" (Some "b.png"); Poll with_b; Settle 0 with_b;
   Watch "rename" (Some "b.png"); Settle 0 with_b; Poll with_b].

End Scenario.

Module Listing.
Import Example.

(** Three new files in no particular order, next to an old one, a file of
    another type and one with an upper-case extension. *)
Definition three : entries :=
  [("t2.png", Some (file 10 220)); ("a.png", Some (file 10 100));
   ("t3.jpg", Some (file 10 230)); ("notes.gif", Some (file 10 900));
   ("t1.jpeg", Some (file 10 210)); ("screenshot.PNG", Some (file 10 950))].

Definition three_world : fs.World := world three true true 300.

(** Exactly three qualifying files, all newer than the watermark 150. *)
Definition only_three : entries :=
  [("t2.png", Some (file 10 220)); ("t3.jpg", Some (file 10 230));
   ("t1.jpeg", Some (file 10 210))].

Definition only_three_world : fs.World := world only_three true true 300.

End Listing.

Module Failure.
Import Example.

(** [b.png] is there but the destination cannot be written. *)
Definition read_only : fs.World :=
  world [("a.png", Some (file 10 100)); ("b.png", Some (file 10 200))] true false 210.

(** [b.png] has been created but nothing has been written to it yet. *)
Definition empty_b : fs.World :=
  world [("a.png", Some (file 10 100)); ("b.png", Some (file 0 200))] true true 210.

(** [x.png] is listed but cannot be stat-ed; [b.png] is older than
    [c.png]. *)
Definition locked_x : entries :=
  [("b.png", Some (file 10 200)); ("x.png", None); ("c.png", Some (file 10 300))].

(** The source directory cannot be listed. *)
Definition unlistable : fs.World :=
  world [("b.png", Some (file 10 200))] false true 210.

End Failure.

(** ** Sessions that watch one directory *)

Section Watching.
Context {L : path.Lib}.

(** [p] is the full path of a qualifying entry of the directory [d]. *)
Definition scheduled (d p : string) : Prop :=
  exists f, qualifies f = true /\ p = path.join d f.

(** Whatever detector the session holds looks at [d], and every pending
    settle timer was set for a qualifying entry of [d]. *)
Definition watching (d : string) (s : Session) : Prop :=
  (forall h, fileWatcher (globals s) = Some h -> watched h = d) /\
  (forall t, pollingInterval (globals s) = Some t -> polled t = d) /\
  Forall (scheduled d) (timers s).

End Watching.

(** ** Teardown of a session *)

(** [cleanup] as an event of a session.  It keeps no handle of the settle
    timers and never calls [clearTimeout], so the timers that are pending
    stay pending. *)
Definition teardown (w : fs.World) (s : Session) : Session * list effect :=
  let r := cleanup w (globals s) in
  ({| globals := globals_of r; timers := timers s |}, effects_of r).

(** No active timer or subscription: no watcher, no polling interval and
    no pending settle timer. *)
Definition quiescent (s : Session) : Prop :=
  fileWatcher (globals s) = None /\ pollingInterval (globals s) = None /\ timers s = [].

(** The destination of the last successful copy among [es], or [init] when
    there is none.  A copy whose destination is the empty string does not
    count: [if (wslPath)] is false for it. *)
Definition last_published (es : list effect) (init : option string) : option string :=
  fold_left
    (fun acc e =>
       match e with
       | copyFile _ dst true => if String.eqb dst EmptyString then acc else Some dst
       | _ => acc
       end)
    es init.

Module Variant.

(** [w] in which spawning [clip.exe] throws, and [w] in which [fs.watch]
    throws. *)
Definition clip_throws (w : fs.World) : fs.World :=
  {| fs.exists_ := fs.exists_ w; fs.stat := fs.stat w; fs.readdir := fs.readdir w;
     fs.copy_ok := fs.copy_ok w; fs.watch_ok := fs.watch_ok w; fs.rm_ok := fs.rm_ok w;
     fs.spawn_ok := false; fs.now := fs.now w;
     fs.cfg_pollingInterval := fs.cfg_pollingInterval w;
     fs.cfg_autoCleanup := fs.cfg_autoCleanup w |}.

Definition without_watch (w : fs.World) : fs.World :=
  {| fs.exists_ := fs.exists_ w; fs.stat := fs.stat w; fs.readdir := fs.readdir w;
     fs.copy_ok := fs.copy_ok w; fs.watch_ok := fun _ => false; fs.rm_ok := fs.rm_ok w;
     fs.spawn_ok := fs.spawn_ok w; fs.now := fs.now w;
     fs.cfg_pollingInterval := fs.cfg_pollingInterval w;
     fs.cfg_autoCleanup := fs.cfg_autoCleanup w |}.

(** [w] in which every path exists, also those [fs.statSync] fails on. *)
Definition all_present (w : fs.World) : fs.World :=
  {| fs.exists_ := fun _ => true; fs.stat := fs.stat w; fs.readdir := fs.readdir w;
     fs.copy_ok := fs.copy_ok w; fs.watch_ok := fs.watch_ok w; fs.rm_ok := fs.rm_ok w;
     fs.spawn_ok := fs.spawn_ok w; fs.now := fs.now w;
     fs.cfg_pollingInterval := fs.cfg_pollingInterval w;
     fs.cfg_autoCleanup := fs.cfg_autoCleanup w |}.

(** Monitoring started although no destination directory was chosen. *)
Definition no_destination : Globals :=
  globals_of (startFileMonitoring
                (Example.world [("a.png", Some (Example.file 10 100))] true true 150)
                Example.source initial).

End Variant.

(** ** The commands and the set-up *)

(** What the commands and the set-up do to the outside world beyond the
    effects of the monitoring core. *)
Inductive action : Type :=
| core (e : effect)
| showWarningMessage (msg : string)
| mkdirSync (dir : string) (ok : bool)               (* fs.mkdirSync(dir, {recursive}) *)
| writeFileSync (file content : string) (ok : bool). (* fs.writeFileSync(file, content) *)

(** The same monad as [M], over [action]. *)
Definition Cmd (A : Type) : Type := Globals -> completion A * Globals * list action.

Module cmd.

Definition ret {A} (a : A) : Cmd A := fun g => (Normal a, g, []).

Definition bind {A B} (m : Cmd A) (k : A -> Cmd B) : Cmd B :=
  fun g =>
    match m g with
    | (Normal a, g1, e1) =>
        match k a g1 with
        | (r, g2, e2) => (r, g2, e1 ++ e2)
        end
    | (Thrown, g1, e1) => (Thrown, g1, e1)
    end.

Definition throw {A} : Cmd A := fun g => (Thrown, g, []).

Definition try_catch {A} (body handler : Cmd A) : Cmd A :=
  fun g =>
    match body g with
    | (Normal a, g1, e1) => (Normal a, g1, e1)
    | (Thrown, g1, e1) =>
        match handler g1 with
        | (r, g2, e2) => (r, g2, e1 ++ e2)
        end
    end.

Definition modify (f : Globals -> Globals) : Cmd unit := fun g => (Normal tt, f g, []).
Definition emit (a : action) : Cmd unit := fun g => (Normal tt, g, [a]).

(** A computation of the core, run inside a command. *)
Definition lift {A} (m : M A) : Cmd A :=
  fun g => match m g with (r, g1, e1) => (r, g1, map core e1) end.

Definition log (msg : string) : Cmd unit := emit (core (console_log msg)).

(** [m().then(...).catch(...)]: whether the promise of [m] was fulfilled. *)
Definition settled {A} (m : Cmd A) : Cmd bool :=
  fun g =>
    match m g with
    | (Normal _, g1, e1) => (Normal true, g1, e1)
    | (Thrown, g1, e1) => (Normal false, g1, e1)
    end.

End cmd.

Declare Scope cmd_scope.
Delimit Scope cmd_scope with cmd.
Notation "x <- m ;; k" := (cmd.bind m (fun x => k))
  (at level 100, m at next level, right associativity) : cmd_scope.
Notation "m ;; k" := (cmd.bind m (fun _ => k))
  (at level 100, right associativity) : cmd_scope.

Definition set_screenshotDir (v : option string) (g : Globals) : Globals :=
  {| screenshotDir := v; fileWatcher := fileWatcher g;
     lastSavedImagePath := lastSavedImagePath g; processedFiles := processedFiles g;
     pollingInterval := pollingInterval g; lastScreenshotCheck := lastScreenshotCheck g |}.

(** The settings [config.get] returns, the first workspace folder, and the
    part of the file system the set-up touches, around the world of the
    core.  [readFile p = None] means [fs.readFileSync(p, 'utf8')] throws. *)
Record Host : Type := {
  world : fs.World;
  cfg_windowsUsername : string;
  cfg_customWindowsPath : string;
  cfg_tempFolderName : string;
  cfg_customTempPath : string;
  cfg_addToGitignore : bool;
  workspaceFolder : option string;
  readFile : string -> option string;
  mkdir_ok : string -> bool;
  write_ok : string -> string -> bool
}.

(** [String.prototype.trim], [path.relative] and [path.isAbsolute] are
    library functions; the development is parametric in them. *)
Module node.
Class Lib : Type := {
  trim : string -> string;
  relative : string -> string -> string;
  isAbsolute : string -> bool
}.
End node.

(** [s.includes(sub)] and [s.startsWith(prefix)] *)
Definition includes (s sub : string) : bool :=
  match String.index 0 sub s with
  | Some _ => true
  | None => false
  end.

Definition startsWith (s prefix : string) : bool := String.prefix prefix s.

Definition newline : string := String "010"%char EmptyString.
Definition quoted (s : string) : string :=
  String "034"%char EmptyString +:+ s +:+ String "034"%char EmptyString.

(** [files.sort((a, b) => b.mtime.getTime() - a.mtime.getTime())]: the
    sort by decreasing modification time.  [Array.prototype.sort] is
    stable, so entries of equal time keep their listing order; insertion
    from the right gives that order. *)
Fixpoint insert_desc (x : NewestFile) (l : list NewestFile) : list NewestFile :=
  match l with
  | [] => [x]
  | y :: l' => if (mtime y >? mtime x)%Z then y :: insert_desc x l' else x :: y :: l'
  end.

Fixpoint sort_desc (l : list NewestFile) : list NewestFile :=
  match l with
  | [] => []
  | x :: l' => insert_desc x (sort_desc l')
  end.

Section Commands.
Context {L : path.Lib} {N : node.Lib}.
Open Scope cmd_scope.

Definition getWindowsScreenshotsPath (h : Host) : Cmd string :=
  cmd.log "=== Windows Path Detection Debug ===";;
  let windowsUsername := node.trim (cfg_windowsUsername h) in
  cmd.log ("Windows username: " +:+ quoted windowsUsername);;
  match truthy (Some windowsUsername) with
  | Some _ =>
      let screenshotsPath := "/mnt/c/Users/" +:+ windowsUsername +:+ "/Pictures/Screenshots" in
      cmd.log ("✓ Using username-based path: " +:+ screenshotsPath);;
      cmd.ret screenshotsPath
  | None =>
      let customPath := node.trim (cfg_customWindowsPath h) in
      cmd.log ("Custom path: " +:+ quoted customPath);;
      match truthy (Some customPath) with
      | Some _ =>
          cmd.log ("✓ Using custom path: " +:+ customPath);;
          cmd.ret customPath
      | None =>
          cmd.emit (core (console_error "✗ No Windows path configured"));;
          cmd.emit (core (showErrorMessage
            "WSL Screen Snipper: Please configure either Windows Username or Custom Windows Path in settings."));;
          cmd.ret EmptyString
      end
  end.

(** [startFileMonitoring] as [activate] calls it, from the settings. *)
Definition startFileMonitoring_configured (h : Host) : Cmd bool :=
  windowsScreenshotsPath <- getWindowsScreenshotsPath h;;
  cmd.lift (startFileMonitoring (world h) windowsScreenshotsPath).

(** [names.map(f => ({ name: f, path: ..., mtime: fs.statSync(...).mtime }))]:
    the first [fs.statSync] that throws ends the whole map. *)
Fixpoint stat_each (w : fs.World) (dir : string) (names : list string)
    : Cmd (list NewestFile) :=
  match names with
  | [] => cmd.ret []
  | f :: rest =>
      stats <- cmd.lift (fs.statSync w (path.join dir f));;
      others <- stat_each w dir rest;;
      cmd.ret ({| name := f; path := path.join dir f; mtime := fs.mtime stats |} :: others)
  end.

(** The command [wslScreenSnipper.saveImage]. *)
Definition saveImage (h : Host) : Cmd unit :=
  windowsScreenshotsPath <- getWindowsScreenshotsPath h;;
  present <- cmd.lift (fs.existsSync (world h) windowsScreenshotsPath);;
  if negb present then
    cmd.emit (core (showErrorMessage
      ("Windows Screenshots directory not found: " +:+ windowsScreenshotsPath)))
  else
    names <- cmd.lift (fs.readdirSync (world h) windowsScreenshotsPath);;
    files <- stat_each (world h) windowsScreenshotsPath (filter (fun f => qualifies f = true) names);;
    match sort_desc files with
    | newest :: _ =>
        _ <- cmd.lift (copyScreenshotToWSL (world h) (path newest));;
        cmd.ret tt
    | [] =>
        cmd.emit (showWarningMessage "No screenshots found in Windows Screenshots folder")
    end.

Definition addTempDirToGitignore (h : Host) (screenshotDir tempPathType : string) : Cmd unit :=
  match workspaceFolder h with
  | None => cmd.log "No workspace folder found, cannot add to .gitignore"
  | Some workspaceRoot =>
      let gitignorePath := path.join workspaceRoot ".gitignore" in
      let relativePath := node.relative workspaceRoot screenshotDir in
      if negb (String.eqb tempPathType "default")
         && (startsWith relativePath ".." || node.isAbsolute relativePath)
      then
        cmd.log ("Custom temp path " +:+ screenshotDir
                 +:+ " is outside workspace, cannot add to .gitignore");;
        cmd.emit (core (showInformationMessage
          "Temp directory is outside workspace. .gitignore entry not added. Consider managing .gitignore manually if needed."))
      else
        let ignoreEntry := relativePath +:+ "/" in
        cmd.try_catch
          (present <- cmd.lift (fs.existsSync (world h) gitignorePath);;
           gitignoreContent <-
             (if present
              then match readFile h gitignorePath with
                   | Some content => cmd.ret content
                   | None => cmd.throw
                   end
              else cmd.ret EmptyString);;
           if negb (includes gitignoreContent ignoreEntry) then
             let newContent :=
               gitignoreContent
               +:+ (if endsWith gitignoreContent newline then EmptyString else newline)
               +:+ ignoreEntry +:+ newline in
             (if write_ok h gitignorePath newContent
              then cmd.emit (writeFileSync gitignorePath newContent true)
              else (cmd.emit (writeFileSync gitignorePath newContent false);; cmd.throw));;
             cmd.log ("Added " +:+ ignoreEntry +:+ " to .gitignore");;
             cmd.emit (core (showInformationMessage ("Added " +:+ ignoreEntry +:+ " to .gitignore")))
           else
             cmd.log (ignoreEntry +:+ " already exists in .gitignore"))
          (cmd.emit (core (console_error "Failed to update .gitignore:"));;
           cmd.emit (showWarningMessage "Failed to update .gitignore: "))
  end.

Definition setupScreenshotDirectory (h : Host) : Cmd unit :=
  let tempFolderName := node.trim (cfg_tempFolderName h) in
  cmd.log ("Temp folder name: " +:+ quoted tempFolderName);;
  chosen <-
    match truthy (Some tempFolderName) with
    | Some _ =>
        match workspaceFolder h with
        | None =>
            cmd.emit (core (console_error
              "Temp folder name specified but no workspace folder open"));;
            cmd.emit (core (showErrorMessage
              "WSL Screen Snipper: Temp folder name requires an open workspace. Either open a workspace or use Custom Temp Path."));;
            cmd.ret None
        | Some fsPath =>
            let dir := path.join fsPath ("." +:+ tempFolderName) in
            cmd.modify (set_screenshotDir (Some dir));;
            cmd.log ("✓ Using workspace temp folder: " +:+ dir);;
            cmd.ret (Some dir)
        end
    | None =>
        let customTempPath := node.trim (cfg_customTempPath h) in
        cmd.log ("Custom temp path: " +:+ quoted customTempPath);;
        match truthy (Some customTempPath) with
        | Some _ =>
            cmd.modify (set_screenshotDir (Some customTempPath));;
            cmd.log ("✓ Using custom temp path: " +:+ customTempPath);;
            cmd.ret (Some customTempPath)
        | None =>
            cmd.emit (core (console_error "No temp directory configured"));;
            cmd.emit (core (showErrorMessage
              "WSL Screen Snipper: Please configure either Temp Folder Name or Custom Temp Path in settings."));;
            cmd.ret None
        end
    end;;
  match chosen with
  | None => cmd.ret tt          (* the two [return]s above *)
  | Some dir =>
      present <- cmd.lift (fs.existsSync (world h) dir);;
      (if negb present then
         (if mkdir_ok h dir then cmd.emit (mkdirSync dir true)
          else (cmd.emit (mkdirSync dir false);; cmd.throw));;
         cmd.log ("Created screenshot directory: " +:+ dir)
       else cmd.ret tt);;
      if cfg_addToGitignore h then
        let isWorkspaceTemp :=
          match truthy (Some tempFolderName) with Some _ => true | None => false end in
        addTempDirToGitignore h dir (if isWorkspaceTemp then "default" else "custom")
      else cmd.ret tt
  end.

(** [activate], as far as the set-up and the monitoring go.  The body of
    [setupScreenshotDirectory] runs at the call, before
    [startFileMonitoring]; the callbacks of its promise run after the rest
    of [activate], which is why [checkAndShowStatus] shows nothing when it
    is called from the monitoring branch.  Registering the commands, the
    paste interceptor and the disposal of [cleanup] has no effect of its
    own. *)
Definition activate (h : Host) : Cmd unit :=
  cmd.log "WSL Screen Snipper extension activated";;
  setupSuccess <- cmd.settled (setupScreenshotDirectory h);;
  monitoringSuccess <-
    cmd.try_catch
      (result <- startFileMonitoring_configured h;;
       if result then
         cmd.log "File monitoring started successfully";;
         cmd.ret true
       else
         cmd.log "File monitoring setup failed";;
         cmd.emit (showWarningMessage
           "WSL Screen Snipper: File monitoring could not start - check Screenshots directory");;
         cmd.ret false)
      (cmd.emit (core (console_error "Failed to start file monitoring:"));;
       cmd.emit (core (showErrorMessage
         "WSL Screen Snipper: Failed to start file monitoring - "));;
       cmd.ret false);;
  if setupSuccess then
    cmd.log "Screenshot directory setup completed";;
    if monitoringSuccess then
      cmd.emit (core (showInformationMessage
        "WSL Screen Snipper: Ready! Screenshot monitoring active"))
    else cmd.ret tt
  else
    cmd.emit (core (console_error "Failed to setup screenshot directory:"));;
    cmd.emit (core (showErrorMessage
      "WSL Screen Snipper: Failed to setup screenshot directory - ")).

End Commands.

(** ** Closed forms of the commands, for the proofs *)

Section CommandSpecs.
Context {L : path.Lib} {N : node.Lib}.

(** The value [getWindowsScreenshotsPath] returns. *)
Definition windows_path (h : Host) : string :=
  let windowsUsername := node.trim (cfg_windowsUsername h) in
  let customPath := node.trim (cfg_customWindowsPath h) in
  match truthy (Some windowsUsername) with
  | Some _ => "/mnt/c/Users/" +:+ windowsUsername +:+ "/Pictures/Screenshots"
  | None =>
      match truthy (Some customPath) with
      | Some _ => customPath
      | None => EmptyString
      end
  end.

(** What [getWindowsScreenshotsPath] logs and shows. *)
Definition path_log (h : Host) : list action :=
  let windowsUsername := node.trim (cfg_windowsUsername h) in
  let customPath := node.trim (cfg_customWindowsPath h) in
  core (console_log "=== Windows Path Detection Debug ===")
  :: core (console_log ("Windows username: " +:+ quoted windowsUsername))
  :: match truthy (Some windowsUsername) with
     | Some _ =>
         [core (console_log ("✓ Using username-based path: " +:+ windows_path h))]
     | None =>
         core (console_log ("Custom path: " +:+ quoted customPath))
         :: match truthy (Some customPath) with
            | Some _ => [core (console_log ("✓ Using custom path: " +:+ customPath))]
            | None =>
                [core (console_error "✗ No Windows path configured");
                 core (showErrorMessage
                   "WSL Screen Snipper: Please configure either Windows Username or Custom Windows Path in settings.")]
            end
     end.

(** The records [stat_each] builds, or [None] when an [fs.statSync]
    throws. *)
Fixpoint stat_all (w : fs.World) (dir : string) (names : list string)
    : option (list NewestFile) :=
  match names with
  | [] => Some []
  | f :: rest =>
      match fs.stat w (path.join dir f), stat_all w dir rest with
      | Some stats, Some others =>
          Some ({| name := f; path := path.join dir f; mtime := fs.mtime stats |} :: others)
      | _, _ => None
      end
  end.

(** The qualifying entries of a listing that can be stat-ed, in listing
    order, as the records both detectors build for them. *)
Definition entry_of (w : fs.World) (dir f : string) : option NewestFile :=
  (fun t => {| name := f; path := path.join dir f; mtime := t |})
    <$> qualifying_mtime w dir f.

Definition records (w : fs.World) (dir : string) (files : list string) : list NewestFile :=
  omap (entry_of w dir) files.

(** [x] is the first entry of [l] among those of greatest modification
    time. *)
Definition first_newest (l : list NewestFile) (x : NewestFile) : Prop :=
  exists before after,
    l = before ++ x :: after /\
    Forall (fun y => (mtime y < mtime x)%Z) before /\
    Forall (fun y => (mtime y <= mtime x)%Z) after.

(** The file the [.gitignore] gets when [entry] is added to [content]. *)
Definition with_entry (content entry : string) : string :=
  content +:+ (if endsWith content newline then EmptyString else newline)
  +:+ entry +:+ newline.

(** The custom temp directory lies outside the workspace: its relative
    path climbs out of it or is absolute. *)
Definition outside_workspace (relativePath tempPathType : string) : bool :=
  negb (String.eqb tempPathType "default")
  && (startsWith relativePath ".." || node.isAbsolute relativePath).

(** What [addTempDirToGitignore] does. *)
Definition gitignore_actions (h : Host) (screenshotDir tempPathType : string) : list action :=
  match workspaceFolder h with
  | None => [core (console_log "No workspace folder found, cannot add to .gitignore")]
  | Some workspaceRoot =>
      let gitignorePath := path.join workspaceRoot ".gitignore" in
      let relativePath := node.relative workspaceRoot screenshotDir in
      let ignoreEntry := relativePath +:+ "/" in
      if outside_workspace relativePath tempPathType then
        [core (console_log ("Custom temp path " +:+ screenshotDir
                            +:+ " is outside workspace, cannot add to .gitignore"));
         core (showInformationMessage
           "Temp directory is outside workspace. .gitignore entry not added. Consider managing .gitignore manually if needed.")]
      else
        match (if fs.exists_ (world h) gitignorePath
               then readFile h gitignorePath else Some EmptyString) with
        | None =>
            [core (console_error "Failed to update .gitignore:");
             showWarningMessage "Failed to update .gitignore: "]
        | Some content =>
            if includes content ignoreEntry then
              [core (console_log (ignoreEntry +:+ " already exists in .gitignore"))]
            else if write_ok h gitignorePath (with_entry content ignoreEntry) then
              [writeFileSync gitignorePath (with_entry content ignoreEntry) true;
               core (console_log ("Added " +:+ ignoreEntry +:+ " to .gitignore"));
               core (showInformationMessage ("Added " +:+ ignoreEntry +:+ " to .gitignore"))]
            else
              [writeFileSync gitignorePath (with_entry content ignoreEntry) false;
               core (console_error "Failed to update .gitignore:");
               showWarningMessage "Failed to update .gitignore: "]
        end
  end.

(** The directory [setupScreenshotDirectory] settles on, if any. *)
Definition chosen_dir (h : Host) : option string :=
  let tempFolderName := node.trim (cfg_tempFolderName h) in
  let customTempPath := node.trim (cfg_customTempPath h) in
  match truthy (Some tempFolderName) with
  | Some _ =>
      match workspaceFolder h with
      | Some fsPath => Some (path.join fsPath ("." +:+ tempFolderName))
      | None => None
      end
  | None =>
      match truthy (Some customTempPath) with
      | Some _ => Some customTempPath
      | None => None
      end
  end.

(** [fs.mkdirSync] is reached and throws. *)
Definition mkdir_fails (h : Host) : bool :=
  match chosen_dir h with
  | Some dir => negb (fs.exists_ (world h) dir) && negb (mkdir_ok h dir)
  | None => false
  end.

(** What [setupScreenshotDirectory] does once it has settled on [dir]. *)
Definition provision_actions (h : Host) (dir : string) : list action :=
  let isWorkspaceTemp :=
    match truthy (Some (node.trim (cfg_tempFolderName h))) with
    | Some _ => true
    | None => false
    end in
  (if fs.exists_ (world h) dir then []
   else if mkdir_ok h dir
        then [mkdirSync dir true; core (console_log ("Created screenshot directory: " +:+ dir))]
        else [mkdirSync dir false])
  ++ (if (fs.exists_ (world h) dir || mkdir_ok h dir) && cfg_addToGitignore h
      then gitignore_actions h dir (if isWorkspaceTemp then "default" else "custom")
      else []).

(** What [setupScreenshotDirectory] logs and shows while choosing. *)
Definition choice_log (h : Host) : list action :=
  let tempFolderName := node.trim (cfg_tempFolderName h) in
  let customTempPath := node.trim (cfg_customTempPath h) in
  core (console_log ("Temp folder name: " +:+ quoted tempFolderName))
  :: match truthy (Some tempFolderName) with
     | Some _ =>
         match workspaceFolder h with
         | None =>
             [core (console_error "Temp folder name specified but no workspace folder open");
              core (showErrorMessage
                "WSL Screen Snipper: Temp folder name requires an open workspace. Either open a workspace or use Custom Temp Path.")]
         | Some fsPath =>
             [core (console_log ("✓ Using workspace temp folder: "
                                 +:+ path.join fsPath ("." +:+ tempFolderName)))]
         end
     | None =>
         core (console_log ("Custom temp path: " +:+ quoted customTempPath))
         :: match truthy (Some customTempPath) with
            | Some _ => [core (console_log ("✓ Using custom temp path: " +:+ customTempPath))]
            | None =>
                [core (console_error "No temp directory configured");
                 core (showErrorMessage
                   "WSL Screen Snipper: Please configure either Temp Folder Name or Custom Temp Path in settings.")]
            end
     end.

(** [startFileMonitoring] returns [true]. *)
Definition monitoring_starts (h : Host) : bool :=
  negb (String.eqb (windows_path h) EmptyString)
  && fs.exists_ (world h) (windows_path h).

End CommandSpecs.

(** ** A concrete host for the examples *)

Module Desk.

(** The text of [s] after the prefix [p], if [s] starts with [p]. *)
Fixpoint after_prefix (p s : string) : option string :=
  match p, s with
  | EmptyString, _ => Some s
  | String a p', String b s' => if Ascii.eqb a b then after_prefix p' s' else None
  | String _ _, EmptyString => None
  end.

(** Library functions on the inputs the examples pass: strings without
    surrounding white space, and a directory that is either below the
    root it is taken relative to or reported by its absolute path. *)
Definition plain : node.Lib :=
  {| node.trim := fun s => s;
     node.relative := fun from to =>
       match after_prefix (from +:+ "/") to with
       | Some rest => rest
       | None => to
       end;
     node.isAbsolute := fun p => String.prefix "/" p |}.

Definition workspace : string := "/home/me/ws".
Definition gitignore : string := "/home/me/ws/.gitignore".

(** A user [me] with the default temp folder name, an open workspace
    whose [.gitignore] holds [content], around the world [w]. *)
Definition host (w : fs.World) (content : string) : Host :=
  {| world := w;
     cfg_windowsUsername := "me";
     cfg_customWindowsPath := EmptyString;
     cfg_tempFolderName := "Temp-Session-Snips";
     cfg_customTempPath := EmptyString;
     cfg_addToGitignore := true;
     workspaceFolder := Some workspace;
     readFile := fun p => if String.eqb p gitignore then Some content else None;
     mkdir_ok := fun _ => true;
     write_ok := fun _ _ => true |}.

(** Nothing configured and no workspace open. *)
Definition blank (w : fs.World) : Host :=
  {| world := w;
     cfg_windowsUsername := EmptyString;
     cfg_customWindowsPath := EmptyString;
     cfg_tempFolderName := EmptyString;
     cfg_customTempPath := EmptyString;
     cfg_addToGitignore := false;
     workspaceFolder := None;
     readFile := fun _ => None;
     mkdir_ok := fun _ => true;
     write_ok := fun _ _ => true |}.

(** [w] with a [.gitignore] in the workspace. *)
Definition with_gitignore (w : fs.World) : fs.World :=
  {| fs.exists_ := fun p => String.eqb p gitignore || fs.exists_ w p;
     fs.stat := fs.stat w; fs.readdir := fs.readdir w;
     fs.copy_ok := fs.copy_ok w; fs.watch_ok := fs.watch_ok w; fs.rm_ok := fs.rm_ok w;
     fs.spawn_ok := fs.spawn_ok w; fs.now := fs.now w;
     fs.cfg_pollingInterval := fs.cfg_pollingInterval w;
     fs.cfg_autoCleanup := fs.cfg_autoCleanup w |}.

End Desk.

(** * Properties *)

Section Facts.
Context {L : path.Lib}.

Ltac unfold_monad :=
  unfold fs.existsSync, fs.statSync, fs.readdirSync, fs.copyFileSync,
    try_catch, bind, ret, get, modify, emit, throw.

(** ** Equations of the pipeline *)

Lemma handleNewScreenshot_processed w P g :
  P ∈ processedFiles g -> handleNewScreenshot w P g = (Normal tt, g, []).
Proof.
  intros HP. unfold handleNewScreenshot, bind, get, ret.
  destruct (decide _); [reflexivity | contradiction].
Qed.

Lemma copyToClipboard_eq w text g :
  copyToClipboard w text g = (Normal tt, g, clipboard_effects w text).
Proof.
  unfold copyToClipboard, clipboard_effects. unfold_monad.
  destruct (fs.spawn_ok w); reflexivity.
Qed.

Lemma copyScreenshotToWSL_eq w sourceFile g :
  copyScreenshotToWSL w sourceFile g =
  (Normal (copy_outcome w (screenshotDir g) sourceFile).1, g,
   (copy_outcome w (screenshotDir g) sourceFile).2).
Proof.
  unfold copyScreenshotToWSL, copy_outcome.
  unfold bind at 1. unfold get at 1.
  destruct (truthy (screenshotDir g)) as [dir|]; [|reflexivity].
  cbn zeta. unfold try_catch, bind at 1.
  unfold fs.copyFileSync.
  destruct (fs.copy_ok w sourceFile _).
  - unfold emit at 1. unfold bind at 1. rewrite copyToClipboard_eq.
    reflexivity.
  - reflexivity.
Qed.

Lemma publish_eq w filePath g :
  publish w filePath g =
  (Normal tt,
   match truthy (copy_outcome w (screenshotDir g) filePath).1 with
   | Some p => set_lastSavedImagePath (Some p) g
   | None => g
   end,
   (copy_outcome w (screenshotDir g) filePath).2).
Proof.
  unfold publish, bind. rewrite copyScreenshotToWSL_eq.
  destruct (truthy _); unfold modify, ret; rewrite app_nil_r; reflexivity.
Qed.

Lemma handleNewScreenshot_eq w filePath g :
  handleNewScreenshot w filePath g =
  if decide (filePath ∈ processedFiles g) then (Normal tt, g, [])
  else if passes_gate w filePath then publish w filePath (mark filePath g)
  else if fs.exists_ w filePath && negb (bool_decide (is_Some (fs.stat w filePath)))
  then (Normal tt, g, [console_error ("Error processing screenshot " +:+ filePath +:+ ":")])
  else (Normal tt, g, []).
Proof.
  unfold handleNewScreenshot, passes_gate.
  unfold bind at 1. unfold get at 1.
  destruct (decide _) as [Hin|Hnin]; [reflexivity|].
  unfold try_catch, bind at 1. unfold fs.existsSync, ret at 1.
  destruct (fs.exists_ w filePath); [|reflexivity].
  cbn [negb andb]. unfold fs.statSync.
  destruct (fs.stat w filePath) as [stats|]; [|reflexivity].
  unfold bind at 1, ret at 1.
  destruct (fs.isFile stats); [|reflexivity].
  destruct (fs.size stats =? 0)%N; [reflexivity|].
  cbn [negb orb andb]. unfold bind at 1, modify at 1.
  fold (mark filePath g). fold (publish w filePath).
  rewrite publish_eq. reflexivity.
Qed.

Lemma handleNewScreenshot_returns w filePath g :
  result_of (handleNewScreenshot w filePath g) = Normal tt.
Proof.
  rewrite handleNewScreenshot_eq.
  destruct (decide _); [reflexivity|].
  destruct (passes_gate w filePath); [rewrite publish_eq; reflexivity|].
  destruct (_ && _); reflexivity.
Qed.

(** ** Counting transfers *)

Lemma transfers_app P es1 es2 :
  transfers P (es1 ++ es2) = transfers P es1 + transfers P es2.
Proof. unfold transfers. rewrite filter_app, length_app. reflexivity. Qed.

Lemma transfers_cons P e es :
  transfers P (e :: es) = (if is_transfer P e then 1 else 0) + transfers P es.
Proof.
  unfold transfers. rewrite filter_cons.
  destruct (is_transfer P e); destruct (decide _); simpl; done.
Qed.

Lemma transfers_nil P : transfers P [] = 0.
Proof. reflexivity. Qed.

Ltac count_transfers :=
  unfold effects_of, globals_of; cbn [fst snd];
  rewrite ?transfers_cons, ?transfers_app, ?transfers_nil; cbn [is_transfer].

Lemma transfers_clipboard P w text : transfers P (clipboard_effects w text) = 0.
Proof. unfold clipboard_effects. destruct (fs.spawn_ok w); reflexivity. Qed.

Lemma transfers_copy_outcome P w dest sourceFile :
  transfers P (copy_outcome w dest sourceFile).2 <= 1 /\
  (sourceFile <> P -> transfers P (copy_outcome w dest sourceFile).2 = 0).
Proof.
  unfold copy_outcome. destruct (truthy dest) as [dir|]; cbn zeta.
  - destruct (fs.copy_ok w sourceFile _); cbn [snd];
      rewrite ?transfers_cons, ?transfers_app, ?transfers_clipboard, ?transfers_cons;
      cbn [is_transfer]; change (transfers P []) with 0;
      destruct (String.eqb_spec sourceFile P); split; intros; lia || congruence.
  - cbn [snd]. rewrite !transfers_cons. cbn [is_transfer]. change (transfers P []) with 0.
    split; intros; lia.
Qed.

(** What one run of the pipeline can do to the module variables and how
    many transfers of [P] it makes. *)
Lemma handleNewScreenshot_step w filePath g P :
  let r := handleNewScreenshot w filePath g in
  (globals_of r = g /\ transfers P (effects_of r) = 0) \/
  ((filePath ∉ processedFiles g) /\
   processedFiles (globals_of r) = {[filePath]} ∪ processedFiles g /\
   screenshotDir (globals_of r) = screenshotDir g /\
   fileWatcher (globals_of r) = fileWatcher g /\
   pollingInterval (globals_of r) = pollingInterval g /\
   lastScreenshotCheck (globals_of r) = lastScreenshotCheck g /\
   transfers P (effects_of r) <= 1 /\
   (filePath <> P -> transfers P (effects_of r) = 0)).
Proof.
  cbn zeta. rewrite handleNewScreenshot_eq.
  destruct (decide _) as [Hin|Hnin]; [left; split; reflexivity|].
  destruct (passes_gate w filePath).
  - right. rewrite publish_eq. unfold globals_of, effects_of. cbn [fst snd].
    destruct (transfers_copy_outcome P w (screenshotDir (mark filePath g)) filePath) as [H1 H2].
    destruct (truthy _); repeat split; auto.
  - left. destruct (_ && _); split; reflexivity.
Qed.

(** ** The scan loop *)

Lemma scan_step_eq w dir newestFile newestTime filename :
  scan_step w dir (newestFile, newestTime) filename =
  match qualifying_mtime w dir filename with
  | Some t =>
      if (t >? newestTime)%Z
      then (Some {| name := filename; path := path.join dir filename; mtime := t |}, t)
      else (newestFile, newestTime)
  | None => (newestFile, newestTime)
  end.
Proof.
  unfold scan_step, qualifying_mtime.
  destruct (qualifies filename); [|reflexivity].
  destruct (fs.stat w _); reflexivity.
Qed.

Lemma scan_snoc w dir files filename watermark :
  scan w dir (files ++ [filename]) watermark =
  scan_step w dir (scan w dir files watermark) filename.
Proof. unfold scan. rewrite fold_left_app. reflexivity. Qed.

Lemma scan_spec w dir files watermark :
  match scan w dir files watermark with
  | (Some n, t) => t = mtime n /\ newest_in w dir watermark files n
  | (None, t) => t = watermark /\ nothing_new w dir watermark files
  end.
Proof.
  induction files as [|f files IH] using rev_ind.
  - cbn. split; [reflexivity|]. intros f t Hf. inversion Hf.
  - rewrite scan_snoc. destruct (scan w dir files watermark) as [[n|] t0].
    + destruct IH as [-> (Hp & Hq & Hw & l1 & l2 & -> & Hl1 & Hl2)].
      rewrite scan_step_eq.
      destruct (qualifying_mtime w dir f) as [t|] eqn:Hf.
      * destruct (Z.gtb_spec t (mtime n)).
        -- split; [reflexivity|]. unfold newest_in. cbn [name path mtime].
           split; [reflexivity|]. split; [exact Hf|]. split; [lia|].
           exists (l1 ++ name n :: l2), []. split; [reflexivity|].
           split.
           ++ intros f' t' Hin Hq'. apply elem_of_app in Hin as [Hin|Hin].
              ** specialize (Hl1 _ _ Hin Hq'). lia.
              ** apply elem_of_cons in Hin as [->|Hin].
                 --- rewrite Hq in Hq'. injection Hq' as <-. lia.
                 --- specialize (Hl2 _ _ Hin Hq'). lia.
           ++ intros f' t' Hin. inversion Hin.
        -- split; [reflexivity|]. split; [exact Hp|]. split; [exact Hq|].
           split; [exact Hw|].
           exists l1, (l2 ++ [f]). split; [by rewrite <- app_assoc|].
           split; [exact Hl1|].
           intros f' t' Hin Hq'. apply elem_of_app in Hin as [Hin|Hin].
           ++ eauto.
           ++ apply list_elem_of_singleton in Hin as ->.
              rewrite Hf in Hq'. injection Hq' as <-. lia.
      * split; [reflexivity|]. split; [exact Hp|]. split; [exact Hq|].
        split; [exact Hw|].
        exists l1, (l2 ++ [f]). split; [by rewrite <- app_assoc|].
        split; [exact Hl1|].
        intros f' t' Hin Hq'. apply elem_of_app in Hin as [Hin|Hin].
        -- eauto.
        -- apply list_elem_of_singleton in Hin as ->. congruence.
    + destruct IH as [-> Hnone]. rewrite scan_step_eq.
      destruct (qualifying_mtime w dir f) as [t|] eqn:Hf.
      * destruct (Z.gtb_spec t watermark).
        -- split; [reflexivity|]. unfold newest_in. cbn [name path mtime].
           split; [reflexivity|]. split; [exact Hf|]. split; [lia|].
           exists files, []. split; [reflexivity|]. split.
           ++ intros f' t' Hin Hq'. specialize (Hnone _ _ Hin Hq'). lia.
           ++ intros f' t' Hin. inversion Hin.
        -- split; [reflexivity|]. intros f' t' Hin Hq'.
           apply elem_of_app in Hin as [Hin|Hin]; [eauto|].
           apply list_elem_of_singleton in Hin as ->.
           rewrite Hf in Hq'. injection Hq' as <-. lia.
      * split; [reflexivity|]. intros f' t' Hin Hq'.
        apply elem_of_app in Hin as [Hin|Hin]; [eauto|].
        apply list_elem_of_singleton in Hin as ->. congruence.
Qed.

Lemma newest_in_listed w dir watermark files n :
  newest_in w dir watermark files n -> name n ∈ files.
Proof.
  intros (_ & _ & _ & l1 & l2 & -> & _). apply elem_of_app. right. apply elem_of_cons. by left.
Qed.

Lemma newest_in_max w dir watermark files n f t :
  newest_in w dir watermark files n -> f ∈ files ->
  qualifying_mtime w dir f = Some t -> (t <= mtime n)%Z.
Proof.
  intros (_ & Hq & _ & l1 & l2 & -> & Hl1 & Hl2) Hin Hf.
  apply elem_of_app in Hin as [Hin|Hin].
  - specialize (Hl1 _ _ Hin Hf). lia.
  - apply elem_of_cons in Hin as [->|Hin]; [|eauto].
    rewrite Hq in Hf. injection Hf as <-. lia.
Qed.

(** A file that cannot be stat-ed, or does not qualify, is invisible to
    the scan: the loop variables are what they would be without it. *)
Lemma scan_skip w dir before filename after watermark :
  qualifying_mtime w dir filename = None ->
  scan w dir (before ++ filename :: after) watermark =
  scan w dir (before ++ after) watermark.
Proof.
  intros Hnone. unfold scan. rewrite !fold_left_app. cbn [fold_left].
  destruct (fold_left _ before _) as [nf t].
  rewrite scan_step_eq, Hnone. reflexivity.
Qed.

Lemma scan_unique_max w dir files watermark f0 t0 :
  f0 ∈ files -> qualifying_mtime w dir f0 = Some t0 -> (watermark < t0)%Z ->
  (forall f t, f ∈ files -> f <> f0 -> qualifying_mtime w dir f = Some t -> (t < t0)%Z) ->
  scan w dir files watermark =
  (Some {| name := f0; path := path.join dir f0; mtime := t0 |}, t0).
Proof.
  intros Hin Hq Hw Hothers.
  pose proof (scan_spec w dir files watermark) as Hspec.
  destruct (scan w dir files watermark) as [[n|] t].
  - destruct Hspec as [-> Hn].
    pose proof (newest_in_max _ _ _ _ _ _ _ Hn Hin Hq) as Hle.
    pose proof (newest_in_listed _ _ _ _ _ Hn) as Hnin.
    destruct Hn as (Hp & Hqn & _ & _).
    destruct (decide (name n = f0)) as [Heq|Hne].
    + destruct n as [nm pa mt]. cbn [name path mtime] in *. subst nm.
      rewrite Hq in Hqn. injection Hqn as <-. subst pa. reflexivity.
    + specialize (Hothers _ _ Hnin Hne Hqn). lia.
  - destruct Hspec as [-> Hnone]. specialize (Hnone _ _ Hin Hq). lia.
Qed.

(** ** Equations of the scanner, the start and the teardown *)

Lemma checkForNewScreenshots_eq w dir g :
  checkForNewScreenshots w dir g =
  match fs.readdir w dir with
  | None => (Normal tt, g, [console_error "Error during polling check: "])
  | Some files =>
      match (scan w dir files (lastScreenshotCheck g)).1 with
      | Some n =>
          let r := handleNewScreenshot w (path n) (set_lastScreenshotCheck (mtime n) g) in
          (Normal tt, globals_of r,
           console_log ("Found new screenshot: " +:+ name n) :: effects_of r)
      | None => (Normal tt, g, [])
      end
  end.
Proof.
  unfold checkForNewScreenshots, try_catch.
  unfold bind at 1. unfold get at 1. unfold bind at 1. unfold fs.readdirSync.
  destruct (fs.readdir w dir) as [files|]; [|reflexivity].
  unfold ret at 1.
  destruct (scan w dir files (lastScreenshotCheck g)).1 as [n|]; [|reflexivity].
  unfold bind, emit, modify. cbn zeta.
  pose proof (handleNewScreenshot_returns w (path n) (set_lastScreenshotCheck (mtime n) g)) as Hr.
  destruct (handleNewScreenshot w (path n) _) as [[c g'] es].
  unfold result_of in Hr. cbn in Hr. subst c. reflexivity.
Qed.

Lemma startFileMonitoring_eq w dir g :
  startFileMonitoring w dir g =
  if String.eqb dir EmptyString then
    (Normal false, g, [console_error "Windows Screenshots path not configured"])
  else if negb (fs.exists_ w dir) then
    (Normal false, g,
     [console_error ("Windows Screenshots directory not found: " +:+ dir);
      showErrorMessage ("Screenshots directory not found: " +:+ dir
                        +:+ ". Please check your Windows username setting.")])
  else
    let g1 := set_lastScreenshotCheck (fs.now w) g in
    let g2 := if fs.watch_ok w dir then set_fileWatcher (Some {| watched := dir |}) g1 else g1 in
    (Normal true,
     set_pollingInterval (Some {| polled := dir; every_ms := fs.cfg_pollingInterval w |}) g2,
     [if fs.watch_ok w dir
      then console_log ("Primary monitoring (fs.watch) started for: " +:+ dir)
      else console_warn "fs.watch failed: ";
      console_log ("Polling-based monitoring started for: " +:+ dir)]).
Proof.
  unfold startFileMonitoring, truthy.
  destruct (String.eqb dir EmptyString); [reflexivity|].
  unfold fs.existsSync, try_catch, bind, ret, modify, emit, throw.
  destruct (fs.exists_ w dir); [|reflexivity].
  cbn [negb]. destruct (fs.watch_ok w dir); reflexivity.
Qed.

Lemma cleanup_eq w g :
  cleanup w g =
  (Normal tt,
   set_processedFiles ∅ (set_pollingInterval None (set_fileWatcher None g)),
   match fileWatcher g with Some h => [watcher_close (watched h)] | None => [] end ++
   match pollingInterval g with Some t => [clearInterval (polled t)] | None => [] end ++
   match truthy (screenshotDir g) with
   | Some dir =>
       if fs.cfg_autoCleanup w && fs.exists_ w dir then
         if fs.rm_ok w dir
         then [rmSync dir true;
               console_log ("Cleaned up and removed screenshot directory: " +:+ dir)]
         else [rmSync dir false; console_error "Failed to cleanup screenshot directory:"]
       else []
   | None => []
   end).
Proof.
  unfold cleanup, fs.existsSync, try_catch, bind, ret, get, modify, emit, throw.
  destruct g as [sd fw ls pf pi lc]. cbn [fileWatcher pollingInterval screenshotDir].
  destruct fw as [h|], pi as [t|]; cbn;
    destruct (fs.cfg_autoCleanup w); cbn; try reflexivity;
    destruct (truthy sd) as [dir|]; cbn; try reflexivity;
    destruct (fs.exists_ w dir); cbn; try reflexivity;
    destruct (fs.rm_ok w dir); reflexivity.
Qed.

(** ** What a callback may change *)

Ltac frame_done := repeat split; first [done | lia | etrans; eassumption].

Lemma claimed_le_1 P g : claimed P g <= 1.
Proof. unfold claimed. destruct (decide _); lia. Qed.

Lemma claimed_mono P g g' :
  processedFiles g ⊆ processedFiles g' -> claimed P g <= claimed P g'.
Proof.
  intros Hsub. unfold claimed.
  destruct (decide (P ∈ processedFiles g)), (decide (P ∈ processedFiles g')); try lia.
  exfalso. set_solver.
Qed.

(** Every transfer of [P] is paid for by [P] entering [processedFiles]. *)
Lemma handleNewScreenshot_credit w filePath g P :
  transfers P (effects_of (handleNewScreenshot w filePath g)) + claimed P g
  <= claimed P (globals_of (handleNewScreenshot w filePath g)).
Proof.
  destruct (handleNewScreenshot_step w filePath g P)
    as [[-> ->]|(Hnin & Hpf & _ & _ & _ & _ & Hle & Hne)]; [lia|].
  destruct (decide (filePath = P)) as [->|Hneq].
  - unfold claimed at 1 2. rewrite Hpf; clear Hpf.
    destruct (decide (P ∈ processedFiles g)); [contradiction|].
    destruct (decide (P ∈ {[P]} ∪ processedFiles g)) as [|Hout]; [lia|].
    exfalso. apply Hout, elem_of_union_l, elem_of_singleton. reflexivity.
  - rewrite (Hne Hneq). apply claimed_mono. rewrite Hpf. apply union_subseteq_r.
Qed.

Lemma handleNewScreenshot_frame w filePath g :
  let g' := globals_of (handleNewScreenshot w filePath g) in
  screenshotDir g' = screenshotDir g /\ fileWatcher g' = fileWatcher g /\
  pollingInterval g' = pollingInterval g /\
  lastScreenshotCheck g' = lastScreenshotCheck g /\
  processedFiles g ⊆ processedFiles g'.
Proof.
  cbn zeta.
  destruct (handleNewScreenshot_step w filePath g filePath)
    as [[-> _]|(_ & Hpf & ? & ? & ? & ? & _)]; [frame_done|].
  repeat split; try assumption. rewrite Hpf. apply union_subseteq_r.
Qed.

Lemma checkForNewScreenshots_returns w dir g :
  result_of (checkForNewScreenshots w dir g) = Normal tt.
Proof.
  rewrite checkForNewScreenshots_eq.
  destruct (fs.readdir w dir); [|reflexivity]. by destruct (scan _ _ _ _).1.
Qed.

Lemma checkForNewScreenshots_credit w dir g P :
  transfers P (effects_of (checkForNewScreenshots w dir g)) + claimed P g
  <= claimed P (globals_of (checkForNewScreenshots w dir g)).
Proof.
  rewrite checkForNewScreenshots_eq.
  destruct (fs.readdir w dir) as [files|]; [|count_transfers; lia].
  destruct (scan _ _ _ _).1 as [n|]; [|count_transfers; lia].
  cbn zeta. unfold effects_of at 1, globals_of at 1. cbn [fst snd].
  rewrite transfers_cons. cbn [is_transfer].
  apply (handleNewScreenshot_credit w (path n) (set_lastScreenshotCheck (mtime n) g) P).
Qed.

Lemma checkForNewScreenshots_frame w dir g :
  let g' := globals_of (checkForNewScreenshots w dir g) in
  screenshotDir g' = screenshotDir g /\ fileWatcher g' = fileWatcher g /\
  pollingInterval g' = pollingInterval g /\
  (lastScreenshotCheck g <= lastScreenshotCheck g')%Z /\
  processedFiles g ⊆ processedFiles g'.
Proof.
  cbn zeta. rewrite checkForNewScreenshots_eq.
  destruct (fs.readdir w dir) as [files|]; [|frame_done].
  pose proof (scan_spec w dir files (lastScreenshotCheck g)) as Hspec.
  destruct (scan _ _ _ _) as [[n|] t]; cbn [fst]; [|frame_done].
  destruct Hspec as [_ (_ & _ & Hw & _)].
  destruct (handleNewScreenshot_frame w (path n) (set_lastScreenshotCheck (mtime n) g))
    as (Hsd & Hfw & Hpi & Hlc & Hsub).
  cbn zeta. unfold globals_of in *. cbn [fst snd] in *.
  rewrite Hsd, Hfw, Hpi, Hlc.
  cbn. frame_done.
Qed.

Lemma step_credit ev s P :
  transfers P (step ev s).2 + claimed P (globals s)
  <= claimed P (globals (step ev s).1).
Proof.
  destruct ev as [eventType filename|i w|w]; cbn [step].
  - destruct (fileWatcher (globals s)); [|count_transfers; lia].
    destruct (watchCallback _ _ _); count_transfers; cbn [globals]; lia.
  - destruct (timers s !! i) as [fullPath|]; [|count_transfers; lia].
    cbn [fst snd globals]. apply handleNewScreenshot_credit.
  - destruct (pollingInterval (globals s)) as [t|]; [|count_transfers; lia].
    cbn [fst snd globals]. apply checkForNewScreenshots_credit.
Qed.

Lemma step_frame ev s :
  let g := globals s in
  let g' := globals (step ev s).1 in
  screenshotDir g' = screenshotDir g /\ fileWatcher g' = fileWatcher g /\
  pollingInterval g' = pollingInterval g /\
  (lastScreenshotCheck g <= lastScreenshotCheck g')%Z /\
  processedFiles g ⊆ processedFiles g'.
Proof.
  cbn zeta. destruct ev as [eventType filename|i w|w]; cbn [step].
  - destruct (fileWatcher (globals s)) eqn:Hfw;
      [|cbn [fst]; rewrite ?Hfw; frame_done].
    destruct (watchCallback _ _ _); cbn [fst globals]; rewrite ?Hfw; frame_done.
  - destruct (timers s !! i) as [fullPath|]; [|frame_done].
    cbn [fst globals].
    destruct (handleNewScreenshot_frame w fullPath (globals s)) as (-> & -> & -> & -> & Hsub).
    frame_done.
  - destruct (pollingInterval (globals s)) as [t|] eqn:Hp;
      [|cbn [fst]; rewrite ?Hp; frame_done].
    cbn [fst globals].
    destruct (checkForNewScreenshots_frame w (polled t) (globals s)) as (-> & -> & -> & Hle & Hsub).
    rewrite ?Hp. frame_done.
Qed.

Lemma run_cons ev evs s :
  run (ev :: evs) s =
  ((run evs (step ev s).1).1, (step ev s).2 ++ (run evs (step ev s).1).2).
Proof.
  cbn [run]. destruct (step ev s) as [s1 e1]. cbn [fst snd].
  destruct (run evs s1) as [s2 e2]. reflexivity.
Qed.

Lemma run_credit evs s P :
  transfers P (run evs s).2 + claimed P (globals s)
  <= claimed P (globals (run evs s).1).
Proof.
  revert s. induction evs as [|ev evs IH]; intros s.
  - cbn [run]. count_transfers. lia.
  - rewrite run_cons. cbn [fst snd]. rewrite transfers_app.
    pose proof (step_credit ev s P). pose proof (IH (step ev s).1). lia.
Qed.

Lemma run_frame evs s :
  let g := globals s in
  let g' := globals (run evs s).1 in
  screenshotDir g' = screenshotDir g /\ fileWatcher g' = fileWatcher g /\
  pollingInterval g' = pollingInterval g /\
  (lastScreenshotCheck g <= lastScreenshotCheck g')%Z /\
  processedFiles g ⊆ processedFiles g'.
Proof.
  cbn zeta. revert s. induction evs as [|ev evs IH]; intros s.
  - cbn [run fst]. frame_done.
  - rewrite run_cons. cbn [fst snd].
    destruct (IH (step ev s).1) as (-> & -> & -> & Hle & Hsub).
    destruct (step_frame ev s) as (-> & -> & -> & Hle' & Hsub').
    frame_done.
Qed.

Lemma run_app evs1 evs2 s :
  run (evs1 ++ evs2) s =
  ((run evs2 (run evs1 s).1).1, (run evs1 s).2 ++ (run evs2 (run evs1 s).1).2).
Proof.
  revert s. induction evs1 as [|ev evs1 IH]; intros s.
  - cbn [app run fst snd]. by destruct (run evs2 s).
  - rewrite <- app_comm_cons, !run_cons, IH. cbn [fst snd].
    by rewrite app_assoc.
Qed.

(** ** [endsWith] *)

Lemma string_length_app (a b : string) :
  String.length (a +:+ b) = String.length a + String.length b.
Proof. induction a as [|c a IH]; simpl; [reflexivity|]. f_equal. exact IH. Qed.

Lemma substring_all (s : string) : String.substring 0 (String.length s) s = s.
Proof. induction s as [|c s IH]; simpl; [reflexivity|]. f_equal. exact IH. Qed.

Lemma substring_after (a b : string) m :
  String.substring (String.length a) m (a +:+ b) = String.substring 0 m b.
Proof. induction a as [|c a IH]; simpl; [reflexivity|]. exact IH. Qed.

Lemma substring_split (s : string) k :
  k <= String.length s ->
  s = String.substring 0 k s +:+ String.substring k (String.length s - k) s.
Proof.
  revert k. induction s as [|c s IH]; intros k Hk.
  - destruct k; [reflexivity|cbn in Hk; lia].
  - destruct k as [|k].
    + change (String c s = String c (String.substring 0 (String.length s) s)).
      by rewrite substring_all.
    + simpl in Hk.
      change (String c s = String c (String.substring 0 k s
                                       +:+ String.substring k (String.length s - k) s)).
      f_equal. apply IH. lia.
Qed.

Lemma endsWith_iff s suffix :
  endsWith s suffix = true <-> exists base, s = base +:+ suffix.
Proof.
  unfold endsWith. rewrite andb_true_iff, Nat.leb_le, String.eqb_eq. split.
  - intros [Hle Hsub].
    exists (String.substring 0 (String.length s - String.length suffix) s).
    pose proof (substring_split s (String.length s - String.length suffix)) as Hs.
    replace (String.length s - (String.length s - String.length suffix))
      with (String.length suffix) in Hs by lia.
    rewrite Hsub in Hs. apply Hs. lia.
  - intros [base ->]. rewrite string_length_app. split; [lia|].
    replace (String.length base + String.length suffix - String.length suffix)
      with (String.length base) by lia.
    rewrite substring_after. apply substring_all.
Qed.

Lemma qualifies_iff filename :
  qualifies filename = true <->
  exists base, filename = base +:+ ".png" \/ filename = base +:+ ".jpg"
               \/ filename = base +:+ ".jpeg".
Proof.
  unfold qualifies. rewrite !orb_true_iff, !endsWith_iff. split.
  - intros [[[b Hb]|[b Hb]]|[b Hb]]; exists b; auto.
  - intros [b [Hb|[Hb|Hb]]]; eauto.
Qed.

Lemma scan_selects_qualifying w dir files watermark n :
  (scan w dir files watermark).1 = Some n -> qualifies (name n) = true.
Proof.
  intros Hsel. pose proof (scan_spec w dir files watermark) as Hspec.
  destruct (scan w dir files watermark) as [[n'|] t]; cbn in Hsel; [|discriminate].
  injection Hsel as ->. destruct Hspec as [_ (_ & Hq & _)].
  unfold qualifying_mtime in Hq. by destruct (qualifies (name n)).
Qed.

Lemma interceptPaste_eq activeTerminal g :
  interceptPaste activeTerminal g =
  (Normal tt, g,
   console_log "Paste interceptor triggered." ::
   match truthy (lastSavedImagePath g) with
   | Some p =>
       if activeTerminal
       then [console_log ("Sending WSL path to terminal: " +:+ p); sendText p;
             showInformationMessage ("Pasted screenshot path: " +:+ path.basename p)]
       else [console_log "Falling back to normal paste"; terminal_paste]
   | None => [console_log "Falling back to normal paste"; terminal_paste]
   end).
Proof.
  unfold interceptPaste, bind, get, emit.
  destruct (truthy (lastSavedImagePath g)); [destruct activeTerminal|]; reflexivity.
Qed.

Lemma interceptPaste_sends p g :
  truthy (lastSavedImagePath g) = Some p ->
  sendText p ∈ effects_of (interceptPaste true g).
Proof.
  intros Hp. rewrite interceptPaste_eq, Hp. unfold effects_of. cbn [snd].
  apply elem_of_cons. right. apply elem_of_cons. right.
  apply elem_of_cons. by left.
Qed.

Lemma passes_gate_iff w filePath :
  passes_gate w filePath = true <->
  fs.exists_ w filePath = true /\
  exists stats, fs.stat w filePath = Some stats /\ fs.isFile stats = true /\
                (0 < fs.size stats)%N.
Proof.
  unfold passes_gate. rewrite andb_true_iff. split.
  - intros [He Hs]. split; [exact He|].
    destruct (fs.stat w filePath) as [stats|]; [|discriminate].
    apply andb_true_iff in Hs as [Hf Hz]. exists stats.
    apply negb_true_iff, N.eqb_neq in Hz. repeat split; [exact Hf|lia].
  - intros [He (stats & -> & Hf & Hz)]. split; [exact He|].
    rewrite Hf. apply negb_true_iff, N.eqb_neq. lia.
Qed.

Lemma handleNewScreenshot_discards w filePath g :
  passes_gate w filePath = false ->
  (fs.exists_ w filePath = false \/ is_Some (fs.stat w filePath)) ->
  handleNewScreenshot w filePath g = (Normal tt, g, []).
Proof.
  intros Hgate Hquiet. rewrite handleNewScreenshot_eq, Hgate.
  destruct (decide _); [reflexivity|].
  destruct Hquiet as [->|Hsome]; [reflexivity|].
  rewrite (bool_decide_eq_true_2 _ Hsome). by rewrite andb_false_r.
Qed.

Lemma handleNewScreenshot_ingests w filePath g :
  filePath ∉ processedFiles g -> passes_gate w filePath = true ->
  handleNewScreenshot w filePath g = publish w filePath (mark filePath g).
Proof.
  intros Hnew Hgate. rewrite handleNewScreenshot_eq, Hgate.
  destruct (decide _); [contradiction|reflexivity].
Qed.

Lemma publish_keeps_mark w filePath g :
  filePath ∈ processedFiles (globals_of (publish w filePath (mark filePath g))).
Proof.
  rewrite publish_eq. unfold globals_of. cbn [fst snd].
  destruct (truthy _); cbn; apply elem_of_union_l, elem_of_singleton; reflexivity.
Qed.

(** Once [P] is claimed, the pipeline drops it and the session makes no
    transfer of it. *)
Lemma claimed_stays_untouched evs s P w :
  P ∈ processedFiles (globals s) ->
  handleNewScreenshot w P (globals s) = (Normal tt, globals s, []) /\
  transfers P (run evs s).2 = 0.
Proof.
  intros HP. split; [by apply handleNewScreenshot_processed|].
  pose proof (run_credit evs s P) as Hcredit.
  pose proof (claimed_le_1 P (globals (run evs s).1)) as Hle.
  unfold claimed in Hcredit at 1. destruct (decide _); [lia|contradiction].
Qed.

End Facts.

(** * The claims *)

(** C1 (dedup).  Whatever the watcher, the settle timers and the poll timer
    deliver during a session, and in whatever order, [fs.copyFileSync] is
    called at most once with source [P]; and once [P] is in
    [processedFiles], [handleNewScreenshot] on [P] returns at once, leaving
    the module variables as they are and producing no effect, so that the
    rest of the session makes no transfer of [P]. *)
Theorem C1_at_most_one_transfer {L : path.Lib}
    (evs : list event) (s : Session) (P : string) (w : fs.World) :
  transfers P (run evs s).2 <= 1 /\
  (P ∈ processedFiles (globals s) ->
   handleNewScreenshot w P (globals s) = (Normal tt, globals s, []) /\
   transfers P (run evs s).2 = 0).
Proof.
  pose proof (run_credit evs s P) as Hcredit.
  pose proof (claimed_le_1 P (globals (run evs s).1)) as Hle.
  split; [lia|]. apply claimed_stays_untouched.
Qed.

Lemma C1_at_most_one_transfer_witness :
  handleNewScreenshot (L := posix) Scenario.with_b Example.b_png (globals Scenario.ingested)
    = (Normal tt, globals Scenario.ingested, []) /\
  transfers Example.b_png (run (L := posix) Scenario.detections Scenario.ingested).2 = 0.
Proof.
  apply (C1_at_most_one_transfer (L := posix)
           Scenario.detections Scenario.ingested Example.b_png Scenario.with_b).
  apply (bool_decide_unpack _). vm_compute. exact I.
Defined.

(** C2 (watermark).  [startFileMonitoring], when it succeeds, sets
    [lastScreenshotCheck] to the current time.  A poll cycle leaves it as it
    is or sets it to the modification time of the file it selected, which
    is strictly greater.  The pipeline, the copy, the paste interceptor,
    [cleanup], a watcher notification and a settle timer do not write it.
    So along a session it never decreases. *)
Theorem C2_watermark_monotone {L : path.Lib}
    (w : fs.World) (dir filePath : string) (g : Globals) (activeTerminal : bool)
    (ev : event) (evs1 evs2 : list event) (s : Session) :
  (result_of (startFileMonitoring w dir g) = Normal true ->
   lastScreenshotCheck (globals_of (startFileMonitoring w dir g)) = fs.now w) /\
  (let g' := globals_of (checkForNewScreenshots w dir g) in
   lastScreenshotCheck g' = lastScreenshotCheck g \/
   exists files n,
     fs.readdir w dir = Some files /\
     (scan w dir files (lastScreenshotCheck g)).1 = Some n /\
     lastScreenshotCheck g' = mtime n /\
     (lastScreenshotCheck g < mtime n)%Z) /\
  lastScreenshotCheck (globals_of (handleNewScreenshot w filePath g)) = lastScreenshotCheck g /\
  lastScreenshotCheck (globals_of (copyScreenshotToWSL w filePath g)) = lastScreenshotCheck g /\
  lastScreenshotCheck (globals_of (interceptPaste activeTerminal g)) = lastScreenshotCheck g /\
  lastScreenshotCheck (globals_of (cleanup w g)) = lastScreenshotCheck g /\
  ((forall w', ev <> Poll w') ->
   lastScreenshotCheck (globals (step ev s).1) = lastScreenshotCheck (globals s)) /\
  (lastScreenshotCheck (globals (run evs1 s).1)
   <= lastScreenshotCheck (globals (run (evs1 ++ evs2) s).1))%Z.
Proof.
  repeat apply conj.
  - rewrite startFileMonitoring_eq.
    destruct (String.eqb dir EmptyString); [discriminate|].
    destruct (negb (fs.exists_ w dir)); [discriminate|].
    intros _. cbn zeta. unfold globals_of. cbn [fst snd].
    destruct (fs.watch_ok w dir); reflexivity.
  - cbn zeta. rewrite checkForNewScreenshots_eq.
    destruct (fs.readdir w dir) as [files|]; [|by left].
    pose proof (scan_spec w dir files (lastScreenshotCheck g)) as Hspec.
    destruct (scan w dir files (lastScreenshotCheck g)) as [[n|] t] eqn:Hscan;
      cbn [fst]; [|by left].
    right. exists files, n. rewrite Hscan. destruct Hspec as [_ (_ & _ & Hw & _)].
    repeat split; try done.
    cbn zeta. unfold globals_of at 1. cbn [fst snd].
    by destruct (handleNewScreenshot_frame w (path n) (set_lastScreenshotCheck (mtime n) g))
      as (_ & _ & _ & -> & _).
  - by destruct (handleNewScreenshot_frame w filePath g) as (_ & _ & _ & -> & _).
  - by rewrite copyScreenshotToWSL_eq.
  - by rewrite interceptPaste_eq.
  - by rewrite cleanup_eq.
  - intros Hev. destruct ev as [eventType filename|i w'|w']; cbn [step].
    + destruct (fileWatcher (globals s)); [|done]. by destruct (watchCallback _ _ _).
    + destruct (timers s !! i) as [fullPath|]; [|done]. cbn [fst globals].
      by destruct (handleNewScreenshot_frame w' fullPath (globals s)) as (_ & _ & _ & -> & _).
    + by destruct (Hev w').
  - rewrite run_app. cbn [fst].
    by destruct (run_frame evs2 (run evs1 s).1) as (_ & _ & _ & Hle & _).
Qed.

Lemma C2_watermark_monotone_witness :
  lastScreenshotCheck Example.started = 150%Z /\
  lastScreenshotCheck
    (globals (step (L := posix) (Settle 0 Scenario.with_b)
                {| globals := Example.started; timers := [Example.b_png] |}).1) = 150%Z.
Proof.
  destruct (C2_watermark_monotone (L := posix)
              (Example.world [("a.png", Some (Example.file 10 100))] true true 150)
              Example.source Example.b_png Example.configured true
              (Settle 0 Scenario.with_b) [] []
              {| globals := Example.started; timers := [Example.b_png] |})
    as (Hstart & _ & _ & _ & _ & _ & Hother & _).
  split.
  - apply Hstart. reflexivity.
  - rewrite Hother; [reflexivity|]. intros w'. discriminate.
Defined.

(** C3 (newest-first selection).  A poll cycle that can list the directory
    makes one left-to-right pass over the listing, carrying only the newest
    file seen so far and its time.  If some qualifying file that can be
    stat-ed is newer than the watermark, the pass selects one whose
    modification time is the greatest among them (the first such entry in
    listing order) and the pipeline is run once, on that file; otherwise
    nothing is selected and the cycle does nothing.  In particular, with
    qualifying files at times t1 < t2 < t3 above the watermark, the file at
    t3 is the one selected. *)
Theorem C3_poll_selects_newest {L : path.Lib}
    (w : fs.World) (dir : string) (files : list string) (g : Globals)
    (Hlist : fs.readdir w dir = Some files) :
  let watermark := lastScreenshotCheck g in
  scan w dir files watermark = fold_left (scan_step w dir) files (None, watermark) /\
  match (scan w dir files watermark).1 with
  | Some n =>
      newest_in w dir watermark files n /\
      name n ∈ files /\
      (forall f t, f ∈ files -> qualifying_mtime w dir f = Some t -> (t <= mtime n)%Z) /\
      checkForNewScreenshots w dir g =
        (Normal tt,
         globals_of (handleNewScreenshot w (path n) (set_lastScreenshotCheck (mtime n) g)),
         console_log ("Found new screenshot: " +:+ name n)
           :: effects_of (handleNewScreenshot w (path n)
                            (set_lastScreenshotCheck (mtime n) g)))
  | None =>
      nothing_new w dir watermark files /\
      checkForNewScreenshots w dir g = (Normal tt, g, [])
  end /\
  (forall f1 f2 f3 t1 t2 t3,
     files ≡ₚ [f1; f2; f3] ->
     qualifying_mtime w dir f1 = Some t1 ->
     qualifying_mtime w dir f2 = Some t2 ->
     qualifying_mtime w dir f3 = Some t3 ->
     (watermark < t1 < t2)%Z -> (t2 < t3)%Z ->
     (scan w dir files watermark).1
     = Some {| name := f3; path := path.join dir f3; mtime := t3 |}).
Proof.
  cbn zeta. split; [reflexivity|]. split.
  - pose proof (scan_spec w dir files (lastScreenshotCheck g)) as Hspec.
    rewrite checkForNewScreenshots_eq, Hlist.
    destruct (scan w dir files (lastScreenshotCheck g)) as [[n|] t]; cbn [fst].
    + destruct Hspec as [_ Hn]. split; [exact Hn|].
      split; [exact (newest_in_listed _ _ _ _ _ Hn)|].
      split; [|reflexivity]. intros f t'. exact (newest_in_max _ _ _ _ _ f t' Hn).
    + destruct Hspec as [_ Hnone]. by split.
  - intros f1 f2 f3 t1 t2 t3 Hperm H1 H2 H3 Hlow Hhigh.
    rewrite (scan_unique_max w dir files (lastScreenshotCheck g) f3 t3); [reflexivity|..].
    + rewrite Hperm. apply elem_of_cons. right. apply elem_of_cons. right.
      apply elem_of_cons. by left.
    + exact H3.
    + lia.
    + intros f t Hin Hne Hq. rewrite Hperm in Hin.
      apply elem_of_cons in Hin as [->|Hin].
      { rewrite H1 in Hq. injection Hq as <-. lia. }
      apply elem_of_cons in Hin as [->|Hin].
      { rewrite H2 in Hq. injection Hq as <-. lia. }
      apply list_elem_of_singleton in Hin. contradiction.
Qed.

Lemma C3_poll_selects_newest_witness :
  (scan (L := posix) Listing.three_world Example.source (map fst Listing.three) 150).1
    = Some {| name := "t3.jpg"; path := Example.source +:+ "/t3.jpg"; mtime := 230 |} /\
  (scan (L := posix) Listing.only_three_world Example.source (map fst Listing.only_three) 150).1
    = Some {| name := "t3.jpg"; path := Example.source +:+ "/t3.jpg"; mtime := 230 |}.
Proof.
  split.
  - pose proof (C3_poll_selects_newest (L := posix) Listing.three_world Example.source
                  (map fst Listing.three) Example.started eq_refl) as [Hfold _].
    change (lastScreenshotCheck Example.started) with 150%Z in Hfold.
    rewrite Hfold. reflexivity.
  - destruct (C3_poll_selects_newest (L := posix) Listing.only_three_world Example.source
                (map fst Listing.only_three) Example.started eq_refl) as (_ & _ & Hthree).
    apply (Hthree "t1.jpeg" "t2.png" "t3.jpg" 210%Z 220%Z 230%Z).
    + change (map fst Listing.only_three) with ["t2.png"; "t3.jpg"; "t1.jpeg"].
      apply Permutation_sym, Permutation_cons_append.
    + reflexivity.
    + reflexivity.
    + reflexivity.
    + change (lastScreenshotCheck Example.started) with 150%Z. lia.
    + lia.
Defined.

(** C4 (mark, then act).  When a candidate that is not yet in
    [processedFiles] passes the validity gate, the rest of the pipeline,
    the copy included, runs on module variables in which the path is
    already in [processedFiles].  The path is still there when the pipeline
    returns, whatever the copy did; if [fs.copyFileSync] throws, the
    pipeline reports the error and changes nothing else.  From then on
    every candidate for that path is dropped, and no event of the session
    causes a transfer of it. *)
Theorem C4_mark_before_copy {L : path.Lib}
    (w : fs.World) (P : string) (g : Globals)
    (Hnew : P ∉ processedFiles g) (Hgate : passes_gate w P = true) :
  let r := handleNewScreenshot w P g in
  r = publish w P (mark P g) /\
  P ∈ processedFiles (mark P g) /\
  P ∈ processedFiles (globals_of r) /\
  (forall dir,
     truthy (screenshotDir g) = Some dir ->
     fs.copy_ok w P (path.join dir (path.basename P)) = false ->
     r = (Normal tt, mark P g,
          [copyFile P (path.join dir (path.basename P)) false;
           showErrorMessage "Error copying screenshot: "])) /\
  (forall w' evs pending,
     handleNewScreenshot w' P (globals_of r) = (Normal tt, globals_of r, []) /\
     transfers P (run evs {| globals := globals_of r; timers := pending |}).2 = 0).
Proof.
  cbn zeta. rewrite (handleNewScreenshot_ingests w P g Hnew Hgate).
  pose proof (publish_keeps_mark w P g) as Hkept.
  split; [reflexivity|]. split.
  { apply elem_of_union_l, elem_of_singleton. reflexivity. }
  split; [exact Hkept|]. split.
  - intros dir Hdir Hfail. rewrite publish_eq. unfold copy_outcome.
    change (screenshotDir (mark P g)) with (screenshotDir g).
    rewrite Hdir. cbn zeta. rewrite Hfail. reflexivity.
  - intros w' evs pending.
    apply (claimed_stays_untouched evs {| globals := globals_of (publish w P (mark P g)); timers := pending |}
             P w' Hkept).
Qed.

Lemma C4_mark_before_copy_witness :
  let r := handleNewScreenshot (L := posix) Failure.read_only Example.b_png Example.started in
  r = (Normal tt, mark Example.b_png Example.started,
       [copyFile Example.b_png (Example.dest +:+ "/b.png") false;
        showErrorMessage "Error copying screenshot: "]) /\
  transfers Example.b_png
    (run (L := posix) Scenario.detections {| globals := globals_of r; timers := [] |}).2 = 0.
Proof.
  assert (Hnew : Example.b_png ∉ processedFiles Example.started).
  { apply (bool_decide_unpack _). vm_compute. exact I. }
  destruct (C4_mark_before_copy (L := posix) Failure.read_only Example.b_png Example.started
              Hnew eq_refl) as (_ & _ & _ & Hfail & Hlater).
  split.
  - apply (Hfail Example.dest); reflexivity.
  - apply (Hlater Scenario.with_b Scenario.detections []).
Defined.

(** C5 (validity gate).  A candidate whose file does not exist, is not a
    regular file, or is empty is dropped: the pipeline returns without any
    effect and without touching the module variables, [processedFiles]
    included.  So if the path had not been ingested before, a later
    candidate for it that finds a regular, non-empty file is marked and
    handed to the copy; with a destination directory configured this is
    one call of [fs.copyFileSync] from the path to that directory. *)
Theorem C5_validity_gate {L : path.Lib}
    (w : fs.World) (P : string) (g : Globals)
    (Hbad : fs.exists_ w P = false \/
            exists stats, fs.stat w P = Some stats /\
                          (fs.isFile stats = false \/ fs.size stats = 0%N)) :
  handleNewScreenshot w P g = (Normal tt, g, []) /\
  (forall w' stats',
     P ∉ processedFiles g ->
     fs.exists_ w' P = true -> fs.stat w' P = Some stats' ->
     fs.isFile stats' = true -> (0 < fs.size stats')%N ->
     let r := handleNewScreenshot w' P (globals_of (handleNewScreenshot w P g)) in
     r = publish w' P (mark P g) /\
     P ∈ processedFiles (globals_of r) /\
     (forall dir,
        truthy (screenshotDir g) = Some dir ->
        transfers P (effects_of r) = 1 /\
        exists ok rest,
          effects_of r = copyFile P (path.join dir (path.basename P)) ok :: rest)).
Proof.
  assert (Hdrop : handleNewScreenshot w P g = (Normal tt, g, [])).
  { apply handleNewScreenshot_discards.
    - unfold passes_gate. destruct Hbad as [->|(stats & -> & [->| ->])];
        [reflexivity| by rewrite andb_false_r | by rewrite !andb_false_r].
    - destruct Hbad as [->|(stats & -> & _)]; [by left|by right]. }
  split; [exact Hdrop|].
  intros w' stats' Hnew He Hs Hf Hz. cbn zeta. rewrite Hdrop.
  change (globals_of (Normal (), g, [])) with g.
  assert (Hgate : passes_gate w' P = true).
  { apply passes_gate_iff. split; [exact He|]. by exists stats'. }
  rewrite (handleNewScreenshot_ingests w' P g Hnew Hgate).
  split; [reflexivity|]. split; [apply publish_keeps_mark|].
  intros dir Hdir. rewrite publish_eq. unfold effects_of, copy_outcome. cbn [snd].
  change (screenshotDir (mark P g)) with (screenshotDir g). rewrite Hdir. cbn zeta.
  destruct (fs.copy_ok w' P _); cbn [snd].
  - split; [|eauto].
    rewrite transfers_cons, transfers_app, transfers_clipboard, transfers_cons.
    cbn [is_transfer]. rewrite String.eqb_refl. reflexivity.
  - split; [|eauto].
    rewrite !transfers_cons. cbn [is_transfer]. rewrite String.eqb_refl. reflexivity.
Qed.

Lemma C5_validity_gate_witness :
  handleNewScreenshot (L := posix) Failure.empty_b Example.b_png Example.started
    = (Normal tt, Example.started, []) /\
  transfers Example.b_png
    (effects_of (handleNewScreenshot (L := posix) Scenario.with_b Example.b_png
                   (globals_of (handleNewScreenshot (L := posix) Failure.empty_b
                                  Example.b_png Example.started)))) = 1.
Proof.
  assert (Hbad : fs.exists_ Failure.empty_b Example.b_png = false \/
                 exists stats, fs.stat Failure.empty_b Example.b_png = Some stats /\
                               (fs.isFile stats = false \/ fs.size stats = 0%N)).
  { right. exists (Example.file 0 200). split; [reflexivity|]. right. reflexivity. }
  destruct (C5_validity_gate (L := posix) Failure.empty_b Example.b_png Example.started Hbad)
    as [Hdrop Hlater].
  split; [exact Hdrop|].
  assert (Hnew : Example.b_png ∉ processedFiles Example.started).
  { apply (bool_decide_unpack _). vm_compute. exact I. }
  destruct (Hlater Scenario.with_b (Example.file 10 200) Hnew eq_refl eq_refl eq_refl eq_refl)
    as (_ & _ & Hcopy).
  apply (Hcopy Example.dest). reflexivity.
Defined.

(** C6 (watermark first).  When a poll cycle selects a file, the pipeline
    is entered with [lastScreenshotCheck] already set to that file's
    modification time, and that is its value when the cycle ends: whether
    the pipeline then drops the file as a duplicate, drops it at the
    validity gate, copies it, or fails to copy it. *)
Theorem C6_watermark_before_ingestion {L : path.Lib}
    (w : fs.World) (dir : string) (files : list string) (n : NewestFile) (g : Globals)
    (Hlist : fs.readdir w dir = Some files)
    (Hsel : (scan w dir files (lastScreenshotCheck g)).1 = Some n) :
  let g1 := set_lastScreenshotCheck (mtime n) g in
  checkForNewScreenshots w dir g =
    (emit (console_log ("Found new screenshot: " +:+ name n));;
     handleNewScreenshot w (path n)) g1 /\
  lastScreenshotCheck (globals_of (checkForNewScreenshots w dir g)) = mtime n /\
  (path n ∈ processedFiles g -> globals_of (checkForNewScreenshots w dir g) = g1) /\
  (passes_gate w (path n) = false -> globals_of (checkForNewScreenshots w dir g) = g1) /\
  (path n ∉ processedFiles g -> passes_gate w (path n) = true ->
   globals_of (checkForNewScreenshots w dir g)
   = globals_of (publish w (path n) (mark (path n) g1))).
Proof.
  cbn zeta. rewrite checkForNewScreenshots_eq, Hlist, Hsel. cbn zeta.
  pose proof (handleNewScreenshot_returns w (path n) (set_lastScreenshotCheck (mtime n) g)) as Hr.
  pose proof (handleNewScreenshot_frame w (path n) (set_lastScreenshotCheck (mtime n) g))
    as (_ & _ & _ & Hwm & _).
  split; [|split; [exact Hwm|]].
  - unfold bind, emit.
    destruct (handleNewScreenshot w (path n) _) as [[c g'] es].
    unfold result_of in Hr. cbn in Hr. by subst c.
  - unfold globals_of at 1 3 5. cbn [fst snd]. repeat split.
    + intros Hdup. by rewrite handleNewScreenshot_processed.
    + intros Hgate. rewrite handleNewScreenshot_eq, Hgate.
      destruct (decide _); [reflexivity|]. by destruct (_ && _).
    + intros Hnew Hgate.
      by rewrite (handleNewScreenshot_ingests w (path n)
                    (set_lastScreenshotCheck (mtime n) g) Hnew Hgate).
Qed.

Lemma C6_watermark_before_ingestion_witness :
  lastScreenshotCheck
    (globals_of (checkForNewScreenshots (L := posix) Failure.empty_b Example.source
                   Example.started)) = 200%Z /\
  globals_of (checkForNewScreenshots (L := posix) Failure.empty_b Example.source
                Example.started)
  = set_lastScreenshotCheck 200 Example.started.
Proof.
  destruct (C6_watermark_before_ingestion (L := posix) Failure.empty_b Example.source
              ["a.png"; "b.png"]
              {| name := "b.png"; path := Example.b_png; mtime := 200 |}
              Example.started eq_refl eq_refl) as (_ & Hwm & _ & Hgate & _).
  split; [exact Hwm|]. apply Hgate. reflexivity.
Defined.

(** C7 (scanner error containment).  A directory entry whose
    [fs.statSync] throws is passed over and the loop goes on: the scan gives
    what it would give without that entry, so a file that can be stat-ed and
    is the newest of the others above the watermark is still selected.
    When [fs.readdirSync] throws, the cycle logs the error and ends with the
    module variables as they were, so the next tick behaves as if the
    failed one had not happened.  No poll cycle lets an exception escape,
    and none touches the watcher handle or the interval handle. *)
Theorem C7_scanner_error_containment {L : path.Lib}
    (w w' : fs.World) (dir : string) (before after : list string) (filename : string)
    (watermark : Z) (g : Globals) (s : Session) :
  (fs.stat w (path.join dir filename) = None ->
   scan w dir (before ++ filename :: after) watermark
   = scan w dir (before ++ after) watermark /\
   forall f0 t0,
     f0 ∈ before ++ after -> qualifying_mtime w dir f0 = Some t0 -> (watermark < t0)%Z ->
     (forall f t, f ∈ before ++ after -> f <> f0 ->
                  qualifying_mtime w dir f = Some t -> (t < t0)%Z) ->
     (scan w dir (before ++ filename :: after) watermark).1
     = Some {| name := f0; path := path.join dir f0; mtime := t0 |}) /\
  (fs.readdir w dir = None ->
   checkForNewScreenshots w dir g
   = (Normal tt, g, [console_error "Error during polling check: "])) /\
  ((forall t, pollingInterval (globals s) = Some t -> fs.readdir w (polled t) = None) ->
   (step (Poll w) s).1 = s /\
   step (Poll w') (step (Poll w) s).1 = step (Poll w') s) /\
  result_of (checkForNewScreenshots w dir g) = Normal tt /\
  pollingInterval (globals_of (checkForNewScreenshots w dir g)) = pollingInterval g /\
  fileWatcher (globals_of (checkForNewScreenshots w dir g)) = fileWatcher g.
Proof.
  repeat apply conj.
  - intros Hstat.
    assert (Hnone : qualifying_mtime w dir filename = None).
    { unfold qualifying_mtime. rewrite Hstat. by destruct (qualifies filename). }
    split; [by apply scan_skip|].
    intros f0 t0 Hin Hq Hw Hothers. rewrite (scan_skip _ _ _ _ _ _ Hnone).
    by rewrite (scan_unique_max w dir (before ++ after) watermark f0 t0).
  - intros Hlist. by rewrite checkForNewScreenshots_eq, Hlist.
  - intros Hfail.
    assert (Hsame : (step (Poll w) s).1 = s).
    { cbn [step]. destruct (pollingInterval (globals s)) as [t|] eqn:Ht; [|reflexivity].
      rewrite checkForNewScreenshots_eq, (Hfail t eq_refl). by destruct s. }
    split; [exact Hsame|]. by rewrite Hsame.
  - apply checkForNewScreenshots_returns.
  - by destruct (checkForNewScreenshots_frame w dir g) as (_ & _ & -> & _).
  - by destruct (checkForNewScreenshots_frame w dir g) as (_ & -> & _).
Qed.

Lemma C7_scanner_error_containment_witness :
  (scan (L := posix) (Example.world Failure.locked_x true true 310) Example.source
     ["c.png"; "x.png"; "b.png"] 150).1
    = Some {| name := "c.png"; path := Example.source +:+ "/c.png"; mtime := 300 |} /\
  (scan (L := posix) (Example.world Failure.locked_x true true 310) Example.source
     ["x.png"; "b.png"] 150).1
    = Some {| name := "b.png"; path := Example.b_png; mtime := 200 |} /\
  (step (L := posix) (Poll Failure.unlistable) Example.session).1 = Example.session.
Proof.
  split; [|split].
  - destruct (C7_scanner_error_containment (L := posix)
                (Example.world Failure.locked_x true true 310) Scenario.with_b
                Example.source ["c.png"] ["b.png"] "x.png" 150 Example.started Example.session)
      as ((_ & Hsel) & _).
    { reflexivity. }
    apply (Hsel "c.png" 300%Z); [|reflexivity|lia|].
    + apply elem_of_cons. by left.
    + intros f t Hin Hne Hq.
      apply elem_of_cons in Hin as [->|Hin]; [contradiction|].
      apply list_elem_of_singleton in Hin as ->. injection Hq as <-. lia.
  - destruct (C7_scanner_error_containment (L := posix)
                (Example.world Failure.locked_x true true 310) Scenario.with_b
                Example.source [] ["b.png"] "x.png" 150 Example.started Example.session)
      as ((_ & Hsel) & _).
    { reflexivity. }
    apply (Hsel "b.png" 200%Z); [|reflexivity|lia|].
    + apply list_elem_of_singleton. reflexivity.
    + intros f t Hin Hne Hq. apply list_elem_of_singleton in Hin. contradiction.
  - destruct (C7_scanner_error_containment (L := posix)
                Failure.unlistable Scenario.with_b
                Example.source [] [] "x.png" 150 Example.started Example.session)
      as (_ & _ & Hretry & _).
    apply Hretry. intros t Ht. injection Ht as <-. reflexivity.
Defined.

(** C8 (extension filter).  A name qualifies exactly when it ends in
    [.png], [.jpg] or [.jpeg], compared character by character; so
    [screenshot.PNG] and [screenshot.gif] do not.  The scanner selects only
    qualifying names and the watcher schedules only qualifying names (on a
    [rename] event); a qualifying file that can be stat-ed and is newer than
    the watermark is selected when it is alone in the directory, and a
    [rename] event for a qualifying name is scheduled. *)
Theorem C8_extension_filter {L : path.Lib}
    (w : fs.World) (dir eventType : string) (files : list string) (watermark : Z)
    (n : NewestFile) (filename : option string) (fullPath base : string) (stats : fs.Stats) :
  qualifies (base +:+ ".png") = true /\
  qualifies (base +:+ ".jpg") = true /\
  qualifies (base +:+ ".jpeg") = true /\
  qualifies "screenshot.PNG" = false /\
  qualifies "screenshot.gif" = false /\
  ((scan w dir files watermark).1 = Some n ->
   qualifies (name n) = true /\
   name n <> "screenshot.PNG" /\ name n <> "screenshot.gif") /\
  (watchCallback dir eventType filename = Some fullPath ->
   exists f, filename = Some f /\ qualifies f = true /\ fullPath = path.join dir f /\
             f <> "screenshot.PNG" /\ f <> "screenshot.gif") /\
  watchCallback dir eventType (Some "screenshot.PNG") = None /\
  watchCallback dir eventType (Some "screenshot.gif") = None /\
  (forall f, qualifies f = true ->
     watchCallback dir "rename" (Some f) = Some (path.join dir f) /\
     (fs.stat w (path.join dir f) = Some stats -> (watermark < fs.mtime stats)%Z ->
      (scan w dir [f] watermark).1
      = Some {| name := f; path := path.join dir f; mtime := fs.mtime stats |})).
Proof.
  assert (Hends : forall suffix, endsWith (base +:+ suffix) suffix = true).
  { intros suffix. apply endsWith_iff. by exists base. }
  assert (Hne : forall f, qualifies f = true ->
                          f <> "screenshot.PNG" /\ f <> "screenshot.gif").
  { intros f Hq. split; intros ->; discriminate Hq. }
  repeat apply conj.
  - unfold qualifies. by rewrite Hends.
  - unfold qualifies. by rewrite (Hends ".jpg"), orb_true_r.
  - unfold qualifies. by rewrite (Hends ".jpeg"), orb_true_r.
  - reflexivity.
  - reflexivity.
  - intros Hsel. pose proof (scan_selects_qualifying _ _ _ _ _ Hsel) as Hq.
    split; [exact Hq|]. by apply Hne.
  - unfold watchCallback. intros Hw.
    destruct (String.eqb eventType "rename"); [|discriminate].
    destruct filename as [f|]; [|discriminate]. cbn [truthy] in Hw.
    destruct (String.eqb f EmptyString); [discriminate|].
    destruct (qualifies f) eqn:Hq; [|discriminate].
    injection Hw as <-. exists f. destruct (Hne f Hq). by repeat split.
  - unfold watchCallback. by destruct (String.eqb eventType "rename").
  - unfold watchCallback. by destruct (String.eqb eventType "rename").
  - intros f Hq. split.
    + unfold watchCallback. cbn [truthy].
      destruct (String.eqb_spec f EmptyString) as [->|_]; [discriminate Hq|].
      rewrite Hq. reflexivity.
    + intros Hstat Hnew. unfold scan. cbn [fold_left]. rewrite scan_step_eq.
      unfold qualifying_mtime. rewrite Hq, Hstat. cbn [fmap option_fmap option_map].
      destruct (Z.gtb_spec (fs.mtime stats) watermark); [reflexivity|lia].
Qed.

Lemma C8_extension_filter_witness :
  (scan (L := posix) Listing.three_world Example.source (map fst Listing.three) 150).1
    = Some {| name := "t3.jpg"; path := Example.source +:+ "/t3.jpg"; mtime := 230 |} /\
  qualifies "t3.jpg" = true /\
  watchCallback (L := posix) Example.source "rename" (Some "screenshot.jpeg")
    = Some (Example.source +:+ "/screenshot.jpeg").
Proof.
  destruct (C8_extension_filter (L := posix) Listing.three_world Example.source "rename"
              (map fst Listing.three) 150
              {| name := "t3.jpg"; path := Example.source +:+ "/t3.jpg"; mtime := 230 |}
              (Some "screenshot.jpeg") (Example.source +:+ "/screenshot.jpeg")
              "screenshot" (Example.file 10 230))
    as (_ & _ & _ & _ & _ & Hscan & Hwatch & _ & _ & Hpos).
  split; [reflexivity|]. split.
  - apply Hscan. reflexivity.
  - destruct (Hwatch eq_refl) as (f & Hf & Hq & _). injection Hf as <-.
    apply (Hpos "screenshot.jpeg" Hq).
Defined.

(** C9 (idempotent teardown), as the code has it.  [cleanup] always
    returns.  It closes the watcher if there is one, clears the polling
    interval if there is one, empties [processedFiles], and leaves neither
    handle behind, so that no watcher notification and no poll tick reaches
    the session afterwards.  Run again at once, in whatever state the file
    system then is, it returns, closes and clears nothing, and leaves the
    session exactly as the first run left it; run when monitoring never
    started, it returns and changes nothing.  A second run touches the
    outside world only if the destination directory is still there to be
    removed.  The settle timers that were pending stay pending: teardown
    does not cancel them. *)
Theorem C9_teardown_idempotent {L : path.Lib}
    (w1 w2 w : fs.World) (s : Session) (eventType : string) (filename : option string) :
  let r1 := teardown w1 s in
  let r2 := teardown w2 r1.1 in
  result_of (cleanup w1 (globals s)) = Normal tt /\
  fileWatcher (globals r1.1) = None /\
  pollingInterval (globals r1.1) = None /\
  processedFiles (globals r1.1) = ∅ /\
  (forall h, fileWatcher (globals s) = Some h -> watcher_close (watched h) ∈ r1.2) /\
  (forall t, pollingInterval (globals s) = Some t -> clearInterval (polled t) ∈ r1.2) /\
  result_of (cleanup w2 (globals r1.1)) = Normal tt /\
  r2.1 = r1.1 /\
  (forall dir, (watcher_close dir ∉ r2.2) /\ (clearInterval dir ∉ r2.2)) /\
  ((forall dir, truthy (screenshotDir (globals s)) = Some dir -> fs.exists_ w2 dir = false) ->
   r2.2 = []) /\
  (fileWatcher (globals s) = None -> pollingInterval (globals s) = None ->
   processedFiles (globals s) = ∅ -> r1.1 = s) /\
  step (Watch eventType filename) r1.1 = (r1.1, []) /\
  step (Poll w) r1.1 = (r1.1, []) /\
  timers r1.1 = timers s /\
  timers r2.1 = timers s.
Proof.
  cbn zeta. unfold teardown. cbn [fst snd globals timers]. rewrite !cleanup_eq.
  unfold result_of, globals_of, effects_of. cbn [fst snd].
  destruct s as [[sd fw ls pf pi lc] ts].
  cbn [globals timers fileWatcher pollingInterval processedFiles screenshotDir
       set_processedFiles set_pollingInterval set_fileWatcher step].
  repeat apply conj; try reflexivity.
  - intros h ->. apply elem_of_cons. by left.
  - intros t ->. apply elem_of_app. right. apply elem_of_cons. by left.
  - intros dir. cbn [app].
    destruct (truthy sd) as [d|]; [|split; apply not_elem_of_nil].
    destruct (fs.cfg_autoCleanup w2 && fs.exists_ w2 d); [|split; apply not_elem_of_nil].
    destruct (fs.rm_ok w2 d); split; intros Hin;
      repeat (apply elem_of_cons in Hin as [Hin|Hin]; [discriminate Hin|]);
      by apply not_elem_of_nil in Hin.
  - intros Hgone. cbn [app]. destruct (truthy sd) as [d|]; [|reflexivity].
    by rewrite (Hgone d eq_refl), andb_false_r.
  - intros -> -> ->. reflexivity.
Qed.

Lemma C9_teardown_idempotent_witness :
  watcher_close Example.source ∈ (teardown Scenario.with_b Scenario.ingested).2 /\
  (teardown Scenario.with_b {| globals := initial; timers := [] |}).1
  = {| globals := initial; timers := [] |}.
Proof.
  split.
  - destruct (C9_teardown_idempotent (L := posix) Scenario.with_b Failure.unlistable
                Scenario.with_b Scenario.ingested "rename" None)
      as (_ & _ & _ & _ & Hclose & _).
    apply (Hclose {| watched := Example.source |}). reflexivity.
  - destruct (C9_teardown_idempotent (L := posix) Scenario.with_b Failure.unlistable
                Scenario.with_b {| globals := initial; timers := [] |} "rename" None)
      as (_ & _ & _ & _ & _ & _ & _ & _ & _ & _ & Hidle & _).
    apply Hidle; reflexivity.
Defined.

(** C9 as the specification words it fails: after two teardowns in a row
    of a session in which the watcher has just reported [b.png], the settle
    timer for [b.png] is still pending, and when it fires it copies the
    file. *)
Lemma C9_settle_timer_survives_teardown :
  let s := {| globals := Example.started; timers := [Example.b_png] |} in
  let s2 := (teardown Scenario.with_b (teardown Scenario.with_b s).1).1 in
  ~ quiescent s2 /\
  timers s2 = [Example.b_png] /\
  transfers Example.b_png (step (L := posix) (Settle 0 Scenario.with_b) s2).2 = 1.
Proof.
  cbn zeta. split; [|split].
  - intros (_ & _ & Hnone). discriminate Hnone.
  - reflexivity.
  - vm_compute. reflexivity.
Qed.

(** C10 (teardown keeps the last path).  [cleanup] does not write
    [lastSavedImagePath].  After it the paste interceptor does what it
    would have done before: with a terminal open it still sends the last
    published path, and it does so even when that same [cleanup] has just
    removed the destination directory the path points into. *)
Theorem C10_cleanup_keeps_last_path {L : path.Lib}
    (w : fs.World) (g : Globals) (activeTerminal : bool) (p : string) :
  lastSavedImagePath (globals_of (cleanup w g)) = lastSavedImagePath g /\
  effects_of (interceptPaste activeTerminal (globals_of (cleanup w g)))
  = effects_of (interceptPaste activeTerminal g) /\
  (truthy (lastSavedImagePath g) = Some p ->
   sendText p ∈ effects_of (interceptPaste true (globals_of (cleanup w g)))) /\
  (let g0 := globals Scenario.ingested in
   let r := cleanup Scenario.with_b g0 in
   lastSavedImagePath g0 = Some (Example.dest +:+ "/b.png") /\
   effects_of r =
     [watcher_close Example.source; clearInterval Example.source;
      rmSync Example.dest true;
      console_log ("Cleaned up and removed screenshot directory: " +:+ Example.dest)] /\
   effects_of (interceptPaste (L := posix) true (globals_of r)) =
     [console_log "Paste interceptor triggered.";
      console_log ("Sending WSL path to terminal: " +:+ Example.dest +:+ "/b.png");
      sendText (Example.dest +:+ "/b.png");
      showInformationMessage "Pasted screenshot path: b.png"]).
Proof.
  assert (Hkeep : lastSavedImagePath (globals_of (cleanup w g)) = lastSavedImagePath g).
  { by rewrite cleanup_eq. }
  repeat apply conj.
  - exact Hkeep.
  - rewrite !interceptPaste_eq. unfold effects_of. cbn [snd]. by rewrite Hkeep.
  - intros Hp. apply interceptPaste_sends. by rewrite Hkeep.
  - reflexivity.
  - reflexivity.
  - reflexivity.
Qed.

Lemma C10_cleanup_keeps_last_path_witness :
  sendText (Example.dest +:+ "/b.png")
    ∈ effects_of (interceptPaste (L := posix) true
                    (globals_of (cleanup Scenario.with_b (globals Scenario.ingested)))).
Proof.
  destruct (C10_cleanup_keeps_last_path (L := posix) Scenario.with_b
              (globals Scenario.ingested) true (Example.dest +:+ "/b.png"))
    as (_ & _ & Hsend & _).
  apply Hsend. reflexivity.
Defined.

(** * Further properties of the monitoring core *)

Section MoreFacts.
Context {L : path.Lib}.

Ltac in_list H :=
  repeat first
    [ apply elem_of_cons in H as [H|H]; [try discriminate H|]
    | apply not_elem_of_nil in H; contradiction ].

Lemma truthy_Some s v :
  truthy s = Some v <-> s = Some v /\ String.eqb v EmptyString = false.
Proof.
  unfold truthy. split.
  - destruct s as [v'|]; [|discriminate].
    destruct (String.eqb v' EmptyString) eqn:He; [discriminate|].
    intros Hv. injection Hv as <-. by split.
  - intros [-> ->]. reflexivity.
Qed.

Lemma copy_outcome_truthy w dest dir sourceFile :
  truthy dest = Some dir ->
  copy_outcome w dest sourceFile = copy_outcome w (Some dir) sourceFile.
Proof.
  intros Hd. unfold copy_outcome. rewrite Hd.
  apply truthy_Some in Hd as [_ Hne]. unfold truthy. by rewrite Hne.
Qed.

Lemma transfers_copy_outcome_configured w dest dir P :
  truthy dest = Some dir -> transfers P (copy_outcome w dest P).2 = 1.
Proof.
  intros Hd. unfold copy_outcome. rewrite Hd. cbn zeta.
  destruct (fs.copy_ok w P _); cbn [snd];
    rewrite ?transfers_cons, ?transfers_app, ?transfers_clipboard, ?transfers_cons,
      ?transfers_nil; cbn [is_transfer]; by rewrite String.eqb_refl.
Qed.

Lemma copy_outcome_copyFile w dest sourceFile src dst ok :
  copyFile src dst ok ∈ (copy_outcome w dest sourceFile).2 ->
  src = sourceFile /\
  exists dir, truthy dest = Some dir /\
              dst = path.join dir (path.basename sourceFile) /\
              ok = fs.copy_ok w sourceFile dst.
Proof.
  unfold copy_outcome. destruct (truthy dest) as [dir|]; cbn zeta.
  - destruct (fs.copy_ok w sourceFile _) eqn:Hok; cbn [snd]; intros Hin.
    + apply elem_of_cons in Hin as [Hin|Hin].
      * injection Hin as -> -> ->. split; [reflexivity|]. exists dir. by rewrite Hok.
      * apply elem_of_app in Hin as [Hin|Hin].
        -- unfold clipboard_effects in Hin. destruct (fs.spawn_ok w); in_list Hin.
        -- in_list Hin.
    + apply elem_of_cons in Hin as [Hin|Hin]; [|in_list Hin].
      injection Hin as -> -> ->. split; [reflexivity|]. exists dir. by rewrite Hok.
  - cbn [snd]. intros Hin. in_list Hin.
Qed.

Lemma handleNewScreenshot_copyFile w P g src dst ok :
  copyFile src dst ok ∈ effects_of (handleNewScreenshot w P g) ->
  src = P /\ (P ∉ processedFiles g) /\ passes_gate w P = true /\
  exists dir, truthy (screenshotDir g) = Some dir /\
              dst = path.join dir (path.basename P) /\
              ok = fs.copy_ok w P dst.
Proof.
  rewrite handleNewScreenshot_eq.
  destruct (decide _) as [|Hnew]; [intros Hin; cbn in Hin; in_list Hin|].
  destruct (passes_gate w P) eqn:Hgate.
  - rewrite publish_eq. unfold effects_of. cbn [snd]. intros Hin.
    apply copy_outcome_copyFile in Hin as (-> & Hdir). by repeat split.
  - destruct (_ && _); intros Hin; cbn in Hin; in_list Hin.
Qed.

Lemma checkForNewScreenshots_copyFile w dir g src dst ok :
  copyFile src dst ok ∈ effects_of (checkForNewScreenshots w dir g) ->
  scheduled dir src /\
  exists d, truthy (screenshotDir g) = Some d /\
            dst = path.join d (path.basename src).
Proof.
  rewrite checkForNewScreenshots_eq.
  destruct (fs.readdir w dir) as [files|]; [|intros Hin; cbn in Hin; in_list Hin].
  pose proof (scan_spec w dir files (lastScreenshotCheck g)) as Hspec.
  pose proof (scan_selects_qualifying w dir files (lastScreenshotCheck g)) as Hq.
  destruct (scan w dir files (lastScreenshotCheck g)) as [[n|] t]; cbn [fst] in *;
    [|intros Hin; cbn in Hin; in_list Hin].
  destruct Hspec as [_ (Hp & _)]. cbn zeta. unfold effects_of at 1. cbn [snd].
  intros Hin. apply elem_of_cons in Hin as [Hin|Hin]; [discriminate Hin|].
  apply handleNewScreenshot_copyFile in Hin as (-> & _ & _ & d & Hd & -> & _).
  split; [exists (name n); by split; [apply Hq|]|]. by exists d.
Qed.

Lemma watching_step d ev s : watching d s -> watching d (step ev s).1.
Proof.
  intros (Hw & Hp & Ht).
  destruct (step_frame ev s) as (_ & Hfw & Hpi & _).
  split; [|split].
  - intros h. rewrite Hfw. apply Hw.
  - intros t. rewrite Hpi. apply Hp.
  - destruct ev as [eventType filename|i w|w]; cbn [step].
    + destruct (fileWatcher (globals s)) as [h|] eqn:Hh; [|exact Ht].
      destruct (watchCallback (watched h) eventType filename) as [fullPath|] eqn:Hcb;
        [|exact Ht].
      cbn [fst timers]. apply Forall_app. split; [exact Ht|].
      apply Forall_singleton. unfold watchCallback in Hcb.
      destruct (String.eqb eventType "rename"); [|discriminate].
      destruct (truthy filename) as [f|]; [|discriminate].
      destruct (qualifies f) eqn:Hq; [|discriminate].
      injection Hcb as <-. exists f. by rewrite (Hw h eq_refl).
    + destruct (timers s !! i) as [fullPath|]; [|exact Ht].
      cbn [fst timers]. by apply Forall_delete.
    + by destruct (pollingInterval (globals s)).
Qed.

Lemma step_copyFile d ev s src dst ok :
  watching d s -> copyFile src dst ok ∈ (step ev s).2 ->
  scheduled d src /\
  exists dir, truthy (screenshotDir (globals s)) = Some dir /\
              dst = path.join dir (path.basename src).
Proof.
  intros (Hw & Hp & Ht).
  destruct ev as [eventType filename|i w|w]; cbn [step].
  - destruct (fileWatcher (globals s)); [|intros Hin; cbn in Hin; in_list Hin].
    destruct (watchCallback _ _ _); intros Hin; cbn in Hin; in_list Hin.
  - destruct (timers s !! i) as [fullPath|] eqn:Hi; [|intros Hin; cbn in Hin; in_list Hin].
    cbn [snd]. intros Hin.
    apply handleNewScreenshot_copyFile in Hin as (-> & _ & _ & dir & Hdir & -> & _).
    split; [|by exists dir].
    rewrite Forall_forall in Ht. apply Ht. by eapply list_elem_of_lookup_2.
  - destruct (pollingInterval (globals s)) as [t|] eqn:Hpi;
      [|intros Hin; cbn in Hin; in_list Hin].
    cbn [snd]. rewrite (Hp t eq_refl). apply checkForNewScreenshots_copyFile.
Qed.

Lemma run_copyFile d evs s src dst ok :
  watching d s -> copyFile src dst ok ∈ (run evs s).2 ->
  scheduled d src /\
  exists dir, truthy (screenshotDir (globals s)) = Some dir /\
              dst = path.join dir (path.basename src).
Proof.
  revert s. induction evs as [|ev evs IH]; intros s Hs.
  - cbn [run snd]. intros Hin. in_list Hin.
  - rewrite run_cons. cbn [snd]. intros Hin. apply elem_of_app in Hin as [Hin|Hin].
    + exact (step_copyFile d ev s src dst ok Hs Hin).
    + destruct (step_frame ev s) as (Hsd & _).
      rewrite <- Hsd. exact (IH _ (watching_step d ev s Hs) Hin).
Qed.

(** ** What is published *)

Lemma last_published_app es1 es2 init :
  last_published (es1 ++ es2) init = last_published es2 (last_published es1 init).
Proof. unfold last_published. by rewrite fold_left_app. Qed.

Lemma last_published_clipboard w text init :
  last_published (clipboard_effects w text) init = init.
Proof. unfold clipboard_effects. by destruct (fs.spawn_ok w). Qed.

Lemma handleNewScreenshot_publishes w P g :
  lastSavedImagePath (globals_of (handleNewScreenshot w P g))
  = last_published (effects_of (handleNewScreenshot w P g)) (lastSavedImagePath g).
Proof.
  rewrite handleNewScreenshot_eq.
  destruct (decide _); [reflexivity|].
  destruct (passes_gate w P); [|by destruct (_ && _)].
  rewrite publish_eq. unfold globals_of, effects_of, copy_outcome. cbn [fst snd].
  destruct (truthy (screenshotDir (mark P g))) as [dir|]; [|reflexivity].
  cbn zeta. destruct (fs.copy_ok w P _); cbn [fst snd]; [|reflexivity].
  change (copyFile P ?t true :: ?a ++ ?b) with ([copyFile P t true] ++ a ++ b).
  rewrite !last_published_app, last_published_clipboard.
  unfold truthy. cbn. by destruct (String.eqb _ EmptyString).
Qed.

Lemma checkForNewScreenshots_publishes w dir g :
  lastSavedImagePath (globals_of (checkForNewScreenshots w dir g))
  = last_published (effects_of (checkForNewScreenshots w dir g)) (lastSavedImagePath g).
Proof.
  rewrite checkForNewScreenshots_eq.
  destruct (fs.readdir w dir) as [files|]; [|reflexivity].
  destruct (scan _ _ _ _).1 as [n|]; [|reflexivity].
  cbn zeta. unfold globals_of at 1, effects_of at 1. cbn [fst snd].
  by rewrite handleNewScreenshot_publishes.
Qed.

Lemma step_publishes ev s :
  lastSavedImagePath (globals (step ev s).1)
  = last_published (step ev s).2 (lastSavedImagePath (globals s)).
Proof.
  destruct ev as [eventType filename|i w|w]; cbn [step].
  - destruct (fileWatcher (globals s)); [|reflexivity]. by destruct (watchCallback _ _ _).
  - destruct (timers s !! i); [|reflexivity]. apply handleNewScreenshot_publishes.
  - destruct (pollingInterval (globals s)); [|reflexivity].
    apply checkForNewScreenshots_publishes.
Qed.

(** ** A second look at the same directory *)

Lemma scan_nothing_above_max w dir files watermark f t :
  f ∈ files -> qualifying_mtime w dir f = Some t ->
  (t <= (scan w dir files watermark).2)%Z.
Proof.
  intros Hin Hq. pose proof (scan_spec w dir files watermark) as Hspec.
  destruct (scan w dir files watermark) as [[n|] t0]; cbn [snd].
  - destruct Hspec as [-> Hn]. exact (newest_in_max _ _ _ _ _ f t Hn Hin Hq).
  - destruct Hspec as [-> Hnone]. exact (Hnone f t Hin Hq).
Qed.

Lemma scan_none_iff w dir files watermark :
  (scan w dir files watermark).1 = None <-> nothing_new w dir watermark files.
Proof.
  pose proof (scan_spec w dir files watermark) as Hspec.
  destruct (scan w dir files watermark) as [[n|] t]; cbn [fst].
  - split; [discriminate|]. intros Hnone. destruct Hspec as [_ Hn].
    pose proof (newest_in_listed _ _ _ _ _ Hn) as Hin.
    destruct Hn as (_ & Hq & Hw & _). specialize (Hnone _ _ Hin Hq). lia.
  - by destruct Hspec.
Qed.

Lemma checkForNewScreenshots_watermark w dir g files :
  fs.readdir w dir = Some files ->
  lastScreenshotCheck (globals_of (checkForNewScreenshots w dir g))
  = (scan w dir files (lastScreenshotCheck g)).2.
Proof.
  intros Hlist. rewrite checkForNewScreenshots_eq, Hlist.
  pose proof (scan_spec w dir files (lastScreenshotCheck g)) as Hspec.
  destruct (scan w dir files (lastScreenshotCheck g)) as [[n|] t]; cbn [fst snd].
  - destruct Hspec as [-> _]. cbn zeta. unfold globals_of at 1. cbn [fst snd].
    by destruct (handleNewScreenshot_frame w (path n) (set_lastScreenshotCheck (mtime n) g))
      as (_ & _ & _ & -> & _).
  - by destruct Hspec as [-> _].
Qed.

End MoreFacts.

(** * Further properties *)

(** X1.  In a session whose detectors look at the directory [d], every
    call of [fs.copyFileSync] takes its source from a qualifying entry of
    [d] and writes to the configured destination directory, under the base
    name of the source. *)
Theorem X1_only_images_into_destination {L : path.Lib}
    (d : string) (evs : list event) (s : Session) (src dst : string) (ok : bool)
    (Hs : watching d s)
    (Hin : copyFile src dst ok ∈ (run evs s).2) :
  (exists f, qualifies f = true /\ src = path.join d f) /\
  exists dir, truthy (screenshotDir (globals s)) = Some dir /\
              dst = path.join dir (path.basename src).
Proof. exact (run_copyFile d evs s src dst ok Hs Hin). Qed.

Lemma X1_only_images_into_destination_witness :
  (exists f, qualifies f = true /\ Example.b_png = Example.source +:+ "/" +:+ f) /\
  exists dir, truthy (screenshotDir Example.started) = Some dir /\
              Example.dest +:+ "/b.png" = dir +:+ "/" +:+ "b.png".
Proof.
  apply (X1_only_images_into_destination (L := posix) Example.source
           [Poll Scenario.with_b] Example.session
           Example.b_png (Example.dest +:+ "/b.png") true).
  - split; [|split].
    + intros h Hh. injection Hh as <-. reflexivity.
    + intros t Ht. injection Ht as <-. reflexivity.
    + apply Forall_nil_2.
  - vm_compute. apply elem_of_cons. right. apply elem_of_cons. by left.
Defined.

(** X2.  Along a session, [lastSavedImagePath] is exactly the destination
    of the most recent [fs.copyFileSync] that returned (with a non-empty
    destination), and its initial value if there was none: a copy that
    threw never publishes, and nothing else writes the variable. *)
Theorem X2_published_is_last_copy {L : path.Lib} (evs : list event) (s : Session) :
  lastSavedImagePath (globals (run evs s).1)
  = last_published (run evs s).2 (lastSavedImagePath (globals s)).
Proof.
  revert s. induction evs as [|ev evs IH]; intros s; [reflexivity|].
  rewrite run_cons. cbn [fst snd].
  by rewrite last_published_app, IH, step_publishes.
Qed.

(** X3.  A failure to start [clip.exe] does not stop the ingestion: the
    file is copied, the failure is logged, the user is told the screenshot
    was copied and the destination is published. *)
Theorem X3_clipboard_failure_is_contained {L : path.Lib}
    (w : fs.World) (P dir : string) (g : Globals)
    (Hnew : P ∉ processedFiles g) (Hgate : passes_gate w P = true)
    (Hdir : truthy (screenshotDir g) = Some dir)
    (Hcopy : fs.copy_ok w P (path.join dir (path.basename P)) = true)
    (Hclip : fs.spawn_ok w = false)
    (Hname : path.join dir (path.basename P) <> EmptyString) :
  handleNewScreenshot w P g =
  (Normal tt,
   set_lastSavedImagePath (Some (path.join dir (path.basename P))) (mark P g),
   [copyFile P (path.join dir (path.basename P)) true;
    console_error "Failed to copy to clipboard:";
    showInformationMessage ("Screenshot copied: " +:+ path.basename P)]).
Proof.
  rewrite (handleNewScreenshot_ingests w P g Hnew Hgate), publish_eq.
  unfold copy_outcome, clipboard_effects.
  change (screenshotDir (mark P g)) with (screenshotDir g).
  rewrite Hdir. cbn zeta. rewrite Hcopy, Hclip. cbn [fst snd truthy].
  apply String.eqb_neq in Hname. by rewrite Hname.
Qed.

Lemma X3_clipboard_failure_is_contained_witness :
  lastSavedImagePath
    (globals_of (handleNewScreenshot (L := posix) (Variant.clip_throws Scenario.with_b)
                   Example.b_png Example.started))
  = Some (Example.dest +:+ "/b.png").
Proof.
  assert (Hnew : Example.b_png ∉ processedFiles Example.started).
  { apply (bool_decide_unpack _). vm_compute. exact I. }
  rewrite (X3_clipboard_failure_is_contained (L := posix)
             (Variant.clip_throws Scenario.with_b) Example.b_png Example.dest
             Example.started Hnew eq_refl eq_refl eq_refl eq_refl).
  - reflexivity.
  - discriminate.
Defined.

(** X4.  With no destination directory configured, a valid new file is
    consumed without being copied: the pipeline shows the error, performs
    no copy and publishes nothing, yet keeps the path in [processedFiles],
    so that no later event of the session copies it either. *)
Theorem X4_no_destination_consumes_file {L : path.Lib}
    (w : fs.World) (P : string) (g : Globals)
    (Hnew : P ∉ processedFiles g) (Hgate : passes_gate w P = true)
    (Hdir : truthy (screenshotDir g) = None) :
  handleNewScreenshot w P g =
  (Normal tt, mark P g,
   [console_error "Screenshot directory not initialized";
    showErrorMessage "Screenshot directory not initialized"]) /\
  forall evs pending,
    transfers P (run evs {| globals := mark P g; timers := pending |}).2 = 0.
Proof.
  split.
  - rewrite (handleNewScreenshot_ingests w P g Hnew Hgate), publish_eq.
    unfold copy_outcome. change (screenshotDir (mark P g)) with (screenshotDir g).
    by rewrite Hdir.
  - intros evs pending.
    apply (claimed_stays_untouched evs {| globals := mark P g; timers := pending |} P w).
    apply elem_of_union_l, elem_of_singleton. reflexivity.
Qed.

Lemma X4_no_destination_consumes_file_witness :
  transfers Example.b_png
    (run (L := posix) Scenario.detections
       {| globals := mark Example.b_png Variant.no_destination; timers := [] |}).2 = 0.
Proof.
  assert (Hnew : Example.b_png ∉ processedFiles Variant.no_destination).
  { apply (bool_decide_unpack _). vm_compute. exact I. }
  destruct (X4_no_destination_consumes_file (L := posix) Scenario.with_b Example.b_png
              Variant.no_destination Hnew eq_refl eq_refl) as [_ Hlater].
  apply Hlater.
Defined.

(** X5.  A poll cycle that sees the directory exactly as the previous one
    did changes no module variable and copies nothing.  When the listing
    succeeds it has no effect at all, because the previous cycle left the
    watermark at or above the modification time of every qualifying entry:
    the entries older than the one it selected are not selected by polling
    afterwards unless they are modified again. *)
Theorem X5_second_poll_is_idle {L : path.Lib} (w : fs.World) (dir : string) (g : Globals) :
  let r1 := checkForNewScreenshots w dir g in
  let r2 := checkForNewScreenshots w dir (globals_of r1) in
  globals_of r2 = globals_of r1 /\
  (forall src dst ok, copyFile src dst ok ∉ effects_of r2) /\
  (forall files,
     fs.readdir w dir = Some files ->
     effects_of r2 = [] /\
     forall f t, f ∈ files -> qualifying_mtime w dir f = Some t ->
                 (t <= lastScreenshotCheck (globals_of r1))%Z).
Proof.
  cbn zeta.
  destruct (fs.readdir w dir) as [files|] eqn:Hlist.
  - assert (Hmax : nothing_new w dir
                     (lastScreenshotCheck (globals_of (checkForNewScreenshots w dir g))) files).
    { intros f t Hin Hq. rewrite (checkForNewScreenshots_watermark w dir g files Hlist).
      exact (scan_nothing_above_max w dir files _ f t Hin Hq). }
    assert (Hidle : checkForNewScreenshots w dir (globals_of (checkForNewScreenshots w dir g))
                    = (Normal tt, globals_of (checkForNewScreenshots w dir g), [])).
    { rewrite (checkForNewScreenshots_eq w dir (globals_of _)), Hlist.
      apply scan_none_iff in Hmax. by rewrite Hmax. }
    rewrite Hidle. split; [reflexivity|]. split.
    + intros src dst ok. apply not_elem_of_nil.
    + intros files' Hfiles. injection Hfiles as <-. by split.
  - rewrite !checkForNewScreenshots_eq, Hlist. unfold globals_of, effects_of. cbn [fst snd].
    rewrite ?checkForNewScreenshots_eq, ?Hlist. cbn [fst snd].
    split; [reflexivity|]. split; [|discriminate].
    intros src dst ok Hin. apply list_elem_of_singleton in Hin. discriminate Hin.
Qed.

Lemma X5_second_poll_is_idle_witness :
  effects_of
    (checkForNewScreenshots (L := posix) Listing.only_three_world Example.source
       (globals_of (checkForNewScreenshots (L := posix) Listing.only_three_world
                      Example.source Example.started))) = [] /\
  (210 <= lastScreenshotCheck
            (globals_of (checkForNewScreenshots (L := posix) Listing.only_three_world
                           Example.source Example.started)))%Z.
Proof.
  destruct (X5_second_poll_is_idle (L := posix) Listing.only_three_world Example.source
              Example.started) as (_ & _ & Hidle).
  destruct (Hidle (map fst Listing.only_three) eq_refl) as [Hnone Hold].
  split; [exact Hnone|].
  apply (Hold "t1.jpeg"); [|reflexivity].
  apply elem_of_cons. right. apply elem_of_cons. right. apply elem_of_cons. by left.
Defined.

(** X6.  Polling alone is enough.  If the source directory is configured
    and exists, [startFileMonitoring] succeeds even when [fs.watch] throws,
    leaving [fileWatcher] as it was; and the first poll tick that finds one
    newest qualifying file, modified after the start and valid, copies that
    file once, sets the watermark to its modification time, marks it
    processed and, when the copy returns, publishes its destination.
    Files that were already there at the start are not touched. *)
Theorem X6_polling_alone_ingests {L : path.Lib}
    (w0 w : fs.World) (dir f d : string) (g : Globals)
    (files : list string) (stats : fs.Stats)
    (Hpath : String.eqb dir EmptyString = false)
    (Hthere : fs.exists_ w0 dir = true)
    (Hlist : fs.readdir w dir = Some files)
    (Hin : f ∈ files)
    (Hq : qualifies f = true)
    (Hstat : fs.stat w (path.join dir f) = Some stats)
    (Hafter : (fs.now w0 < fs.mtime stats)%Z)
    (Hnewest : forall f' t, f' ∈ files -> f' <> f ->
                 qualifying_mtime w dir f' = Some t -> (t < fs.mtime stats)%Z)
    (Hvalid : fs.exists_ w (path.join dir f) = true /\ fs.isFile stats = true /\
              (0 < fs.size stats)%N)
    (Hnew : path.join dir f ∉ processedFiles g)
    (Hdest : truthy (screenshotDir g) = Some d) :
  let r0 := startFileMonitoring w0 dir g in
  let P := path.join dir f in
  let target := path.join d (path.basename P) in
  let r := step (Poll w) {| globals := globals_of r0; timers := [] |} in
  result_of r0 = Normal true /\
  (fs.watch_ok w0 dir = false -> fileWatcher (globals_of r0) = fileWatcher g) /\
  r.2 = console_log ("Found new screenshot: " +:+ f) :: (copy_outcome w (Some d) P).2 /\
  transfers P r.2 = 1 /\
  (forall src dst ok, copyFile src dst ok ∈ r.2 -> src = P /\ dst = target) /\
  lastScreenshotCheck (globals r.1) = fs.mtime stats /\
  P ∈ processedFiles (globals r.1) /\
  (fs.copy_ok w P target = true -> target <> EmptyString ->
   lastSavedImagePath (globals r.1) = Some target).
Proof.
  set (P := path.join dir f). set (target := path.join d (path.basename P)).
  set (g0 := set_pollingInterval
               (Some {| polled := dir; every_ms := fs.cfg_pollingInterval w0 |})
               (if fs.watch_ok w0 dir
                then set_fileWatcher (Some {| watched := dir |})
                       (set_lastScreenshotCheck (fs.now w0) g)
                else set_lastScreenshotCheck (fs.now w0) g)).
  assert (Hr0 : result_of (startFileMonitoring w0 dir g) = Normal true /\
                globals_of (startFileMonitoring w0 dir g) = g0).
  { rewrite startFileMonitoring_eq, Hpath, Hthere. by split. }
  destruct Hr0 as [Hres Hg0].
  assert (Hfields : lastScreenshotCheck g0 = fs.now w0 /\
                    processedFiles g0 = processedFiles g /\
                    screenshotDir g0 = screenshotDir g).
  { unfold g0. by destruct (fs.watch_ok w0 dir). }
  destruct Hfields as (Hwm0 & Hpf0 & Hsd0).
  assert (Hqm : qualifying_mtime w dir f = Some (fs.mtime stats)).
  { unfold qualifying_mtime. by rewrite Hq, Hstat. }
  assert (Hgate : passes_gate w P = true).
  { apply passes_gate_iff. destruct Hvalid as (He & Hf & Hz).
    split; [exact He|]. by exists stats. }
  assert (Hout : copy_outcome w (screenshotDir g) P = copy_outcome w (Some d) P).
  { by apply copy_outcome_truthy. }
  set (g1 := match truthy (copy_outcome w (Some d) P).1 with
             | Some p => set_lastSavedImagePath (Some p)
                           (mark P (set_lastScreenshotCheck (fs.mtime stats) g0))
             | None => mark P (set_lastScreenshotCheck (fs.mtime stats) g0)
             end).
  assert (Hstep : step (Poll w) {| globals := g0; timers := [] |}
                  = ({| globals := g1; timers := [] |},
                     console_log ("Found new screenshot: " +:+ f)
                       :: (copy_outcome w (Some d) P).2)).
  { cbn [step globals timers].
    change (pollingInterval g0) with
      (Some {| polled := dir; every_ms := fs.cfg_pollingInterval w0 |}).
    cbn [polled]. rewrite checkForNewScreenshots_eq, Hlist, Hwm0.
    rewrite (scan_unique_max w dir files (fs.now w0) f (fs.mtime stats) Hin Hqm Hafter Hnewest).
    cbn [fst]. cbn zeta. cbn [name path mtime]. fold P.
    assert (Hnew1 : P ∉ processedFiles (set_lastScreenshotCheck (fs.mtime stats) g0)).
    { change (P ∉ processedFiles g0). by rewrite Hpf0. }
    rewrite (handleNewScreenshot_ingests w P _ Hnew1 Hgate), publish_eq.
    change (screenshotDir (mark P (set_lastScreenshotCheck (fs.mtime stats) g0)))
      with (screenshotDir g0).
    rewrite Hsd0, Hout. reflexivity. }
  cbn zeta. rewrite Hg0, Hstep. cbn [fst snd globals].
  split; [exact Hres|]. split.
  { intros Hnw. unfold g0. by rewrite Hnw. }
  split; [reflexivity|]. split; [|split; [|split; [|split]]].
  - rewrite transfers_cons. cbn [is_transfer]. rewrite <- Hout.
    by rewrite (transfers_copy_outcome_configured w _ d _ Hdest).
  - intros src dst ok Hc. apply elem_of_cons in Hc as [Hc|Hc]; [discriminate Hc|].
    rewrite <- Hout in Hc.
    apply copy_outcome_copyFile in Hc as (-> & d' & Hd' & -> & _).
    rewrite Hdest in Hd'. by injection Hd' as ->.
  - unfold g1. by destruct (truthy (copy_outcome w (Some d) P).1).
  - unfold g1. destruct (truthy (copy_outcome w (Some d) P).1); cbn;
      apply elem_of_union_l, elem_of_singleton; reflexivity.
  - intros Hok Hne. unfold g1. rewrite <- Hout. unfold copy_outcome. rewrite Hdest.
    cbn zeta. unfold target, P in *. rewrite Hok. cbn [fst truthy].
    apply String.eqb_neq in Hne. by rewrite Hne.
Qed.

Lemma X6_polling_alone_ingests_witness :
  let r := step (L := posix) (Poll Scenario.with_b)
             {| globals := globals_of (startFileMonitoring
                                         (Variant.without_watch
                                            (Example.world [("a.png", Some (Example.file 10 100))]
                                               true true 150))
                                         Example.source Example.configured);
                timers := [] |} in
  transfers Example.b_png r.2 = 1 /\
  lastScreenshotCheck (globals r.1) = 200%Z /\
  lastSavedImagePath (globals r.1) = Some (Example.dest +:+ "/b.png").
Proof.
  assert (Hnew : Example.b_png ∉ processedFiles Example.configured).
  { apply (bool_decide_unpack _). vm_compute. exact I. }
  assert (Hin : "b.png" ∈ ["a.png"; "b.png"]).
  { apply elem_of_cons. right. apply elem_of_cons. by left. }
  assert (Hnewest : forall f' t, f' ∈ ["a.png"; "b.png"] -> f' <> "b.png" ->
            qualifying_mtime (L := posix) Scenario.with_b Example.source f' = Some t ->
            (t < 200)%Z).
  { intros f' t Hf Hne Hq. apply elem_of_cons in Hf as [->|Hf].
    - injection Hq as <-. lia.
    - apply list_elem_of_singleton in Hf. contradiction. }
  destruct (X6_polling_alone_ingests (L := posix)
              (Variant.without_watch
                 (Example.world [("a.png", Some (Example.file 10 100))] true true 150))
              Scenario.with_b Example.source "b.png" Example.dest Example.configured
              ["a.png"; "b.png"] (Example.file 10 200)
              eq_refl eq_refl eq_refl Hin eq_refl eq_refl eq_refl Hnewest
              (conj eq_refl (conj eq_refl eq_refl)) Hnew eq_refl)
    as (_ & _ & _ & Hone & _ & Hwm & _ & Hpub).
  split; [exact Hone|]. split; [exact Hwm|].
  apply Hpub; [reflexivity|discriminate].
Defined.

(** X7.  [cleanup] forgets what was ingested.  After it, a candidate for a
    file that is still valid is copied again, even if it had been ingested
    before the teardown: a settle timer that fires after [cleanup] makes a
    second transfer of its file.  Before [cleanup] the same candidate is
    dropped. *)
Theorem X7_cleanup_resets_dedup {L : path.Lib}
    (w0 w : fs.World) (P d : string) (g : Globals) (pending : list string)
    (Hdone : P ∈ processedFiles g)
    (Hgate : passes_gate w P = true)
    (Hdest : truthy (screenshotDir g) = Some d) :
  let before := {| globals := g; timers := P :: pending |} in
  let after := {| globals := globals_of (cleanup w0 g); timers := P :: pending |} in
  (step (Settle 0 w) before).2 = [] /\
  transfers P (step (Settle 0 w) after).2 = 1 /\
  exists ok rest,
    (step (Settle 0 w) after).2 = copyFile P (path.join d (path.basename P)) ok :: rest.
Proof.
  cbn zeta. cbn [step timers lookup list_lookup globals snd].
  split; [by rewrite (handleNewScreenshot_processed w P g Hdone)|].
  rewrite cleanup_eq. unfold globals_of at 1 2. cbn [fst snd].
  set (g' := set_processedFiles ∅ _).
  assert (Hnew : P ∉ processedFiles g') by apply not_elem_of_empty.
  rewrite (handleNewScreenshot_ingests w P g' Hnew Hgate), publish_eq.
  unfold effects_of. cbn [snd].
  change (screenshotDir (mark P g')) with (screenshotDir g).
  split; [exact (transfers_copy_outcome_configured w _ d P Hdest)|].
  unfold copy_outcome. rewrite Hdest. cbn zeta.
  destruct (fs.copy_ok w P _); cbn [snd]; eauto.
Qed.

Lemma X7_cleanup_resets_dedup_witness :
  transfers Example.b_png
    (step (L := posix) (Settle 0 Scenario.with_b)
       {| globals := globals_of (cleanup Scenario.with_b (globals Scenario.ingested));
          timers := [Example.b_png] |}).2 = 1.
Proof.
  assert (Hdone : Example.b_png ∈ processedFiles (globals Scenario.ingested)).
  { apply (bool_decide_unpack _). vm_compute. exact I. }
  destruct (X7_cleanup_resets_dedup (L := posix) Scenario.with_b Scenario.with_b
              Example.b_png Example.dest (globals Scenario.ingested) []
              Hdone eq_refl eq_refl) as (_ & Hagain & _).
  exact Hagain.
Defined.

(** * Properties of the commands and the set-up *)

Section CommandFacts.
Context {L : path.Lib} {N : node.Lib}.

(** ** The stable sort and its head *)

Lemma insert_desc_head x l :
  head (insert_desc x l) =
  match head l with
  | Some y => if (mtime y >? mtime x)%Z then Some y else Some x
  | None => Some x
  end.
Proof. destruct l as [|y l]; cbn; [reflexivity|]. by destruct (mtime y >? mtime x)%Z. Qed.

Lemma sort_desc_nil l : sort_desc l = [] <-> l = [].
Proof.
  split; [|by intros ->]. destruct l as [|x l]; [done|]. cbn.
  destruct (sort_desc l) as [|y s]; cbn; [done|]. by destruct (mtime y >? mtime x)%Z.
Qed.

Lemma sort_desc_head l x : head (sort_desc l) = Some x -> first_newest l x.
Proof.
  revert x. induction l as [|a l IH]; intros x; [discriminate|].
  cbn [sort_desc]. rewrite insert_desc_head.
  destruct (head (sort_desc l)) as [y|] eqn:Hy.
  - destruct (IH y eq_refl) as (l1 & l2 & -> & Hl1 & Hl2).
    destruct (Z.gtb_spec (mtime y) (mtime a)) as [Hlt|Hge]; intros Hx; injection Hx as <-.
    + exists (a :: l1), l2. split; [reflexivity|]. split; [|exact Hl2].
      by apply Forall_cons.
    + exists [], (l1 ++ y :: l2). split; [reflexivity|]. split; [apply Forall_nil_2|].
      apply Forall_app. split.
      * eapply Forall_impl; [exact Hl1|]. cbn. intros; lia.
      * apply Forall_cons. split; [lia|].
        eapply Forall_impl; [exact Hl2|]. cbn. intros; lia.
  - intros Hx. injection Hx as <-.
    assert (Hl : l = []).
    { apply (proj1 (sort_desc_nil l)). by destruct (sort_desc l). }
    subst l. exists [], []. split; [reflexivity|]. split; apply Forall_nil_2.
Qed.

Lemma sort_desc_Permutation l : sort_desc l ≡ₚ l.
Proof.
  assert (Hins : forall x s, insert_desc x s ≡ₚ x :: s).
  { intros x s. induction s as [|y s IH]; cbn; [reflexivity|].
    destruct (mtime y >? mtime x)%Z; [|reflexivity].
    rewrite IH. apply Permutation_swap. }
  induction l as [|x l IH]; cbn; [reflexivity|]. by rewrite Hins, IH.
Qed.

Lemma first_newest_unique l x x' : first_newest l x -> first_newest l x' -> x = x'.
Proof.
  intros (l1 & l2 & -> & Hl1 & Hl2) (l1' & l2' & Heq & Hl1' & Hl2').
  revert l1' Heq Hl1'. induction l1 as [|a l1 IH]; intros l1' Heq Hl1'.
  - destruct l1' as [|b l1']; cbn in Heq; [by injection Heq|].
    injection Heq as Hxb Hrest. apply Forall_cons in Hl1' as [Hlt _].
    assert (Hle : (mtime x' <= mtime x)%Z).
    { rewrite Forall_forall in Hl2. apply Hl2. rewrite Hrest. apply elem_of_app. right.
      apply elem_of_cons. by left. }
    rewrite Hxb in Hle. lia.
  - apply Forall_cons in Hl1 as [Hlt Hl1]. destruct l1' as [|b l1']; cbn in Heq.
    + injection Heq as Hax Hrest.
      assert (Hle : (mtime x <= mtime x')%Z).
      { rewrite Forall_forall in Hl2'. apply Hl2'. rewrite <- Hrest. apply elem_of_app. right.
        apply elem_of_cons. by left. }
      rewrite Hax in Hlt. lia.
    + injection Heq as _ Heq. apply Forall_cons in Hl1' as [_ Hl1'].
      exact (IH Hl1 l1' Heq Hl1').
Qed.

(** ** The entries both detectors see *)

Lemma records_app w dir l1 l2 :
  records w dir (l1 ++ l2) = records w dir l1 ++ records w dir l2.
Proof. unfold records. apply omap_app. Qed.

Lemma elem_of_records w dir files y :
  y ∈ records w dir files ->
  exists f, f ∈ files /\ qualifying_mtime w dir f = Some (mtime y) /\ name y = f.
Proof.
  unfold records. intros Hin. apply list_elem_of_omap in Hin as (f & Hf & Hy).
  exists f. split; [exact Hf|]. unfold entry_of in Hy.
  destruct (qualifying_mtime w dir f) as [t|]; [|discriminate].
  injection Hy as <-. by split.
Qed.

Lemma newest_in_first_newest w dir watermark files n :
  newest_in w dir watermark files n -> first_newest (records w dir files) n.
Proof.
  intros (Hp & Hq & _ & l1 & l2 & -> & Hl1 & Hl2).
  exists (records w dir l1), (records w dir l2). split; [|split].
  - rewrite records_app. f_equal. unfold records. cbn [omap list_omap].
    unfold entry_of at 1. rewrite Hq. cbn. destruct n as [nm pa mt]. cbn in *. by subst pa.
  - apply Forall_forall. intros y Hy.
    apply elem_of_records in Hy as (f & Hf & Hqf & _). eauto.
  - apply Forall_forall. intros y Hy.
    apply elem_of_records in Hy as (f & Hf & Hqf & _). eauto.
Qed.

Lemma stat_each_eq w dir names g :
  stat_each w dir names g =
  match stat_all w dir names with
  | Some l => (Normal l, g, [])
  | None => (Thrown, g, [])
  end.
Proof.
  induction names as [|f rest IH]; [reflexivity|].
  cbn [stat_each stat_all]. unfold cmd.bind at 1, cmd.lift, fs.statSync.
  destruct (fs.stat w (path.join dir f)) as [stats|]; [|reflexivity].
  unfold ret. cbn [map]. unfold cmd.bind at 1. rewrite IH.
  by destruct (stat_all w dir rest).
Qed.

Lemma stat_all_records w dir files l :
  stat_all w dir (filter (fun f => qualifies f = true) files) = Some l ->
  l = records w dir files.
Proof.
  revert l. induction files as [|f files IH]; intros l.
  - cbn. by intros [= <-].
  - rewrite filter_cons. unfold records. cbn [omap list_omap].
    unfold entry_of at 1, qualifying_mtime.
    destruct (decide (qualifies f = true)) as [Hq|Hq].
    + rewrite Hq. cbn [stat_all].
      destruct (fs.stat w (path.join dir f)) as [stats|]; [|discriminate].
      destruct (stat_all w dir _) as [others|]; [|discriminate].
      intros [= <-]. cbn. f_equal. by apply IH.
    + apply not_true_is_false in Hq. rewrite Hq. apply IH.
Qed.

Lemma stat_all_None w dir names :
  stat_all w dir names = None <-> exists f, f ∈ names /\ fs.stat w (path.join dir f) = None.
Proof.
  induction names as [|f rest IH]; cbn [stat_all].
  - split; [discriminate|]. intros (f & Hf & _). by apply not_elem_of_nil in Hf.
  - destruct (fs.stat w (path.join dir f)) as [stats|] eqn:Hs.
    + destruct (stat_all w dir rest) as [others|].
      * split; [discriminate|]. intros (f' & Hf' & Hn).
        apply elem_of_cons in Hf' as [->|Hf']; [congruence|].
        assert (Hex : exists f, f ∈ rest /\ fs.stat w (path.join dir f) = None) by eauto.
        apply IH in Hex. discriminate.
      * split; [|done]. intros _. destruct IH as [IH _].
        destruct (IH eq_refl) as (f' & Hf' & Hn). exists f'. split; [|exact Hn].
        apply elem_of_cons. by right.
    + split; [|done]. intros _. exists f. split; [|exact Hs]. apply elem_of_cons. by left.
Qed.

(** ** Equations of the commands *)

Ltac in_actions H :=
  repeat first
    [ apply elem_of_cons in H as [H|H]; [try discriminate H|]
    | apply not_elem_of_nil in H; contradiction ].

Lemma getWindowsScreenshotsPath_eq h g :
  getWindowsScreenshotsPath h g = (Normal (windows_path h), g, path_log h).
Proof.
  unfold getWindowsScreenshotsPath, windows_path, path_log, cmd.log, cmd.bind, cmd.emit, cmd.ret.
  cbn zeta. unfold windows_path.
  destruct (truthy (Some (node.trim (cfg_windowsUsername h)))); [reflexivity|].
  by destruct (truthy (Some (node.trim (cfg_customWindowsPath h)))).
Qed.

Lemma path_log_quiet h src dst ok : core (copyFile src dst ok) ∉ path_log h.
Proof.
  unfold path_log. cbn zeta. intros Hin.
  destruct (truthy (Some (node.trim (cfg_windowsUsername h)))); [in_actions Hin|].
  destruct (truthy (Some (node.trim (cfg_customWindowsPath h)))); in_actions Hin.
Qed.

Lemma truthy_None_iff (v : string) : truthy (Some v) = None <-> v = EmptyString.
Proof.
  unfold truthy. destruct (String.eqb_spec v EmptyString); split; congruence.
Qed.

Lemma saveImage_eq h g :
  saveImage h g =
  let w := world h in
  let p := windows_path h in
  if negb (fs.exists_ w p) then
    (Normal tt, g,
     path_log h ++ [core (showErrorMessage ("Windows Screenshots directory not found: " +:+ p))])
  else
    match fs.readdir w p with
    | None => (Thrown, g, path_log h)
    | Some names =>
        match stat_all w p (filter (fun f => qualifies f = true) names) with
        | None => (Thrown, g, path_log h)
        | Some files =>
            match sort_desc files with
            | newest :: _ =>
                (Normal tt, g,
                 path_log h ++ map core (copy_outcome w (screenshotDir g) (path newest)).2)
            | [] =>
                (Normal tt, g,
                 path_log h
                 ++ [showWarningMessage "No screenshots found in Windows Screenshots folder"])
            end
        end
    end.
Proof.
  unfold saveImage. unfold cmd.bind at 1. rewrite getWindowsScreenshotsPath_eq.
  cbn zeta. unfold cmd.bind at 1, cmd.lift at 1, fs.existsSync, ret. cbn [map].
  destruct (fs.exists_ (world h) (windows_path h)); cbn [negb]; [|reflexivity].
  unfold cmd.bind at 1, cmd.lift at 1, fs.readdirSync.
  destruct (fs.readdir (world h) (windows_path h)) as [names|];
    [|unfold throw; by rewrite !app_nil_r].
  unfold ret. cbn [map]. unfold cmd.bind at 1. rewrite stat_each_eq.
  destruct (stat_all _ _ _) as [files|]; [|by rewrite !app_nil_r].
  destruct (sort_desc files) as [|newest rest]; [reflexivity|].
  unfold cmd.bind, cmd.lift, cmd.ret. rewrite copyScreenshotToWSL_eq.
  by rewrite !app_nil_r.
Qed.

(** The manual command and the scanner choose the same entry. *)
Lemma saveImage_like_scan h g names watermark n :
  fs.exists_ (world h) (windows_path h) = true ->
  fs.readdir (world h) (windows_path h) = Some names ->
  (forall f, f ∈ names -> qualifies f = true ->
             is_Some (fs.stat (world h) (path.join (windows_path h) f))) ->
  (scan (world h) (windows_path h) names watermark).1 = Some n ->
  saveImage h g =
    (Normal tt, g,
     path_log h ++ map core (copy_outcome (world h) (screenshotDir g) (path n)).2) /\
  first_newest (records (world h) (windows_path h) names) n.
Proof.
  intros Hthere Hlist Hstat Hscan.
  assert (Hn : first_newest (records (world h) (windows_path h) names) n).
  { pose proof (scan_spec (world h) (windows_path h) names watermark) as Hspec.
    destruct (scan (world h) (windows_path h) names watermark) as [[n'|] t];
      cbn [fst] in Hscan; [|discriminate].
    injection Hscan as ->. destruct Hspec as [_ Hnew].
    by eapply newest_in_first_newest. }
  split; [|exact Hn].
  rewrite saveImage_eq. cbn zeta. rewrite Hthere, Hlist. cbn [negb].
  destruct (stat_all (world h) (windows_path h) (filter (fun f => qualifies f = true) names))
    as [files|] eqn:Hall.
  - apply stat_all_records in Hall. subst files.
    destruct (sort_desc (records (world h) (windows_path h) names)) as [|x rest] eqn:Hsort.
    + apply (proj1 (sort_desc_nil _)) in Hsort. destruct Hn as (l1 & l2 & Heq & _).
      rewrite Hsort in Heq. by destruct l1.
    + assert (Hx : first_newest (records (world h) (windows_path h) names) x).
      { apply sort_desc_head. by rewrite Hsort. }
      by rewrite (first_newest_unique _ _ _ Hx Hn).
  - apply stat_all_None in Hall as (f & Hf & Hnone).
    apply list_elem_of_filter in Hf as [Hq Hin].
    destruct (Hstat f Hin Hq) as [stats Hs]. congruence.
Qed.

Lemma saveImage_globals h g : (saveImage h g).1.2 = g.
Proof.
  rewrite saveImage_eq. cbn zeta.
  destruct (negb (fs.exists_ (world h) (windows_path h))); [reflexivity|].
  destruct (fs.readdir (world h) (windows_path h)) as [names|]; [|reflexivity].
  destruct (stat_all (world h) (windows_path h) _) as [files|]; [|reflexivity].
  by destruct (sort_desc files).
Qed.

(** ** The [.gitignore] entry *)

Lemma string_app_assoc (a b c : string) : (a +:+ b) +:+ c = a +:+ b +:+ c.
Proof.
  induction a as [|x a IH]; [reflexivity|].
  change (String x ((a +:+ b) +:+ c) = String x (a +:+ b +:+ c)). by rewrite IH.
Qed.

Lemma substring_prefix (a b : string) :
  String.substring 0 (String.length a) (a +:+ b) = a.
Proof.
  induction a as [|x a IH]; [by destruct b|].
  change (String x (String.substring 0 (String.length a) (a +:+ b)) = String x a).
  by rewrite IH.
Qed.

Lemma includes_app (a sub b : string) : includes (a +:+ sub +:+ b) sub = true.
Proof.
  unfold includes.
  destruct (String.index 0 sub (a +:+ sub +:+ b)) as [m|] eqn:Hidx; [reflexivity|].
  destruct sub as [|c sub].
  - destruct (a +:+ EmptyString +:+ b); cbn in Hidx; discriminate Hidx.
  - exfalso.
    apply (String.index_correct3 0 (String.length a) _ _ Hidx); [discriminate|lia|].
    rewrite substring_after. apply substring_prefix.
Qed.

Lemma includes_with_entry content entry : includes (with_entry content entry) entry = true.
Proof.
  unfold with_entry. rewrite <- string_app_assoc. apply includes_app.
Qed.

Lemma addTempDirToGitignore_eq h dir ty g :
  addTempDirToGitignore h dir ty g = (Normal tt, g, gitignore_actions h dir ty).
Proof.
  unfold addTempDirToGitignore, gitignore_actions, outside_workspace.
  destruct (workspaceFolder h) as [ws|]; [|reflexivity].
  cbn zeta.
  destruct (negb (String.eqb ty "default")
            && (startsWith (node.relative ws dir) ".." || node.isAbsolute (node.relative ws dir)));
    [reflexivity|].
  unfold cmd.try_catch, cmd.bind at 1, cmd.lift, fs.existsSync, ret. cbn [map].
  unfold cmd.bind at 1.
  destruct (fs.exists_ (world h) (path.join ws ".gitignore")).
  - destruct (readFile h (path.join ws ".gitignore")) as [content|]; [|reflexivity].
    unfold cmd.ret at 1. fold (with_entry content (node.relative ws dir +:+ "/")).
    destruct (includes content (node.relative ws dir +:+ "/")); cbn [negb]; [reflexivity|].
    by destruct (write_ok h _ _).
  - unfold cmd.ret at 1. fold (with_entry EmptyString (node.relative ws dir +:+ "/")).
    destruct (includes EmptyString (node.relative ws dir +:+ "/")); cbn [negb]; [reflexivity|].
    by destruct (write_ok h _ _).
Qed.

Lemma gitignore_actions_write h dir ty file content ok :
  writeFileSync file content ok ∈ gitignore_actions h dir ty ->
  exists ws old,
    workspaceFolder h = Some ws /\ file = path.join ws ".gitignore" /\
    outside_workspace (node.relative ws dir) ty = false /\
    (if fs.exists_ (world h) file then readFile h file = Some old else old = EmptyString) /\
    includes old (node.relative ws dir +:+ "/") = false /\
    content = with_entry old (node.relative ws dir +:+ "/") /\
    ok = write_ok h file content.
Proof.
  unfold gitignore_actions. destruct (workspaceFolder h) as [ws|]; [|intros Hin; in_actions Hin].
  cbn zeta. destruct (outside_workspace _ _) eqn:Hout; [intros Hin; in_actions Hin|].
  destruct (if fs.exists_ (world h) (path.join ws ".gitignore")
            then readFile h (path.join ws ".gitignore") else Some EmptyString)
    as [old|] eqn:Hold; [|intros Hin; in_actions Hin].
  destruct (includes old _) eqn:Hinc; [intros Hin; in_actions Hin|].
  destruct (write_ok h _ _) eqn:Hok; intros Hin;
    (apply elem_of_cons in Hin as [Hin|Hin]; [|in_actions Hin]);
    injection Hin as -> -> ->; exists ws, old; rewrite Hok;
    repeat split; try done;
    destruct (fs.exists_ (world h) (path.join ws ".gitignore")); congruence.
Qed.

Lemma gitignore_actions_no_mkdir h dir ty d ok :
  mkdirSync d ok ∉ gitignore_actions h dir ty.
Proof.
  intros Hin. unfold gitignore_actions in Hin.
  destruct (workspaceFolder h) as [ws|]; [|in_actions Hin].
  cbn zeta in Hin. destruct (outside_workspace _ _); [in_actions Hin|].
  destruct (if fs.exists_ (world h) (path.join ws ".gitignore")
            then readFile h (path.join ws ".gitignore") else Some EmptyString)
    as [old|]; [|in_actions Hin].
  destruct (includes old _); [in_actions Hin|].
  destruct (write_ok h _ _); in_actions Hin.
Qed.

(** ** The set-up *)

Lemma setupScreenshotDirectory_eq h g :
  setupScreenshotDirectory h g =
  (if mkdir_fails h then Thrown else Normal tt,
   match chosen_dir h with
   | Some dir => set_screenshotDir (Some dir) g
   | None => g
   end,
   choice_log h ++ match chosen_dir h with
                   | Some dir => provision_actions h dir
                   | None => []
                   end).
Proof.
  unfold setupScreenshotDirectory, mkdir_fails, chosen_dir, choice_log, provision_actions.
  cbn zeta. unfold cmd.bind at 1, cmd.log at 1, cmd.emit at 1. unfold cmd.bind at 1.
  destruct (truthy (Some (node.trim (cfg_tempFolderName h)))) as [tf|].
  - destruct (workspaceFolder h) as [ws|]; [|reflexivity].
    unfold cmd.bind at 1 2, cmd.modify, cmd.log at 1, cmd.emit at 1, cmd.ret at 1.
    cbn [app]. unfold cmd.bind at 1, cmd.lift, fs.existsSync, ret. cbn [map app].
    unfold cmd.bind at 1.
    destruct (fs.exists_ (world h) _); cbn [negb andb orb app].
    + unfold cmd.ret at 1. cbn [app].
      destruct (cfg_addToGitignore h); [|reflexivity].
      by rewrite addTempDirToGitignore_eq.
    + destruct (mkdir_ok h _); cbn [negb andb orb]; [|reflexivity].
      unfold cmd.bind at 1, cmd.emit at 1, cmd.log at 1, cmd.emit at 1. cbn [app].
      destruct (cfg_addToGitignore h); [|reflexivity].
      by rewrite addTempDirToGitignore_eq.
  - unfold cmd.bind at 1, cmd.log at 1, cmd.emit at 1.
    destruct (truthy (Some (node.trim (cfg_customTempPath h)))) as [ct|]; [|reflexivity].
    unfold cmd.bind at 1 2, cmd.modify, cmd.log at 1, cmd.emit at 1, cmd.ret at 1.
    cbn [app]. unfold cmd.bind at 1, cmd.lift, fs.existsSync, ret. cbn [map app].
    unfold cmd.bind at 1.
    destruct (fs.exists_ (world h) _); cbn [negb andb orb app].
    + unfold cmd.ret at 1. cbn [app].
      destruct (cfg_addToGitignore h); [|reflexivity].
      by rewrite addTempDirToGitignore_eq.
    + destruct (mkdir_ok h _); cbn [negb andb orb]; [|reflexivity].
      unfold cmd.bind at 1, cmd.emit at 1, cmd.log at 1, cmd.emit at 1. cbn [app].
      destruct (cfg_addToGitignore h); [|reflexivity].
      by rewrite addTempDirToGitignore_eq.
Qed.

Lemma choice_log_core h a : a ∈ choice_log h -> exists e, a = core e.
Proof.
  unfold choice_log. cbn zeta. intros Ha.
  destruct (truthy (Some (node.trim (cfg_tempFolderName h)))).
  - destruct (workspaceFolder h);
      repeat (apply elem_of_cons in Ha as [->|Ha]; [by eexists|]);
      by apply not_elem_of_nil in Ha.
  - destruct (truthy (Some (node.trim (cfg_customTempPath h))));
      repeat (apply elem_of_cons in Ha as [->|Ha]; [by eexists|]);
      by apply not_elem_of_nil in Ha.
Qed.

(** ** Activation *)

Lemma startFileMonitoring_configured_eq h g :
  startFileMonitoring_configured h g =
  (Normal (monitoring_starts h),
   globals_of (startFileMonitoring (world h) (windows_path h) g),
   path_log h ++ map core (effects_of (startFileMonitoring (world h) (windows_path h) g))).
Proof.
  unfold startFileMonitoring_configured, cmd.bind. rewrite getWindowsScreenshotsPath_eq.
  unfold cmd.lift, monitoring_starts. rewrite startFileMonitoring_eq.
  destruct (String.eqb (windows_path h) EmptyString); [reflexivity|].
  by destruct (fs.exists_ (world h) (windows_path h)).
Qed.

Lemma activate_eq h g :
  activate h g =
  let rs := setupScreenshotDirectory h g in
  let rm := startFileMonitoring_configured h rs.1.2 in
  (Normal tt, rm.1.2,
   core (console_log "WSL Screen Snipper extension activated")
   :: rs.2
   ++ (rm.2
       ++ (if monitoring_starts h
           then [core (console_log "File monitoring started successfully")]
           else [core (console_log "File monitoring setup failed");
                 showWarningMessage
                   "WSL Screen Snipper: File monitoring could not start - check Screenshots directory"]))
   ++ (if mkdir_fails h
       then [core (console_error "Failed to setup screenshot directory:");
             core (showErrorMessage
               "WSL Screen Snipper: Failed to setup screenshot directory - ")]
       else core (console_log "Screenshot directory setup completed")
            :: (if monitoring_starts h
                then [core (showInformationMessage
                        "WSL Screen Snipper: Ready! Screenshot monitoring active")]
                else []))).
Proof.
  unfold activate. unfold cmd.bind at 1, cmd.log at 1, cmd.emit at 1.
  unfold cmd.bind at 1, cmd.settled. cbn zeta.
  rewrite setupScreenshotDirectory_eq. cbn [fst snd].
  set (gs := match chosen_dir h with Some dir => set_screenshotDir (Some dir) g | None => g end).
  set (es := choice_log h ++ _).
  assert (Hsettled :
    (let (p, e1) := (if mkdir_fails h then @Thrown unit else Normal tt, gs, es) in
     let (c, g1) := p in
     match c with
     | Normal _ => (Normal true, g1, e1)
     | Thrown => (Normal false, g1, e1)
     end) = (Normal (negb (mkdir_fails h)), gs, es)).
  { by destruct (mkdir_fails h). }
  rewrite Hsettled. clear Hsettled.
  unfold cmd.bind at 1, cmd.try_catch, cmd.bind at 1.
  rewrite startFileMonitoring_configured_eq.
  destruct (monitoring_starts h), (mkdir_fails h); cbn [negb];
    unfold cmd.bind, cmd.log, cmd.emit, cmd.ret; cbn [fst snd];
    rewrite ?app_nil_r, <- ?app_assoc; reflexivity.
Qed.

(** The notification [activate] ends with. *)
Lemma activate_last h g :
  last (activate h g).2 =
  Some (if mkdir_fails h
        then core (showErrorMessage
               "WSL Screen Snipper: Failed to setup screenshot directory - ")
        else if monitoring_starts h
             then core (showInformationMessage
                    "WSL Screen Snipper: Ready! Screenshot monitoring active")
             else core (console_log "Screenshot directory setup completed")).
Proof.
  rewrite activate_eq. cbn zeta. cbn [snd].
  rewrite app_comm_cons, app_assoc, last_app.
  by destruct (mkdir_fails h), (monitoring_starts h).
Qed.

End CommandFacts.

(** X8.  [getWindowsScreenshotsPath] always returns and writes no module
    variable.  A non-empty trimmed user name wins over the custom path and
    gives [/mnt/c/Users/<name>/Pictures/Screenshots]; otherwise the trimmed
    custom path is returned as it is; the result is empty exactly when both
    are empty.  Started from such settings, or on a path that does not
    exist, monitoring does not start and no module variable changes; on an
    existing path it starts and polls that path. *)
Theorem X8_path_from_settings {L : path.Lib} {N : node.Lib} (h : Host) (g : Globals) :
  let u := node.trim (cfg_windowsUsername h) in
  let c := node.trim (cfg_customWindowsPath h) in
  let r := startFileMonitoring_configured h g in
  (getWindowsScreenshotsPath h g).1 = (Normal (windows_path h), g) /\
  (u <> EmptyString -> windows_path h = "/mnt/c/Users/" +:+ u +:+ "/Pictures/Screenshots") /\
  (u = EmptyString -> windows_path h = c) /\
  (windows_path h = EmptyString <-> u = EmptyString /\ c = EmptyString) /\
  (windows_path h = EmptyString \/ fs.exists_ (world h) (windows_path h) = false ->
   r.1 = (Normal false, g)) /\
  (windows_path h <> EmptyString -> fs.exists_ (world h) (windows_path h) = true ->
   r.1.1 = Normal true /\
   pollingInterval r.1.2
   = Some {| polled := windows_path h; every_ms := fs.cfg_pollingInterval (world h) |} /\
   lastScreenshotCheck r.1.2 = fs.now (world h)).
Proof.
  cbn zeta.
  assert (Hu : node.trim (cfg_windowsUsername h) <> EmptyString ->
               windows_path h = "/mnt/c/Users/" +:+ node.trim (cfg_windowsUsername h)
                                +:+ "/Pictures/Screenshots").
  { intros Hne. unfold windows_path. cbn zeta.
    destruct (truthy (Some (node.trim (cfg_windowsUsername h)))) eqn:Ht; [reflexivity|].
    by apply truthy_None_iff in Ht. }
  assert (Hc : node.trim (cfg_windowsUsername h) = EmptyString ->
               windows_path h = node.trim (cfg_customWindowsPath h)).
  { intros He. unfold windows_path. cbn zeta. rewrite He.
    change (truthy (Some EmptyString)) with (@None string).
    destruct (truthy (Some (node.trim (cfg_customWindowsPath h)))) eqn:Ht; [reflexivity|].
    by apply truthy_None_iff in Ht. }
  assert (Hstart : (startFileMonitoring_configured h g).1
                   = (startFileMonitoring (world h) (windows_path h) g).1).
  { unfold startFileMonitoring_configured, cmd.bind. rewrite getWindowsScreenshotsPath_eq.
    unfold cmd.lift. by destruct (startFileMonitoring _ _ g) as [[? ?] ?]. }
  split; [by rewrite getWindowsScreenshotsPath_eq|]. split; [exact Hu|]. split; [exact Hc|].
  split; [|split].
  - split.
    + intros Hempty. destruct (String.eqb_spec (node.trim (cfg_windowsUsername h)) EmptyString)
        as [He|Hne].
      * split; [exact He|]. by rewrite <- (Hc He).
      * rewrite (Hu Hne) in Hempty. discriminate Hempty.
    + intros [He Hce]. by rewrite (Hc He).
  - rewrite Hstart, startFileMonitoring_eq. intros [->| ->]; [reflexivity|].
    by destruct (String.eqb (windows_path h) EmptyString).
  - intros Hne Hex. rewrite Hstart, startFileMonitoring_eq.
    apply String.eqb_neq in Hne. rewrite Hne, Hex. cbn [negb fst snd].
    by destruct (fs.watch_ok (world h) (windows_path h)).
Qed.

Lemma X8_path_from_settings_witness :
  windows_path (N := Desk.plain) (Desk.host Scenario.with_b "node_modules/")
    = Example.source /\
  (startFileMonitoring_configured (N := Desk.plain) (Desk.blank Scenario.with_b)
     Example.configured).1 = (Normal false, Example.configured).
Proof.
  split.
  - destruct (X8_path_from_settings (L := posix) (N := Desk.plain)
                (Desk.host Scenario.with_b "node_modules/") Example.configured)
      as (_ & Hu & _).
    apply Hu. discriminate.
  - destruct (X8_path_from_settings (L := posix) (N := Desk.plain)
                (Desk.blank Scenario.with_b) Example.configured)
      as (_ & _ & _ & _ & Hfail & _).
    apply Hfail. left. reflexivity.
Defined.

(** X9.  When the source directory can be listed and every qualifying
    entry can be stat-ed, the manual save command copies the entry the
    poll scanner would select: whenever a scan of the same listing selects
    a file, the command hands exactly that file to
    [copyScreenshotToWSL].  Both take the entry of greatest modification
    time and, among equals, the first in listing order. *)
Theorem X9_manual_save_agrees_with_scanner {L : path.Lib} {N : node.Lib}
    (h : Host) (g : Globals) (names : list string) (watermark : Z) (n : NewestFile)
    (Hthere : fs.exists_ (world h) (windows_path h) = true)
    (Hlist : fs.readdir (world h) (windows_path h) = Some names)
    (Hstat : forall f, f ∈ names -> qualifies f = true ->
                       is_Some (fs.stat (world h) (path.join (windows_path h) f)))
    (Hscan : (scan (world h) (windows_path h) names watermark).1 = Some n) :
  saveImage h g =
    (Normal tt, g,
     path_log h ++ map core (copy_outcome (world h) (screenshotDir g) (path n)).2) /\
  first_newest (records (world h) (windows_path h) names) n.
Proof. exact (saveImage_like_scan h g names watermark n Hthere Hlist Hstat Hscan). Qed.

Lemma X9_manual_save_agrees_with_scanner_witness :
  (saveImage (L := posix) (N := Desk.plain) (Desk.host Listing.three_world "node_modules/")
     Example.started).2
  = path_log (N := Desk.plain) (Desk.host Listing.three_world "node_modules/")
    ++ map core (copy_outcome (L := posix) Listing.three_world (Some Example.dest)
                   (Example.source +:+ "/t3.jpg")).2.
Proof.
  assert (Hstat : forall f, f ∈ map fst Listing.three -> qualifies f = true ->
            is_Some (fs.stat Listing.three_world
                       (path.join (Lib := posix) Example.source f))).
  { intros f Hin _. cbn in Hin.
    repeat (apply elem_of_cons in Hin as [->|Hin]; [by eexists|]).
    by apply not_elem_of_nil in Hin. }
  destruct (X9_manual_save_agrees_with_scanner (L := posix) (N := Desk.plain)
              (Desk.host Listing.three_world "node_modules/") Example.started
              (map fst Listing.three) 150
              {| name := "t3.jpg"; path := Example.source +:+ "/t3.jpg"; mtime := 230 |}
              eq_refl eq_refl Hstat eq_refl) as [Hsave _].
  rewrite Hsave. reflexivity.
Defined.

(** X10.  The manual save command stands outside the deduplicating
    pipeline.  It never writes a module variable: it neither records the
    file in [processedFiles] nor publishes the destination in
    [lastSavedImagePath].  And it does not read [processedFiles] or the
    watermark: the newest qualifying file is copied again even when the
    pipeline has already ingested it and would drop it, and whatever the
    watermark has meanwhile become. *)
Theorem X10_manual_save_bypasses_dedup {L : path.Lib} {N : node.Lib}
    (h : Host) (g : Globals) (names : list string) (watermark : Z)
    (n : NewestFile) (d : string)
    (Hthere : fs.exists_ (world h) (windows_path h) = true)
    (Hlist : fs.readdir (world h) (windows_path h) = Some names)
    (Hstat : forall f, f ∈ names -> qualifies f = true ->
                       is_Some (fs.stat (world h) (path.join (windows_path h) f)))
    (Hscan : (scan (world h) (windows_path h) names watermark).1 = Some n)
    (Hdest : truthy (screenshotDir g) = Some d)
    (Hdone : path n ∈ processedFiles g) :
  (saveImage h g).1.2 = g /\
  handleNewScreenshot (world h) (path n) g = (Normal tt, g, []) /\
  exists ok rest,
    (saveImage h g).2
    = path_log h ++ core (copyFile (path n) (path.join d (path.basename (path n))) ok) :: rest.
Proof.
  split; [|split].
  - apply saveImage_globals.
  - by apply handleNewScreenshot_processed.
  - destruct (saveImage_like_scan h g names watermark n Hthere Hlist Hstat Hscan) as [-> _].
    unfold copy_outcome. rewrite Hdest. cbn zeta.
    destruct (fs.copy_ok _ _ _); cbn [snd map]; eauto.
Qed.

Lemma X10_manual_save_bypasses_dedup_witness :
  lastScreenshotCheck (globals Scenario.ingested) = 200%Z /\
  exists ok rest,
    (saveImage (L := posix) (N := Desk.plain) (Desk.host Scenario.with_b "node_modules/")
       (globals Scenario.ingested)).2
    = path_log (N := Desk.plain) (Desk.host Scenario.with_b "node_modules/")
      ++ core (copyFile Example.b_png (Example.dest +:+ "/b.png") ok) :: rest.
Proof.
  split; [reflexivity|].
  assert (Hstat : forall f, f ∈ ["a.png"; "b.png"] -> qualifies f = true ->
            is_Some (fs.stat Scenario.with_b (path.join (Lib := posix) Example.source f))).
  { intros f Hin _.
    repeat (apply elem_of_cons in Hin as [->|Hin]; [by eexists|]).
    by apply not_elem_of_nil in Hin. }
  assert (Hdone : Example.b_png ∈ processedFiles (globals Scenario.ingested)).
  { apply (bool_decide_unpack _). vm_compute. exact I. }
  destruct (X10_manual_save_bypasses_dedup (L := posix) (N := Desk.plain)
              (Desk.host Scenario.with_b "node_modules/")
              (globals Scenario.ingested)
              ["a.png"; "b.png"] 0
              {| name := "b.png"; path := Example.b_png; mtime := 200 |}
              Example.dest eq_refl eq_refl Hstat eq_refl eq_refl Hdone)
    as (_ & _ & Hcopy).
  exact Hcopy.
Defined.

(** X11.  The manual save command does not contain its errors the way
    the scanner does.  A missing source directory is reported and nothing
    else happens; but a listing that throws, or a single qualifying entry
    whose [fs.statSync] throws, makes the whole command throw before
    anything is copied, even when other entries are fine.  With no
    qualifying entry it only shows a warning.  In none of these cases is a
    file copied. *)
Theorem X11_manual_save_failures {L : path.Lib} {N : node.Lib} (h : Host) (g : Globals) :
  let w := world h in
  let p := windows_path h in
  (fs.exists_ w p = false ->
   saveImage h g =
     (Normal tt, g,
      path_log h ++ [core (showErrorMessage ("Windows Screenshots directory not found: " +:+ p))])) /\
  (fs.exists_ w p = true -> fs.readdir w p = None ->
   saveImage h g = (Thrown, g, path_log h)) /\
  (forall names f,
     fs.exists_ w p = true -> fs.readdir w p = Some names ->
     f ∈ names -> qualifies f = true -> fs.stat w (path.join p f) = None ->
     saveImage h g = (Thrown, g, path_log h)) /\
  (forall names,
     fs.exists_ w p = true -> fs.readdir w p = Some names ->
     (forall f, f ∈ names -> qualifies f = false) ->
     saveImage h g =
       (Normal tt, g,
        path_log h ++ [showWarningMessage "No screenshots found in Windows Screenshots folder"])) /\
  ((saveImage h g).1.1 = Thrown -> forall src dst ok, core (copyFile src dst ok) ∉ (saveImage h g).2).
Proof.
  cbn zeta. repeat apply conj.
  - intros Hmissing. rewrite saveImage_eq. cbn zeta. by rewrite Hmissing.
  - intros Hthere Hlist. rewrite saveImage_eq. cbn zeta. by rewrite Hthere, Hlist.
  - intros names f Hthere Hlist Hin Hq Hnone. rewrite saveImage_eq. cbn zeta.
    rewrite Hthere, Hlist. cbn [negb].
    assert (Hall : stat_all (world h) (windows_path h)
                     (filter (fun f => qualifies f = true) names) = None).
    { apply stat_all_None. exists f. split; [|exact Hnone]. by apply list_elem_of_filter. }
    by rewrite Hall.
  - intros names Hthere Hlist Hnoq. rewrite saveImage_eq. cbn zeta.
    rewrite Hthere, Hlist. cbn [negb].
    assert (Hfil : filter (fun f => qualifies f = true) names = []).
    { clear -Hnoq. induction names as [|f names IH]; [reflexivity|].
      rewrite filter_cons. destruct (decide (qualifies f = true)) as [Hq|_].
      - rewrite (Hnoq f) in Hq; [discriminate|]. apply elem_of_cons. by left.
      - apply IH. intros f' Hf'. apply Hnoq. apply elem_of_cons. by right. }
    by rewrite Hfil.
  - rewrite saveImage_eq. cbn zeta.
    destruct (negb (fs.exists_ (world h) (windows_path h))); [discriminate|].
    destruct (fs.readdir (world h) (windows_path h)) as [names|];
      [|intros _ src dst ok; apply path_log_quiet].
    destruct (stat_all (world h) (windows_path h) _) as [files|];
      [|intros _ src dst ok; apply path_log_quiet].
    by destruct (sort_desc files).
Qed.

Lemma X11_manual_save_failures_witness :
  saveImage (L := posix) (N := Desk.plain)
    (Desk.host (Example.world Failure.locked_x true true 310) "node_modules/")
    Example.started
  = (Thrown, Example.started,
     path_log (N := Desk.plain)
       (Desk.host (Example.world Failure.locked_x true true 310) "node_modules/")).
Proof.
  destruct (X11_manual_save_failures (L := posix) (N := Desk.plain)
              (Desk.host (Example.world Failure.locked_x true true 310) "node_modules/")
              Example.started) as (_ & _ & Hlocked & _).
  apply (Hlocked ["b.png"; "x.png"; "c.png"] "x.png"); try reflexivity.
  apply elem_of_cons. right. apply elem_of_cons. by left.
Defined.

(** X12.  The [.gitignore] entry is added once.  When the workspace's
    [.gitignore] does not contain the entry, the file is rewritten as its
    old content, a line break if the old content does not end in one, the
    entry and a line break.  The file so written contains the entry; and
    whenever the entry occurs anywhere in the file, nothing is written. *)
Theorem X12_gitignore_entry_added_once {L : path.Lib} {N : node.Lib}
    (h h' : Host) (dir ty ws content before after : string) (g : Globals)
    (Hws : workspaceFolder h = Some ws)
    (Hin : outside_workspace (node.relative ws dir) ty = false)
    (Hthere : fs.exists_ (world h) (path.join ws ".gitignore") = true)
    (Hread : readFile h (path.join ws ".gitignore") = Some content)
    (Hws' : workspaceFolder h' = Some ws)
    (Hthere' : fs.exists_ (world h') (path.join ws ".gitignore") = true) :
  let file := path.join ws ".gitignore" in
  let entry := node.relative ws dir +:+ "/" in
  (includes content entry = false -> write_ok h file (with_entry content entry) = true ->
   addTempDirToGitignore h dir ty g =
     (Normal tt, g,
      [writeFileSync file (with_entry content entry) true;
       core (console_log ("Added " +:+ entry +:+ " to .gitignore"));
       core (showInformationMessage ("Added " +:+ entry +:+ " to .gitignore"))])) /\
  (readFile h' file = Some (with_entry content entry) \/
   readFile h' file = Some (before +:+ entry +:+ after) ->
   addTempDirToGitignore h' dir ty g =
     (Normal tt, g, [core (console_log (entry +:+ " already exists in .gitignore"))])).
Proof.
  cbn zeta. split.
  - intros Hnew Hok. rewrite addTempDirToGitignore_eq. unfold gitignore_actions.
    rewrite Hws. cbn zeta. by rewrite Hin, Hthere, Hread, Hnew, Hok.
  - intros Hread'. rewrite addTempDirToGitignore_eq. unfold gitignore_actions.
    rewrite Hws'. cbn zeta. rewrite Hin, Hthere'.
    destruct Hread' as [-> | ->].
    + by rewrite includes_with_entry.
    + by rewrite includes_app.
Qed.

Lemma X12_gitignore_entry_added_once_witness :
  addTempDirToGitignore (L := posix) (N := Desk.plain)
    (Desk.host (Desk.with_gitignore Scenario.with_b) "node_modules/")
    Example.dest "default" Example.started
  = (Normal tt, Example.started,
     [writeFileSync Desk.gitignore
        ("node_modules/" +:+ newline +:+ ".Temp-Session-Snips/" +:+ newline) true;
      core (console_log "Added .Temp-Session-Snips/ to .gitignore");
      core (showInformationMessage "Added .Temp-Session-Snips/ to .gitignore")]) /\
  addTempDirToGitignore (L := posix) (N := Desk.plain)
    (Desk.host (Desk.with_gitignore Scenario.with_b)
       ("node_modules/" +:+ newline +:+ ".Temp-Session-Snips/" +:+ newline))
    Example.dest "default" Example.started
  = (Normal tt, Example.started,
     [core (console_log ".Temp-Session-Snips/ already exists in .gitignore")]).
Proof.
  destruct (X12_gitignore_entry_added_once (L := posix) (N := Desk.plain)
              (Desk.host (Desk.with_gitignore Scenario.with_b) "node_modules/")
              (Desk.host (Desk.with_gitignore Scenario.with_b)
                 ("node_modules/" +:+ newline +:+ ".Temp-Session-Snips/" +:+ newline))
              Example.dest "default" Desk.workspace "node_modules/"
              EmptyString EmptyString Example.started
              eq_refl eq_refl eq_refl eq_refl eq_refl eq_refl) as [Hfirst Hsecond].
  split.
  - apply Hfirst; reflexivity.
  - apply Hsecond. left. reflexivity.
Defined.

(** X13.  Patching the [.gitignore] is contained and conservative.
    [addTempDirToGitignore] never throws and writes no module variable.
    It writes no file but the [.gitignore] of the first workspace folder,
    never for a custom directory outside the workspace, and what it writes
    is always the content it read (nothing when the file did not exist)
    with the entry appended: existing lines are never lost. *)
Theorem X13_gitignore_is_contained {L : path.Lib} {N : node.Lib}
    (h : Host) (dir ty : string) (g : Globals) (file content : string) (ok : bool) :
  let r := addTempDirToGitignore h dir ty g in
  r.1 = (Normal tt, g) /\
  (writeFileSync file content ok ∈ r.2 ->
   exists ws old,
     workspaceFolder h = Some ws /\ file = path.join ws ".gitignore" /\
     outside_workspace (node.relative ws dir) ty = false /\
     (if fs.exists_ (world h) file then readFile h file = Some old else old = EmptyString) /\
     includes old (node.relative ws dir +:+ "/") = false /\
     content = with_entry old (node.relative ws dir +:+ "/") /\
     ok = write_ok h file content) /\
  (forall d ok', mkdirSync d ok' ∉ r.2).
Proof.
  cbn zeta. rewrite addTempDirToGitignore_eq. cbn [fst snd].
  split; [reflexivity|]. split; [apply gitignore_actions_write|].
  intros d ok'. apply gitignore_actions_no_mkdir.
Qed.

Lemma X13_gitignore_is_contained_witness :
  exists old,
    readFile (Desk.host (Desk.with_gitignore Scenario.with_b) "node_modules/") Desk.gitignore
      = Some old /\
    "node_modules/" +:+ newline +:+ ".Temp-Session-Snips/" +:+ newline
      = with_entry old ".Temp-Session-Snips/".
Proof.
  destruct (X13_gitignore_is_contained (L := posix) (N := Desk.plain)
              (Desk.host (Desk.with_gitignore Scenario.with_b) "node_modules/")
              Example.dest "default" Example.started Desk.gitignore
              ("node_modules/" +:+ newline +:+ ".Temp-Session-Snips/" +:+ newline) true)
    as (_ & Hwrite & _).
  destruct Hwrite as (ws & old & Hws & _ & _ & Hold & _ & Hcontent & _).
  { vm_compute. apply elem_of_cons. by left. }
  injection Hws as <-. exists old. split; [exact Hold|exact Hcontent].
Defined.

(** X14.  Which directory the set-up settles on.  A non-empty trimmed
    temp folder name wins: with a workspace open the directory is
    [<workspace>/.<name>]; with no workspace open the set-up gives up
    without touching [screenshotDir] or the file system, and the custom
    temp path is not consulted even if it is set.  Only with an empty
    folder name is the trimmed custom path used; with both empty the set-up
    gives up.  No other module variable is ever written, and
    [screenshotDir] is assigned before the directory is created, so it
    stays set when [fs.mkdirSync] throws. *)
Theorem X14_setup_chooses_directory {L : path.Lib} {N : node.Lib} (h : Host) (g : Globals) :
  let tf := node.trim (cfg_tempFolderName h) in
  let ct := node.trim (cfg_customTempPath h) in
  let r := setupScreenshotDirectory h g in
  (forall ws, tf <> EmptyString -> workspaceFolder h = Some ws ->
     r.1.2 = set_screenshotDir (Some (path.join ws ("." +:+ tf))) g) /\
  (tf <> EmptyString -> workspaceFolder h = None ->
   r.1 = (Normal tt, g) /\
   forall a, a ∈ r.2 -> exists e, a = core e) /\
  (tf = EmptyString -> ct <> EmptyString ->
   r.1.2 = set_screenshotDir (Some ct) g /\ truthy (screenshotDir r.1.2) = Some ct) /\
  (tf = EmptyString -> ct = EmptyString ->
   r.1 = (Normal tt, g) /\
   forall a, a ∈ r.2 -> exists e, a = core e) /\
  (r.1.1 = Thrown <-> mkdir_fails h = true) /\
  r.1.2 = set_screenshotDir (screenshotDir r.1.2) g.
Proof.
  cbn zeta. rewrite setupScreenshotDirectory_eq. cbn [fst snd].
  unfold mkdir_fails, chosen_dir, choice_log. cbn zeta.
  repeat apply conj.
  - intros ws Htf Hws. rewrite Hws.
    destruct (truthy (Some (node.trim (cfg_tempFolderName h)))) eqn:Ht; [reflexivity|].
    by apply truthy_None_iff in Ht.
  - intros Htf Hws. rewrite Hws.
    destruct (truthy (Some (node.trim (cfg_tempFolderName h)))) eqn:Ht;
      [|by apply truthy_None_iff in Ht].
    split; [reflexivity|]. intros a Ha. rewrite app_nil_r in Ha.
    repeat (apply elem_of_cons in Ha as [->|Ha]; [by eexists|]).
    by apply not_elem_of_nil in Ha.
  - intros Htf Hct. rewrite Htf. change (truthy (Some EmptyString)) with (@None string).
    destruct (truthy (Some (node.trim (cfg_customTempPath h)))) eqn:Ht;
      [|by apply truthy_None_iff in Ht].
    split; [reflexivity|]. cbn [screenshotDir set_screenshotDir]. rewrite Ht.
    apply truthy_Some in Ht as [Hs _]. by injection Hs as ->.
  - intros Htf Hct. rewrite Htf, Hct. change (truthy (Some EmptyString)) with (@None string).
    split; [reflexivity|]. intros a Ha. rewrite app_nil_r in Ha.
    repeat (apply elem_of_cons in Ha as [->|Ha]; [by eexists|]).
    by apply not_elem_of_nil in Ha.
  - destruct (match truthy (Some (node.trim (cfg_tempFolderName h))) with
              | Some _ => _ | None => _ end) as [d|]; [|done].
    generalize (negb (fs.exists_ (world h) d) && negb (mkdir_ok h d)).
    intros [|] Hx; first [discriminate Hx | reflexivity].
  - destruct (match truthy (Some (node.trim (cfg_tempFolderName h))) with
              | Some _ => _ | None => _ end) as [d|]; [|done].
    generalize (negb (fs.exists_ (world h) d) && negb (mkdir_ok h d)).
    intros [|] Hx; first [discriminate Hx | reflexivity].
  - destruct (match truthy (Some (node.trim (cfg_tempFolderName h))) with
              | Some _ => _ | None => _ end) as [d|]; [reflexivity|by destruct g].
Qed.

Lemma X14_setup_chooses_directory_witness :
  screenshotDir
    (setupScreenshotDirectory (L := posix) (N := Desk.plain)
       (Desk.host (Desk.with_gitignore Scenario.with_b) "node_modules/") initial).1.2
  = Some Example.dest /\
  (setupScreenshotDirectory (L := posix) (N := Desk.plain)
     (Desk.blank Scenario.with_b) initial).1 = (Normal tt, initial).
Proof.
  split.
  - destruct (X14_setup_chooses_directory (L := posix) (N := Desk.plain)
                (Desk.host (Desk.with_gitignore Scenario.with_b) "node_modules/") initial)
      as (Hws & _).
    rewrite (Hws Desk.workspace); [reflexivity|discriminate|reflexivity].
  - destruct (X14_setup_chooses_directory (L := posix) (N := Desk.plain)
                (Desk.blank Scenario.with_b) initial)
      as (_ & _ & _ & Hnone & _).
    apply Hnone; reflexivity.
Defined.

(** X15.  The set-up creates the directory only when it is missing.  If
    the chosen directory exists, [fs.mkdirSync] is not called; if it is
    missing it is called once, on that directory.  When that call throws,
    the set-up throws with [screenshotDir] already set and the [.gitignore]
    untouched.  With [addToGitignore] off no file is ever written. *)
Theorem X15_setup_creates_missing_directory {L : path.Lib} {N : node.Lib}
    (h : Host) (g : Globals) (dir : string)
    (Hchosen : chosen_dir h = Some dir) :
  let r := setupScreenshotDirectory h g in
  (fs.exists_ (world h) dir = true ->
   r.1.1 = Normal tt /\ forall d ok, mkdirSync d ok ∉ r.2) /\
  (fs.exists_ (world h) dir = false ->
   forall d ok, mkdirSync d ok ∈ r.2 <-> d = dir /\ ok = mkdir_ok h dir) /\
  (fs.exists_ (world h) dir = false -> mkdir_ok h dir = false ->
   r = (Thrown, set_screenshotDir (Some dir) g, choice_log h ++ [mkdirSync dir false])) /\
  (cfg_addToGitignore h = false ->
   forall file content ok, writeFileSync file content ok ∉ r.2).
Proof.
  cbn zeta. rewrite setupScreenshotDirectory_eq. unfold mkdir_fails. rewrite Hchosen.
  cbn [fst snd]. unfold provision_actions. cbn zeta.
  assert (Hlog : forall a, (forall e, a <> core e) -> a ∉ choice_log h).
  { intros a Hne Ha. apply choice_log_core in Ha as [e ->]. by apply (Hne e). }
  assert (Hnomk : forall d ok, mkdirSync d ok ∉ choice_log h).
  { intros d ok. apply Hlog. intros e. discriminate. }
  assert (Hwr : forall file content ok, writeFileSync file content ok ∉ choice_log h).
  { intros file content ok. apply Hlog. intros e. discriminate. }
  split; [|split; [|split]].
  - intros Hex. rewrite Hex. cbn [negb andb orb app]. split; [reflexivity|].
    intros d ok Hin. apply elem_of_app in Hin as [Hin|Hin].
    + by apply Hnomk in Hin.
    + destruct (cfg_addToGitignore h); [|by apply not_elem_of_nil in Hin].
      by apply gitignore_actions_no_mkdir in Hin.
  - intros Hex d ok. rewrite Hex. cbn [negb andb orb]. split.
    + intros Hin. apply elem_of_app in Hin as [Hin|Hin]; [by apply Hnomk in Hin|].
      apply elem_of_app in Hin as [Hin|Hin].
      * destruct (mkdir_ok h dir).
        -- apply elem_of_cons in Hin as [Hin|Hin]; [by injection Hin as -> ->|].
           apply list_elem_of_singleton in Hin. discriminate Hin.
        -- apply list_elem_of_singleton in Hin. by injection Hin as -> ->.
      * destruct (mkdir_ok h dir && cfg_addToGitignore h);
          [|by apply not_elem_of_nil in Hin].
        by apply gitignore_actions_no_mkdir in Hin.
    + intros [-> ->]. apply elem_of_app. right. apply elem_of_app. left.
      destruct (mkdir_ok h dir); apply elem_of_cons; by left.
  - intros Hex Hmk. rewrite Hex, Hmk. cbn [negb andb orb]. by rewrite app_nil_r.
  - intros Hoff file content ok Hin. rewrite Hoff, andb_false_r, app_nil_r in Hin.
    apply elem_of_app in Hin as [Hin|Hin].
    + by apply Hwr in Hin.
    + destruct (fs.exists_ (world h) dir); [by apply not_elem_of_nil in Hin|].
      destruct (mkdir_ok h dir).
      * apply elem_of_cons in Hin as [Hin|Hin]; [discriminate Hin|].
        apply list_elem_of_singleton in Hin. discriminate Hin.
      * apply list_elem_of_singleton in Hin. discriminate Hin.
Qed.

Lemma X15_setup_creates_missing_directory_witness :
  (setupScreenshotDirectory (L := posix) (N := Desk.plain)
     (Desk.host (Example.world [] true true 150) "node_modules/") initial).1.1
  = Normal tt.
Proof.
  destruct (X15_setup_creates_missing_directory (L := posix) (N := Desk.plain)
              (Desk.host (Example.world [] true true 150) "node_modules/") initial
              Example.dest eq_refl) as (Hthere & _).
  apply Hthere. reflexivity.
Defined.

(** X16.  The set-up feeds the pipeline.  Whatever directory the set-up
    settled on is where the pipeline copies a valid new file to, under the
    file's base name, also when creating that directory threw.  If the
    set-up gave up and nothing had been configured before, the pipeline
    copies nothing and reports that the directory is not initialised. *)
Theorem X16_setup_feeds_the_pipeline {L : path.Lib} {N : node.Lib}
    (h : Host) (g : Globals) (w : fs.World) (P : string)
    (Hnew : P ∉ processedFiles g) (Hgate : passes_gate w P = true) :
  let g' := (setupScreenshotDirectory h g).1.2 in
  (forall dir, chosen_dir h = Some dir -> dir <> EmptyString ->
     exists ok rest,
       effects_of (handleNewScreenshot w P g')
       = copyFile P (path.join dir (path.basename P)) ok :: rest) /\
  (chosen_dir h = None -> truthy (screenshotDir g) = None ->
   handleNewScreenshot w P g' =
     (Normal tt, mark P g,
      [console_error "Screenshot directory not initialized";
       showErrorMessage "Screenshot directory not initialized"])).
Proof.
  cbn zeta. rewrite setupScreenshotDirectory_eq. cbn [fst snd]. split.
  - intros dir Hdir Hne. rewrite Hdir.
    assert (Hnew' : P ∉ processedFiles (set_screenshotDir (Some dir) g)) by exact Hnew.
    rewrite (handleNewScreenshot_ingests w P _ Hnew' Hgate), publish_eq.
    unfold effects_of, copy_outcome. cbn [snd].
    change (screenshotDir (mark P (set_screenshotDir (Some dir) g))) with (Some dir).
    unfold truthy. apply String.eqb_neq in Hne. rewrite Hne. cbn zeta.
    destruct (fs.copy_ok w P _); cbn [snd]; eauto.
  - intros Hnone Hunset. rewrite Hnone.
    rewrite (handleNewScreenshot_ingests w P g Hnew Hgate), publish_eq.
    unfold copy_outcome. change (screenshotDir (mark P g)) with (screenshotDir g).
    by rewrite Hunset.
Qed.

Lemma X16_setup_feeds_the_pipeline_witness :
  exists ok rest,
    effects_of
      (handleNewScreenshot (L := posix) Scenario.with_b Example.b_png
         (setupScreenshotDirectory (L := posix) (N := Desk.plain)
            (Desk.host (Desk.with_gitignore Scenario.with_b) "node_modules/") initial).1.2)
    = copyFile Example.b_png (Example.dest +:+ "/b.png") ok :: rest.
Proof.
  assert (Hnew : Example.b_png ∉ processedFiles initial).
  { apply (bool_decide_unpack _). vm_compute. exact I. }
  destruct (X16_setup_feeds_the_pipeline (L := posix) (N := Desk.plain)
              (Desk.host (Desk.with_gitignore Scenario.with_b) "node_modules/") initial
              Scenario.with_b Example.b_png Hnew eq_refl) as [Hcopy _].
  apply (Hcopy Example.dest); [reflexivity|discriminate].
Defined.

(** X17.  [activate] never throws, and the last thing it does tells how
    it went.  It ends by showing "Ready" exactly when monitoring started
    and the set-up did not throw; it ends with the set-up failure message
    exactly when the set-up threw.  "Ready" therefore also appears when the
    set-up gave up without choosing a destination directory: monitoring
    then runs with [screenshotDir] as it was. *)
Theorem X17_activate_reports_ready {L : path.Lib} {N : node.Lib} (h : Host) (g : Globals) :
  let r := activate h g in
  let ready := core (showInformationMessage
                 "WSL Screen Snipper: Ready! Screenshot monitoring active") in
  let failed := core (showErrorMessage
                  "WSL Screen Snipper: Failed to setup screenshot directory - ") in
  r.1.1 = Normal tt /\
  (last r.2 = Some ready <-> mkdir_fails h = false /\ monitoring_starts h = true) /\
  (last r.2 = Some failed <-> mkdir_fails h = true) /\
  (chosen_dir h = None -> monitoring_starts h = true ->
   last r.2 = Some ready /\ screenshotDir r.1.2 = screenshotDir g /\
   exists t, pollingInterval r.1.2 = Some t /\ polled t = windows_path h).
Proof.
  cbn zeta. rewrite activate_last. split; [by rewrite activate_eq|].
  split; [|split].
  - destruct (mkdir_fails h), (monitoring_starts h); split;
      first [ intros Hx; discriminate Hx | intros [Ha Hb]; discriminate | by intros _ ].
  - destruct (mkdir_fails h), (monitoring_starts h); split;
      first [ intros Hx; discriminate Hx | by intros _ ].
  - intros Hnone Hmon. rewrite Hmon.
    assert (Hok : mkdir_fails h = false) by (unfold mkdir_fails; by rewrite Hnone).
    rewrite Hok. split; [reflexivity|].
    rewrite activate_eq. cbn zeta. cbn [fst snd].
    rewrite setupScreenshotDirectory_eq, startFileMonitoring_configured_eq. cbn [fst snd].
    rewrite Hnone, startFileMonitoring_eq.
    unfold monitoring_starts in Hmon. apply andb_true_iff in Hmon as [Hne Hex].
    apply negb_true_iff in Hne. rewrite Hne, Hex. cbn [negb]. cbn zeta.
    unfold globals_of. cbn [fst snd]. split.
    + by destruct (fs.watch_ok (world h) (windows_path h)).
    + by eexists.
Qed.

Lemma X17_activate_reports_ready_witness :
  last (activate (L := posix) (N := Desk.plain)
          (Desk.host (Desk.with_gitignore Scenario.with_b) "node_modules/") initial).2
  = Some (core (showInformationMessage
                  "WSL Screen Snipper: Ready! Screenshot monitoring active")).
Proof.
  destruct (X17_activate_reports_ready (L := posix) (N := Desk.plain)
              (Desk.host (Desk.with_gitignore Scenario.with_b) "node_modules/") initial)
    as (_ & Hready & _).
  apply Hready. split; reflexivity.
Defined.

(** X18.  The two filters, exactly.  A name qualifies if and only if it
    is some text followed by [.png], [.jpg] or [.jpeg]; the text may be
    empty, so a file called [.png] qualifies.  The watcher schedules a
    settle timer if and only if the event is [rename] and carries a
    qualifying name; it then schedules the join of the watched directory
    and that name. *)
Theorem X18_filters_exactly {L : path.Lib}
    (dir eventType filename : string) (reported : option string) :
  (qualifies filename = true <->
   exists base, filename = base +:+ ".png" \/ filename = base +:+ ".jpg"
                \/ filename = base +:+ ".jpeg") /\
  qualifies ".png" = true /\
  (is_Some (watchCallback dir eventType reported) <->
   eventType = "rename" /\ exists f, reported = Some f /\ qualifies f = true) /\
  (forall p, watchCallback dir eventType reported = Some p ->
             exists f, reported = Some f /\ p = path.join dir f).
Proof.
  split; [apply qualifies_iff|]. split; [reflexivity|]. split; [split|].
  - intros [p Hp]. unfold watchCallback in Hp.
    destruct (String.eqb_spec eventType "rename") as [->|]; [|discriminate].
    split; [reflexivity|]. destruct reported as [f|]; [|discriminate].
    cbn [truthy] in Hp. destruct (String.eqb f EmptyString); [discriminate|].
    destruct (qualifies f) eqn:Hq; [|discriminate]. by exists f.
  - intros [-> (f & -> & Hq)]. unfold watchCallback.
    rewrite String.eqb_refl. cbn [truthy].
    destruct (String.eqb_spec f EmptyString) as [->|_]; [discriminate Hq|].
    rewrite Hq. by eexists.
  - intros p Hp. unfold watchCallback in Hp.
    destruct (String.eqb eventType "rename"); [|discriminate].
    destruct reported as [f|]; [|discriminate].
    cbn [truthy] in Hp. destruct (String.eqb f EmptyString); [discriminate|].
    destruct (qualifies f); [|discriminate]. injection Hp as <-. by exists f.
Qed.

Lemma X18_filters_exactly_witness :
  exists f, Some "shot.jpeg" = Some f /\
            Example.source +:+ "/shot.jpeg" = Example.source +:+ "/" +:+ f.
Proof.
  destruct (X18_filters_exactly (L := posix) Example.source "rename" "shot.jpeg"
              (Some "shot.jpeg")) as (_ & _ & _ & Hpath).
  apply (Hpath (Example.source +:+ "/shot.jpeg")). reflexivity.
Defined.

(** X19.  When the file exists but [fs.statSync] throws inside the
    pipeline, the error is logged and nothing else happens: the path is
    not put in [processedFiles], so a later candidate for it that finds a
    valid file is ingested. *)
Theorem X19_pipeline_stat_failure {L : path.Lib}
    (w w' : fs.World) (P : string) (g : Globals)
    (Hnew : P ∉ processedFiles g)
    (Hthere : fs.exists_ w P = true)
    (Hstat : fs.stat w P = None) :
  handleNewScreenshot w P g =
    (Normal tt, g, [console_error ("Error processing screenshot " +:+ P +:+ ":")]) /\
  (passes_gate w' P = true ->
   handleNewScreenshot w' P (globals_of (handleNewScreenshot w P g))
   = publish w' P (mark P g)).
Proof.
  assert (Hlog : handleNewScreenshot w P g =
            (Normal tt, g, [console_error ("Error processing screenshot " +:+ P +:+ ":")])).
  { rewrite handleNewScreenshot_eq. unfold passes_gate. rewrite Hthere, Hstat.
    destruct (decide _); [contradiction|]. reflexivity. }
  split; [exact Hlog|]. intros Hgate. rewrite Hlog.
  by apply handleNewScreenshot_ingests.
Qed.

Lemma X19_pipeline_stat_failure_witness :
  handleNewScreenshot (L := posix)
    (Variant.all_present (Example.world Failure.locked_x true true 310))
    (Example.source +:+ "/x.png") Example.started
  = (Normal tt, Example.started,
     [console_error ("Error processing screenshot " +:+ Example.source +:+ "/x.png:")]).
Proof.
  assert (Hnew : Example.source +:+ "/x.png" ∉ processedFiles Example.started).
  { apply (bool_decide_unpack _). vm_compute. exact I. }
  destruct (X19_pipeline_stat_failure (L := posix)
              (Variant.all_present (Example.world Failure.locked_x true true 310))
              Scenario.with_b
              (Example.source +:+ "/x.png") Example.started Hnew eq_refl eq_refl)
    as [Hlog _].
  exact Hlog.
Defined.
